(** * LibreNMS synchronisation jobs

    A shallow embedding of the two batch jobs of this repository,

      - [update_librenms.py]            (module [Update]),
      - [sync_elements_to_librenms.py]  (module [SyncElements]),

    and the properties of their reconciliation (create / delete / update) and
    of the rule evaluation that derives the per-interface [ignore] flag.

    Both jobs talk to LibreNMS and to the inventory API through the managers
    of [ablib], which is a separate package.  What these managers return is an
    input of the model; every call the job makes on them is recorded, in
    order, in a log.  [print] statements are not recorded. *)

From Stdlib Require Import Ascii String List ZArith Bool Lia Permutation Arith
  Sorted.
Import ListNotations.
Open Scope string_scope.
Open Scope list_scope.

Set Implicit Arguments.

(** ** Python dictionaries

    A [dict] keeps its items in insertion order and iterates in that order, so
    it is an association list.  A well-formed dictionary has no key twice
    ([dict_wf]); lookups take the first binding. *)

Definition dict (V : Type) : Type := list (string * V).

Definition dict_keys {V} (d : dict V) : list string := map fst d.
Definition dict_values {V} (d : dict V) : list V := map snd d.
Definition dict_items {V} (d : dict V) : list (string * V) := d.

Fixpoint dict_get {V} (k : string) (d : dict V) : option V :=
  match d with
  | [] => None
  | (k', v) :: rest => if String.eqb k k' then Some v else dict_get k rest
  end.

(** [k in d] *)
Definition dict_in {V} (k : string) (d : dict V) : bool :=
  match dict_get k d with Some _ => true | None => false end.

Definition dict_wf {V} (d : dict V) : Prop := NoDup (dict_keys d).

(** [x in l] for a list of strings (tags, persistent devices). *)
Definition str_in (x : string) (l : list string) : bool :=
  existsb (String.eqb x) l.

(** Truth value of a string: the empty string is false. *)
Definition str_truthy (s : string) : bool :=
  match s with EmptyString => false | String _ _ => true end.

(** ** Python sets

    [set(d.keys())] drops duplicates; [a - b] keeps the members of [a] that
    are not in [b].  The order in which a [for] loop visits a set is not fixed
    by the language: it is a parameter, any rearrangement of the members. *)

Definition py_set (l : list string) : list string := nodup string_dec l.

Definition set_diff (a b : list string) : list string :=
  filter (fun x => negb (str_in x b)) a.

Record set_order : Type := {
  set_iter : list string -> list string;
  set_iter_perm : forall l, Permutation (set_iter l) l
}.

Definition insertion_order : set_order :=
  {| set_iter := fun l => l; set_iter_perm := @Permutation_refl string |}.

(** ** Regular expressions

    [re.compile] and [Pattern.search] belong to Python's library.  The jobs
    only need that compiling a pattern either raises [re.error] ([None]) or
    gives a compiled pattern, and that a search on a string matches or does
    not. *)

Class Re : Type := {
  regex : Type;
  re_compile : string -> option regex;
  re_search : regex -> string -> bool
}.

(** The loops [for p in patterns: compiled.append(re.compile(p))] at module
    level: the first pattern that does not compile raises. *)
Fixpoint compile_all `{Re} (patterns : list string) : option (list regex) :=
  match patterns with
  | [] => Some []
  | p :: rest =>
      match re_compile p with
      | None => None
      | Some r =>
          match compile_all rest with
          | None => None
          | Some rs => Some (r :: rs)
          end
      end
  end.

(** A small instance used to run the jobs on concrete inventories: patterns
    without metacharacters, for which [search] is substring search.  A
    pattern with an unclosed group, such as ["("], does not compile. *)
Module LiteralRe.

Fixpoint prefixb (p s : string) : bool :=
  match p, s with
  | EmptyString, _ => true
  | String a p', String b s' => Ascii.eqb a b && prefixb p' s'
  | String _ _, EmptyString => false
  end.

Fixpoint substringb (p s : string) : bool :=
  prefixb p s ||
  match s with
  | EmptyString => false
  | String _ s' => substringb p s'
  end.

Fixpoint depth (s : string) (open : nat) : option nat :=
  match s with
  | EmptyString => Some open
  | String c s' =>
      if Ascii.eqb c "("%char then depth s' (S open)
      else if Ascii.eqb c ")"%char then
        match open with O => None | S n => depth s' n end
      else depth s' open
  end.

Definition compile (p : string) : option string :=
  match depth p 0 with
  | Some O => Some p
  | _ => None
  end.

#[export] Instance literal_re : Re :=
  {| regex := string; re_compile := compile; re_search := substringb |}.

End LiteralRe.

(** ** Calls, exceptions and the log

    A job is a sequence of calls on external managers.  Any of them may raise;
    an exception leaves [main] at once.  A computation takes the log of the
    calls made so far and returns the extended log with [Some] result, or
    [None] when a call raised.  Which call raises is decided by [raises],
    indexed by the position of the call in the log. *)

Section Exec.

Variable Ev : Type.
Variable raises : nat -> bool.

Definition M (A : Type) : Type := list Ev -> list Ev * option A.

Definition ret {A} (a : A) : M A := fun log => (log, Some a).

Definition bind {A B} (m : M A) (k : A -> M B) : M B :=
  fun log =>
    match m log with
    | (log', Some a) => k a log'
    | (log', None) => (log', None)
    end.

(** An exception raised by the job's own code. *)
Definition throw {A} : M A := fun log => (log, None).

Definition call (e : Ev) : M unit :=
  fun log => (log ++ [e], if raises (length log) then None else Some tt).

(** [for x in l: body(x)] *)
Fixpoint for_each {X} (l : list X) (body : X -> M unit) : M unit :=
  match l with
  | [] => ret tt
  | x :: rest => bind (body x) (fun _ => for_each rest body)
  end.

(** Making the calls of a list one after the other. *)
Definition perform (plan : list Ev) : M unit := for_each plan call.

(** [m] makes exactly the calls of [plan], as long as none raises. *)
Definition performs (m : M unit) (plan : list Ev) : Prop :=
  forall log, m log = perform plan log.

End Exec.

Arguments ret {Ev A} a _.
Arguments bind {Ev A B} m k _.
Arguments throw {Ev A} _.
Arguments call {Ev} raises e _.
Arguments for_each {Ev X} l body _.
Arguments perform {Ev} raises plan _.
Arguments performs {Ev} raises m plan.

Declare Scope job_scope.
Delimit Scope job_scope with job.
Notation "m ;; k" := (bind m (fun _ => k))
  (at level 61, right associativity) : job_scope.

(** How a run of the whole script ends. *)
Inductive outcome : Type :=
| Finished          (* [main] returned *)
| Traceback_sent    (* the handler caught an exception and called
                       [utils.send_traceback] *)
| Propagated.       (* an exception left the script *)

(** ** update_librenms.py *)

Module Update.

(** An interface of a device in the Device-API: [tags], and [role] when the
    key is there. *)
Record api_interface : Type := {
  tags : list string;
  role : option string
}.

(** A device of the Device-API. *)
Record api_device : Type := {
  enabled : bool;
  monitor_librenms : bool;
  alarm_interfaces : bool;
  interfaces : dict api_interface
}.

(** A port as LibreNMS reports it. *)
Record librenms_interface : Type := {
  ifname : string;
  ifalias : string;
  ifdescr : string;
  ignore : Z;
  port_id : Z
}.

(** A device as LibreNMS reports it: [librenms_device['ignore']]. *)
Record librenms_device : Type := {
  device_ignore : Z
}.

(** [config.librenms_sync] *)
Record config : Type := {
  roles_enabled : list string;
  interfaces_disabled : list string;
  persistent_devices : list string
}.

(** What the managers answer during one run.  [librenms_devices] is the
    dictionary [librenms_mgr.get_devices()] returns.  [main] keeps that
    object and iterates it again after [librenms_mgr.load_devices()];
    whether [load_devices] refreshes the same object or builds a new one is
    decided inside [ablib], so the contents of the object after that call
    are a separate input, [librenms_devices_after_load].  A manager that
    builds a new dictionary leaves it equal to [librenms_devices]. *)
Record env : Type := {
  librenms_devices : dict librenms_device;
  api_devices : dict api_device;
  librenms_devices_after_load : dict librenms_device;
  device_interfaces : string -> option (dict librenms_interface)
}.

(** The calls [main] makes, each named after the function called. *)
Inductive action : Type :=
| Librenms_Mgr
| get_devices
| Device_Mgr
| device_get_devices
| write_etc_hosts_file
| create_device (name : string)
| delete_device (name : string)
| load_devices
| update_device (name : string) (ignore : Z)
| get_device_interfaces (name : string)
| update_device_interface (port_id : Z) (ignore : Z).

Definition action_eq_dec (a b : action) : {a = b} + {a <> b}.
Proof. decide equality; auto using string_dec, Z.eq_dec. Defined.

Section Job.

Context `{Re}.
Variable raises : nat -> bool.
Variable roles_enabled_compiled : list regex.
Variable interfaces_disabled_compiled : list regex.
Variable persistent : list string.
Variable e : env.

(** Lines 64-71: the key under which the port is known to the Device-API,
    trying [ifname], [ifalias], [ifdescr] in turn. *)
Definition librenms_interface_name
    (api_device_interfaces : dict api_interface)
    (librenms_interface : librenms_interface) : option string :=
  if dict_in (ifname librenms_interface) api_device_interfaces
  then Some (ifname librenms_interface)
  else if dict_in (ifalias librenms_interface) api_device_interfaces
  then Some (ifalias librenms_interface)
  else if dict_in (ifdescr librenms_interface) api_device_interfaces
  then Some (ifdescr librenms_interface)
  else None.

(** Lines 94-96 and 98-101: each loop goes through all patterns and
    assigns on every match. *)
Definition roles_rule (role : string) (ignore0 : Z) : Z :=
  fold_left (fun ign role_regex =>
               if re_search role_regex role then 0%Z else ign)
            roles_enabled_compiled ignore0.

Definition interfaces_rule (name : string) (ignore0 : Z) : Z :=
  fold_left (fun ign interface_regex =>
               if re_search interface_regex name then 1%Z else ign)
            interfaces_disabled_compiled ignore0.

(** Lines 80-101: the rules applied to a port found in the Device-API. *)
Definition apply_rules (name : string)
    (api_device_interface : api_interface) (ignore0 : Z) : Z :=
  let ign := ignore0 in
  let ign := if str_in "uplink" (tags api_device_interface)
             then 0%Z else ign in
  let ign := if str_in "librenms_alarm_disable" (tags api_device_interface)
             then 1%Z else ign in
  let ign := if str_in "librenms_alarm_enable" (tags api_device_interface)
             then 0%Z else ign in
  let ign := match role api_device_interface with
             | Some r => roles_rule r ign
             | None => ign
             end in
  interfaces_rule name ign.

(** Lines 64-101: the value of [ignore] when line 103 is reached.  The
    test [if librenms_interface_name:] is a truth test, which [None] and
    the empty string both fail. *)
Definition derived_ignore (api_device : api_device)
    (librenms_interface : librenms_interface) : Z :=
  let api_device_interfaces := interfaces api_device in
  let default := if alarm_interfaces api_device then 0%Z else 1%Z in
  match librenms_interface_name api_device_interfaces librenms_interface
  with
  | None => default
  | Some name =>
      if str_truthy name then
        match dict_get name api_device_interfaces with
        | Some api_device_interface =>
            apply_rules name api_device_interface default
        | None => default
        end
      else default
  end.

(** Lines 103-109. *)
Definition sync_interface (api_device : api_device)
    (librenms_interface : librenms_interface) : M action unit :=
  let ign := derived_ignore api_device librenms_interface in
  if negb (Z.eqb (ignore librenms_interface) ign)
  then call raises (update_device_interface (port_id librenms_interface) ign)
  else ret tt.

Definition sync_interfaces (name : string)
    (librenms_device : librenms_device) (api_device : api_device)
  : M action unit :=
  (call raises (get_device_interfaces name) ;;
   match device_interfaces e name with
   | None => ret tt
   | Some librenms_interfaces =>
       for_each (dict_values librenms_interfaces)
                (sync_interface api_device)
   end)%job.

(** Lines 146-153. *)
Definition create_in_librenms : list string :=
  flat_map (fun '(name, device) =>
              if negb (enabled device) then []
              else if negb (monitor_librenms device) then []
              else if negb (dict_in name (librenms_devices e)) then [name]
              else [])
           (dict_items (api_devices e)).

(** Lines 158-169. *)
Definition delete_in_librenms : list string :=
  flat_map (fun '(name, device) =>
              if str_in name persistent then []
              else match dict_get name (api_devices e) with
                   | None => [name]
                   | Some api_device =>
                       if negb (enabled api_device) then [name] else []
                   end)
           (dict_items (librenms_devices e)).

Definition list_truthy {X} (l : list X) : bool :=
  match l with [] => false | _ :: _ => true end.

(** The contents of the dictionary [librenms_devices] when the loop of
    line 205 iterates it. *)
Definition devices_at_update : dict librenms_device :=
  if list_truthy create_in_librenms || list_truthy delete_in_librenms
  then librenms_devices_after_load e
  else librenms_devices e.

(** Lines 211-219: [data], empty or with the one key [ignore]. *)
Definition device_data (librenms_device : librenms_device)
    (api_device : api_device) : option Z :=
  let librenms_enabled := Z.eqb (device_ignore librenms_device) 0 in
  let api_enabled := enabled api_device in
  if negb (Bool.eqb librenms_enabled api_enabled)
  then Some (if api_enabled then 0%Z else 1%Z)
  else None.

(** Lines 206-225, the body of the update loop.  [if api_device:] tests
    that the dictionary of the device is not empty; a device with the
    fields read here is not. *)
Definition update_one (item : string * librenms_device) : M action unit :=
  let (name, librenms_device) := item in
  match dict_get name (api_devices e) with
  | None => ret tt
  | Some api_device =>
      ((match device_data librenms_device api_device with
        | Some ign => call raises (update_device name ign)
        | None => ret tt
        end) ;;
       sync_interfaces name librenms_device api_device)%job
  end.

Definition main : M action unit :=
  (call raises Librenms_Mgr ;;
   call raises get_devices ;;
   call raises Device_Mgr ;;
   call raises device_get_devices ;;
   call raises write_etc_hosts_file ;;
   for_each create_in_librenms (fun name => call raises (create_device name)) ;;
   for_each delete_in_librenms (fun name => call raises (delete_device name)) ;;
   (if list_truthy create_in_librenms || list_truthy delete_in_librenms
    then call raises load_devices else ret tt) ;;
   for_each (dict_items devices_at_update) update_one)%job.

(** The calls of a run in which nothing raises, as a list; [main_performs]
    below shows that [main] makes these calls, in this order. *)
Definition interface_calls (api_device : api_device)
    (librenms_interface : librenms_interface) : list action :=
  let ign := derived_ignore api_device librenms_interface in
  if negb (Z.eqb (ignore librenms_interface) ign)
  then [update_device_interface (port_id librenms_interface) ign]
  else [].

Definition interfaces_calls (name : string) (api_device : api_device)
  : list action :=
  get_device_interfaces name ::
  match device_interfaces e name with
  | None => []
  | Some librenms_interfaces =>
      flat_map (interface_calls api_device)
               (dict_values librenms_interfaces)
  end.

Definition device_calls (name : string)
    (librenms_device : librenms_device) (api_device : api_device)
  : list action :=
  match device_data librenms_device api_device with
  | Some ign => [update_device name ign]
  | None => []
  end.

Definition update_calls (item : string * librenms_device) : list action :=
  match dict_get (fst item) (api_devices e) with
  | None => []
  | Some api_device =>
      device_calls (fst item) (snd item) api_device
      ++ interfaces_calls (fst item) api_device
  end.

Definition setup_calls : list action :=
  [Librenms_Mgr; get_devices; Device_Mgr; device_get_devices;
   write_etc_hosts_file].

Definition reload_calls : list action :=
  if list_truthy create_in_librenms || list_truthy delete_in_librenms
  then [load_devices] else [].

Definition calls : list action :=
  setup_calls
  ++ map create_device create_in_librenms
  ++ map delete_device delete_in_librenms
  ++ reload_calls
  ++ flat_map update_calls (dict_items devices_at_update).

End Job.

(** The script: configuration and patterns are set up when the module is
    loaded, outside the [try]; [main] runs inside it. *)
Definition script `{Re} (raises : nat -> bool) (cfg : config) (e : env)
  : list action * outcome :=
  match compile_all (roles_enabled cfg) with
  | None => ([], Propagated)
  | Some roles_enabled_compiled =>
      match compile_all (interfaces_disabled cfg) with
      | None => ([], Propagated)
      | Some interfaces_disabled_compiled =>
          match main raises roles_enabled_compiled
                     interfaces_disabled_compiled
                     (persistent_devices cfg) e []
          with
          | (log, Some _) => (log, Finished)
          | (log, None) => (log, Traceback_sent)
          end
      end
  end.

End Update.

(** ** sync_elements_to_librenms.py *)

Module SyncElements.

(** An interface of an element in the Elements API: [role] when the key is
    there. *)
Record element_interface : Type := {
  role : option string
}.

(** An element of the Elements API; [monitor_librenms] and [interfaces] are
    keys that may be absent. *)
Record api_element : Type := {
  monitor_librenms : option bool;
  active : bool;
  interfaces : option (dict element_interface)
}.

(** A port as LibreNMS reports it; ports are keyed by interface name. *)
Record librenms_interface : Type := {
  ignore : Z;
  port_id : Z
}.

Record librenms_element : Type := {
  element_ignore : Z
}.

(** [config.librenms_sync]; of the dictionary [persistent_elements] only the
    keys are read. *)
Record config : Type := {
  roles_enabled : list string;
  interfaces_disabled : list string;
  persistent_elements : list string
}.

(** What the managers answer during one run, and the order in which the
    loops over sets visit their members. *)
Record env : Type := {
  librenms_elements : dict librenms_element;
  tmp_api_elements : dict api_element;
  element_interfaces : string -> option (dict librenms_interface);
  order : set_order
}.

Inductive action : Type :=
| Librenms_Mgr
| get_elements
| Elements_Mgr
| api_get_elements
| write_etc_hosts_file
| create_element (hostname : string)
| delete_element (hostname : string)
| update_element (hostname : string) (ignore : Z)
| get_element_interfaces (hostname : string)
| update_element_interface (port_id : Z) (ignore : Z).

Definition action_eq_dec (a b : action) : {a = b} + {a <> b}.
Proof. decide equality; auto using string_dec, Z.eq_dec. Defined.

Section Job.

Context `{Re}.
Variable raises : nat -> bool.
Variable roles_enabled_compiled : list regex.
Variable interfaces_disabled_compiled : list regex.
Variable persistent : list string.
Variable e : env.

(** Lines 95-100: the elements to monitor. *)
Definition api_elements : dict api_element :=
  filter (fun '(hostname, element) =>
            match monitor_librenms element with
            | Some false => false
            | _ => true
            end)
         (dict_items (tmp_api_elements e)).

(** Lines 71-73 and 74-77. *)
Definition roles_rule (role : string) (ignore0 : Z) : Z :=
  fold_left (fun ign role_regex =>
               if negb (re_search role_regex role) then 1%Z else ign)
            roles_enabled_compiled ignore0.

Definition interfaces_rule (name : string) (ignore0 : Z) : Z :=
  fold_left (fun ign interface_regex =>
               if re_search interface_regex name then 1%Z else ign)
            interfaces_disabled_compiled ignore0.

(** Lines 65-77: the value of [ignore] when line 79 is reached. *)
Definition derived_ignore (element_intf : dict element_interface)
    (librenms_interface_name : string) : Z :=
  let ign := 0%Z in
  match dict_get librenms_interface_name element_intf with
  | Some element_interface =>
      let ign := match role element_interface with
                 | Some r => roles_rule r ign
                 | None => ign
                 end in
      interfaces_rule librenms_interface_name ign
  | None => ign
  end.

(** Lines 79-83. *)
Definition sync_interface (element_intf : dict element_interface)
    (item : string * librenms_interface) : M action unit :=
  let (librenms_interface_name, librenms_interface) := item in
  let ign := derived_ignore element_intf librenms_interface_name in
  if negb (Z.eqb (ignore librenms_interface) ign)
  then call raises
         (update_element_interface (port_id librenms_interface) ign)
  else ret tt.

(** [api_elements[hostname]['interfaces']] raises [KeyError] when the
    element has no such key. *)
Definition sync_interfaces (hostname : string) : M action unit :=
  (call raises (get_element_interfaces hostname) ;;
   match element_interfaces e hostname with
   | None => ret tt
   | Some librenms_intf =>
       match dict_get hostname api_elements with
       | None => ret tt
       | Some element =>
           match interfaces element with
           | None => throw
           | Some element_intf =>
               for_each (dict_items librenms_intf)
                        (sync_interface element_intf)
           end
       end
   end)%job.

(** Lines 123-127; the list is empty when the run starts. *)
Definition create_in_librenms : list string :=
  set_iter (order e)
    (set_diff (py_set (dict_keys api_elements))
              (py_set (dict_keys (librenms_elements e)))).

(** Lines 132-138. *)
Definition delete_in_librenms : list string :=
  set_iter (order e)
    (set_diff
       (set_diff (py_set (dict_keys (librenms_elements e)))
                 (py_set (dict_keys api_elements)))
       (py_set persistent)).

(** Lines 171-179. *)
Definition element_data (librenms_element : librenms_element)
    (api_element : api_element) : option Z :=
  let librenms_active := Z.eqb (element_ignore librenms_element) 0 in
  let api_active := active api_element in
  if negb (Bool.eqb librenms_active api_active)
  then Some (if api_active then 0%Z else 1%Z)
  else None.

(** Lines 166-185, the body of the update loop. *)
Definition update_one (item : string * librenms_element) : M action unit :=
  let (hostname, librenms_element) := item in
  match dict_get hostname api_elements with
  | None => ret tt
  | Some api_element =>
      ((match element_data librenms_element api_element with
        | Some ign => call raises (update_element hostname ign)
        | None => ret tt
        end) ;;
       match interfaces api_element with
       | Some _ => sync_interfaces hostname
       | None => ret tt
       end)%job
  end.

Definition main : M action unit :=
  (call raises Librenms_Mgr ;;
   call raises get_elements ;;
   call raises Elements_Mgr ;;
   call raises api_get_elements ;;
   call raises write_etc_hosts_file ;;
   for_each create_in_librenms
            (fun hostname => call raises (create_element hostname)) ;;
   for_each delete_in_librenms
            (fun hostname => call raises (delete_element hostname)) ;;
   for_each (dict_items (librenms_elements e)) update_one)%job.

(** The calls of a run in which nothing raises, as a list. *)
Definition interface_calls (element_intf : dict element_interface)
    (item : string * librenms_interface) : list action :=
  let ign := derived_ignore element_intf (fst item) in
  if negb (Z.eqb (ignore (snd item)) ign)
  then [update_element_interface (port_id (snd item)) ign]
  else [].

Definition interfaces_calls (hostname : string)
    (element_intf : dict element_interface) : list action :=
  get_element_interfaces hostname ::
  match element_interfaces e hostname with
  | None => []
  | Some librenms_intf =>
      flat_map (interface_calls element_intf) (dict_items librenms_intf)
  end.

Definition element_calls (hostname : string)
    (librenms_element : librenms_element) (api_element : api_element)
  : list action :=
  match element_data librenms_element api_element with
  | Some ign => [update_element hostname ign]
  | None => []
  end.

Definition update_calls (item : string * librenms_element) : list action :=
  match dict_get (fst item) api_elements with
  | None => []
  | Some api_element =>
      element_calls (fst item) (snd item) api_element
      ++ match interfaces api_element with
         | Some element_intf => interfaces_calls (fst item) element_intf
         | None => []
         end
  end.

Definition setup_calls : list action :=
  [Librenms_Mgr; get_elements; Elements_Mgr; api_get_elements;
   write_etc_hosts_file].

Definition calls : list action :=
  setup_calls
  ++ map create_element create_in_librenms
  ++ map delete_element delete_in_librenms
  ++ flat_map update_calls (dict_items (librenms_elements e)).

End Job.

Definition script `{Re} (raises : nat -> bool) (cfg : config) (e : env)
  : list action * outcome :=
  match compile_all (roles_enabled cfg) with
  | None => ([], Propagated)
  | Some roles_enabled_compiled =>
      match compile_all (interfaces_disabled cfg) with
      | None => ([], Propagated)
      | Some interfaces_disabled_compiled =>
          match main raises roles_enabled_compiled
                     interfaces_disabled_compiled
                     (persistent_elements cfg) e []
          with
          | (log, Some _) => (log, Finished)
          | (log, None) => (log, Traceback_sent)
          end
      end
  end.

End SyncElements.

(** ** Reading a log

    The kinds of reconciliation call, and the [ignore] flag a device has in
    LibreNMS once the calls of a log have been applied to the flag LibreNMS
    reported: a device-level update replaces the flag of a device that is
    still there, a delete call removes the device and its flag with it
    ([None]). *)

Module UpdateLog.
Import Update.

Definition is_create (a : action) : bool :=
  match a with create_device _ => true | _ => false end.

Definition is_delete (a : action) : bool :=
  match a with delete_device _ => true | _ => false end.

Definition is_update (a : action) : bool :=
  match a with
  | update_device _ _ | update_device_interface _ _ => true
  | _ => false
  end.

(** The part of [main] a call belongs to. *)
Definition phase (a : action) : nat :=
  match a with
  | Librenms_Mgr | get_devices | Device_Mgr | device_get_devices
  | write_etc_hosts_file => 0
  | create_device _ => 1
  | delete_device _ => 2
  | load_devices => 3
  | update_device _ _ | get_device_interfaces _
  | update_device_interface _ _ => 4
  end.

Fixpoint ignore_after (name : string) (stored : option Z)
    (log : list action) : option Z :=
  match log with
  | [] => stored
  | delete_device n :: rest =>
      ignore_after name (if String.eqb n name then None else stored) rest
  | update_device n v :: rest =>
      ignore_after name
        (if String.eqb n name
         then match stored with Some _ => Some v | None => None end
         else stored)
        rest
  | _ :: rest => ignore_after name stored rest
  end.

End UpdateLog.

Module SyncElementsLog.
Import SyncElements.

Definition is_create (a : action) : bool :=
  match a with create_element _ => true | _ => false end.

Definition is_delete (a : action) : bool :=
  match a with delete_element _ => true | _ => false end.

Definition is_update (a : action) : bool :=
  match a with
  | update_element _ _ | update_element_interface _ _ => true
  | _ => false
  end.

Definition phase (a : action) : nat :=
  match a with
  | Librenms_Mgr | get_elements | Elements_Mgr | api_get_elements
  | write_etc_hosts_file => 0
  | create_element _ => 1
  | delete_element _ => 2
  | update_element _ _ | get_element_interfaces _
  | update_element_interface _ _ => 4
  end.

Fixpoint ignore_after (hostname : string) (stored : option Z)
    (log : list action) : option Z :=
  match log with
  | [] => stored
  | delete_element n :: rest =>
      ignore_after hostname (if String.eqb n hostname then None else stored)
                   rest
  | update_element n v :: rest =>
      ignore_after hostname
        (if String.eqb n hostname
         then match stored with Some _ => Some v | None => None end
         else stored)
        rest
  | _ :: rest => ignore_after hostname stored rest
  end.

End SyncElementsLog.

(** A run in which no call raises. *)
Definition quiet : nat -> bool := fun _ => false.

(** ** Sample inventories

    One run of each job, used below to evaluate the jobs on concrete
    inventories.  The patterns are literal, so [LiteralRe] runs them. *)

Module Examples.

Definition update_cfg : Update.config :=
  {| Update.roles_enabled := ["uplink"];
     Update.interfaces_disabled := ["Vlan"];
     Update.persistent_devices := ["core1"] |}.

Definition sw1_interfaces : dict Update.api_interface :=
  [("eth0", {| Update.tags := ["uplink"]; Update.role := Some "uplink" |});
   ("Vlan10", {| Update.tags := []; Update.role := None |})].

Definition sample_api_devices : dict Update.api_device :=
  [("sw1", {| Update.enabled := true; Update.monitor_librenms := true;
              Update.alarm_interfaces := true;
              Update.interfaces := sw1_interfaces |});
   ("sw2", {| Update.enabled := true; Update.monitor_librenms := true;
              Update.alarm_interfaces := true; Update.interfaces := [] |});
   ("sw3", {| Update.enabled := false; Update.monitor_librenms := true;
              Update.alarm_interfaces := true; Update.interfaces := [] |});
   ("sw4", {| Update.enabled := false; Update.monitor_librenms := true;
              Update.alarm_interfaces := true; Update.interfaces := [] |})].

Definition sample_librenms_devices : dict Update.librenms_device :=
  [("sw1", {| Update.device_ignore := 1 |});
   ("sw4", {| Update.device_ignore := 0 |});
   ("old1", {| Update.device_ignore := 0 |});
   ("core1", {| Update.device_ignore := 0 |})].

Definition sw1_ports : dict Update.librenms_interface :=
  [("11", {| Update.ifname := "eth0"; Update.ifalias := "";
             Update.ifdescr := "eth0"; Update.ignore := 1;
             Update.port_id := 11 |});
   ("12", {| Update.ifname := "Vlan10"; Update.ifalias := "";
             Update.ifdescr := "Vlan10"; Update.ignore := 0;
             Update.port_id := 12 |})].

(** [load_devices] leaves the dictionary held by [main] as it was. *)
Definition update_env : Update.env :=
  {| Update.librenms_devices := sample_librenms_devices;
     Update.api_devices := sample_api_devices;
     Update.librenms_devices_after_load := sample_librenms_devices;
     Update.device_interfaces :=
       fun name => if String.eqb name "sw1" then Some sw1_ports else None |}.

Definition sync_cfg : SyncElements.config :=
  {| SyncElements.roles_enabled := ["uplink"];
     SyncElements.interfaces_disabled := ["Vlan"];
     SyncElements.persistent_elements := ["keep"] |}.

Definition sample_api_elements : dict SyncElements.api_element :=
  [("r1", {| SyncElements.monitor_librenms := None;
             SyncElements.active := true;
             SyncElements.interfaces :=
               Some [("eth0", {| SyncElements.role := Some "uplink" |})] |});
   ("r2", {| SyncElements.monitor_librenms := Some false;
             SyncElements.active := true;
             SyncElements.interfaces := None |});
   ("r3", {| SyncElements.monitor_librenms := Some true;
             SyncElements.active := false;
             SyncElements.interfaces := None |});
   ("r4", {| SyncElements.monitor_librenms := None;
             SyncElements.active := true;
             SyncElements.interfaces := None |})].

Definition sample_librenms_elements : dict SyncElements.librenms_element :=
  [("r1", {| SyncElements.element_ignore := 1 |});
   ("r2", {| SyncElements.element_ignore := 0 |});
   ("r3", {| SyncElements.element_ignore := 0 |});
   ("gone", {| SyncElements.element_ignore := 0 |});
   ("keep", {| SyncElements.element_ignore := 0 |})].

Definition r1_ports : dict SyncElements.librenms_interface :=
  [("eth0", {| SyncElements.ignore := 1; SyncElements.port_id := 21 |})].

Definition sync_env : SyncElements.env :=
  {| SyncElements.librenms_elements := sample_librenms_elements;
     SyncElements.tmp_api_elements := sample_api_elements;
     SyncElements.element_interfaces :=
       fun hostname =>
         if String.eqb hostname "r1" then Some r1_ports else None;
     SyncElements.order := insertion_order |}.

(** Inventories that are in step with LibreNMS: nothing to create, nothing
    to delete, every stored flag equal to the derived one. *)
Definition steady_update_env : Update.env :=
  {| Update.librenms_devices :=
       [("sw1", {| Update.device_ignore := 0 |});
        ("core1", {| Update.device_ignore := 0 |})];
     Update.api_devices :=
       [("sw1", {| Update.enabled := true; Update.monitor_librenms := true;
                   Update.alarm_interfaces := true;
                   Update.interfaces := sw1_interfaces |});
        ("sw3", {| Update.enabled := false; Update.monitor_librenms := true;
                   Update.alarm_interfaces := true;
                   Update.interfaces := [] |})];
     Update.librenms_devices_after_load := [];
     Update.device_interfaces :=
       fun name =>
         if String.eqb name "sw1"
         then Some [("11", {| Update.ifname := "eth0"; Update.ifalias := "";
                              Update.ifdescr := "eth0"; Update.ignore := 0;
                              Update.port_id := 11 |});
                    ("12", {| Update.ifname := "Vlan10"; Update.ifalias := "";
                              Update.ifdescr := "Vlan10"; Update.ignore := 1;
                              Update.port_id := 12 |})]
         else None |}.

Definition steady_sync_env : SyncElements.env :=
  {| SyncElements.librenms_elements :=
       [("r1", {| SyncElements.element_ignore := 0 |});
        ("keep", {| SyncElements.element_ignore := 0 |})];
     SyncElements.tmp_api_elements :=
       [("r1", {| SyncElements.monitor_librenms := None;
                  SyncElements.active := true;
                  SyncElements.interfaces :=
                    Some [("eth0",
                           {| SyncElements.role := Some "uplink" |})] |})];
     SyncElements.element_interfaces :=
       fun hostname =>
         if String.eqb hostname "r1"
         then Some [("eth0", {| SyncElements.ignore := 0;
                                SyncElements.port_id := 21 |});
                    ("lo0", {| SyncElements.ignore := 0;
                               SyncElements.port_id := 22 |})]
         else None;
     SyncElements.order := insertion_order |}.

(** LibreNMS after the creations and deletions of the run on
    [update_env], as [load_devices] finds it when it refreshes the
    dictionary held by [main]: [sw2] is there, [sw4] and [old1] are gone. *)
Definition refreshed_update_env : Update.env :=
  {| Update.librenms_devices := sample_librenms_devices;
     Update.api_devices := sample_api_devices;
     Update.librenms_devices_after_load :=
       [("sw1", {| Update.device_ignore := 1 |});
        ("core1", {| Update.device_ignore := 0 |});
        ("sw2", {| Update.device_ignore := 0 |})];
     Update.device_interfaces :=
       fun name => if String.eqb name "sw1" then Some sw1_ports else None |}.

(** An inactive element that is flagged [monitor_librenms == False] and is
    in LibreNMS, where it is persistent, with alerting on. *)
Definition unmonitored_sync_env : SyncElements.env :=
  {| SyncElements.librenms_elements :=
       [("r5", {| SyncElements.element_ignore := 0 |})];
     SyncElements.tmp_api_elements :=
       [("r5", {| SyncElements.monitor_librenms := Some false;
                  SyncElements.active := false;
                  SyncElements.interfaces := None |})];
     SyncElements.element_interfaces := fun _ => None;
     SyncElements.order := insertion_order |}.

End Examples.

(** * Properties *)

(** ** Dictionaries and sets *)

Lemma dict_get_In V (k : string) (d : dict V) v :
  dict_get k d = Some v -> In (k, v) d.
Proof.
  induction d as [|[k' v'] d IH]; simpl; [discriminate|].
  destruct (String.eqb_spec k k') as [->|_].
  - intros [= ->]. now left.
  - intros Hg. right. now apply IH.
Qed.

Lemma dict_get_None V (k : string) (d : dict V) :
  dict_get k d = None <-> ~ In k (dict_keys d).
Proof.
  induction d as [|[k' v'] d IH]; simpl.
  - split; [intros _ []|reflexivity].
  - destruct (String.eqb_spec k k') as [->|Hne].
    + split; [discriminate|]. intros Hn. exfalso. apply Hn. now left.
    + rewrite IH. split.
      * intros Hn [Heq|Hin]; [now apply Hne|now apply Hn].
      * intros Hn Hin. apply Hn. now right.
Qed.

Lemma dict_in_true V (k : string) (d : dict V) :
  dict_in k d = true <-> In k (dict_keys d).
Proof.
  unfold dict_in. destruct (dict_get k d) eqn:Hg.
  - split; [intros _|reflexivity].
    apply dict_get_In in Hg. apply (in_map fst) in Hg. exact Hg.
  - apply dict_get_None in Hg. split; [discriminate|]. intros Hin. now elim Hg.
Qed.

Lemma dict_in_false V (k : string) (d : dict V) :
  dict_in k d = false <-> dict_get k d = None.
Proof.
  unfold dict_in. destruct (dict_get k d); split; congruence.
Qed.

Lemma dict_get_wf V (k : string) (d : dict V) v :
  dict_wf d -> In (k, v) d -> dict_get k d = Some v.
Proof.
  unfold dict_wf. induction d as [|[k' v'] d IH]; simpl; [intros _ []|].
  intros Hnd Hin. inversion Hnd as [|? ? Hk Hnd']; subst.
  destruct Hin as [[= -> ->]|Hin].
  - now rewrite String.eqb_refl.
  - destruct (String.eqb_spec k k') as [->|_].
    + exfalso. apply Hk. apply (in_map fst) in Hin. exact Hin.
    + now apply IH.
Qed.

Lemma str_in_true x l : str_in x l = true <-> In x l.
Proof.
  unfold str_in. rewrite existsb_exists. split.
  - intros [y [Hin Heq]]. apply String.eqb_eq in Heq. now subst.
  - intros Hin. exists x. split; [exact Hin|apply String.eqb_refl].
Qed.

Lemma str_in_false x l : str_in x l = false <-> ~ In x l.
Proof.
  rewrite <- str_in_true. destruct (str_in x l); split; congruence.
Qed.

Lemma py_set_In x l : In x (py_set l) <-> In x l.
Proof. unfold py_set. apply nodup_In. Qed.

Lemma py_set_NoDup l : NoDup (py_set l).
Proof. unfold py_set. apply NoDup_nodup. Qed.

Lemma set_diff_In x a b : In x (set_diff a b) <-> In x a /\ ~ In x b.
Proof.
  unfold set_diff. rewrite filter_In, negb_true_iff, str_in_false. tauto.
Qed.

Lemma set_diff_NoDup a b : NoDup a -> NoDup (set_diff a b).
Proof. unfold set_diff. apply NoDup_filter. Qed.

Lemma set_iter_In (o : set_order) x l : In x (set_iter o l) <-> In x l.
Proof.
  split; apply Permutation_in;
    [apply set_iter_perm | apply Permutation_sym, set_iter_perm].
Qed.

Lemma set_iter_NoDup (o : set_order) l : NoDup l -> NoDup (set_iter o l).
Proof.
  apply Permutation_NoDup, Permutation_sym, set_iter_perm.
Qed.

(** ** The log of a run *)

Section ExecFacts.

Variable Ev : Type.
Variable raises : nat -> bool.

Lemma perform_cons (a : Ev) plan log :
  perform raises (a :: plan) log =
  if raises (length log) then (log ++ [a], None)
  else perform raises plan (log ++ [a]).
Proof.
  unfold perform. simpl. unfold bind, call.
  destruct (raises (length log)); reflexivity.
Qed.

Lemma perform_app (p q : list Ev) log :
  perform raises (p ++ q) log =
  bind (perform raises p) (fun _ => perform raises q) log.
Proof.
  revert log. induction p as [|a p IH]; intros log.
  - reflexivity.
  - simpl app. unfold bind in *. rewrite !perform_cons.
    destruct (raises (length log)); [reflexivity|apply IH].
Qed.

Lemma performs_ret : performs raises (ret tt) (@nil Ev).
Proof. intros log. reflexivity. Qed.

Lemma performs_call (a : Ev) : performs raises (call raises a) [a].
Proof.
  intros log. rewrite perform_cons. unfold call.
  destruct (raises (length log)); reflexivity.
Qed.

Lemma performs_seq (m k : M Ev unit) p q :
  performs raises m p -> performs raises k q ->
  performs raises (bind m (fun _ => k)) (p ++ q).
Proof.
  intros Hm Hk log. rewrite perform_app. unfold bind. rewrite Hm.
  destruct (perform raises p log) as [log' [[]|]]; [apply Hk|reflexivity].
Qed.

Lemma performs_for_each X (l : list X) (body : X -> M Ev unit) plan :
  (forall x, In x l -> performs raises (body x) (plan x)) ->
  performs raises (for_each l body) (flat_map plan l).
Proof.
  induction l as [|x l IH]; intros Hb.
  - apply performs_ret.
  - simpl. apply performs_seq.
    + apply Hb. now left.
    + apply IH. intros y Hy. apply Hb. now right.
Qed.

Lemma performs_calls X (l : list X) (f : X -> Ev) :
  performs raises (for_each l (fun x => call raises (f x))) (map f l).
Proof.
  replace (map f l) with (flat_map (fun x => [f x]) l).
  - apply performs_for_each. intros x _. apply performs_call.
  - induction l as [|x l IH]; simpl; [reflexivity|now rewrite IH].
Qed.

(** A run that returns has made every call of the plan... *)
Lemma perform_returns (plan : list Ev) log log' r :
  perform raises plan log = (log', Some r) ->
  log' = log ++ plan /\
  forall j, j < length plan -> raises (length log + j) = false.
Proof.
  revert log. induction plan as [|a plan IH]; intros log.
  - intros [= <-]. rewrite app_nil_r. split; [reflexivity|].
    simpl. intros j Hj. lia.
  - rewrite perform_cons. destruct (raises (length log)) eqn:Hr;
      [discriminate|].
    intros Hp. apply IH in Hp. destruct Hp as [-> Hno].
    rewrite <- app_assoc. split; [reflexivity|].
    intros [|j] Hj.
    + now rewrite Nat.add_0_r.
    + specialize (Hno j). rewrite length_app in Hno. simpl in Hno, Hj.
      replace (length log + S j) with (length log + 1 + j) by lia.
      apply Hno. lia.
Qed.

(** ...and a run that a call leaves with an exception has made the calls
    up to the first that raises, that one once, and none after it. *)
Lemma perform_raises (plan : list Ev) log log' :
  perform raises plan log = (log', None) ->
  exists k, k < length plan /\
    raises (length log + k) = true /\
    (forall j, j < k -> raises (length log + j) = false) /\
    log' = log ++ firstn (S k) plan.
Proof.
  revert log. induction plan as [|a plan IH]; intros log.
  - discriminate.
  - rewrite perform_cons. destruct (raises (length log)) eqn:Hr.
    + intros [= <-]. exists 0. simpl. rewrite Nat.add_0_r.
      repeat split; [lia|exact Hr|intros j Hj; lia].
    + intros Hp. apply IH in Hp.
      destruct Hp as [k [Hk [Hrk [Hno ->]]]].
      rewrite length_app in Hrk, Hno. simpl in Hrk, Hno.
      exists (S k). simpl. repeat split.
      * lia.
      * now replace (length log + S k) with (length log + 1 + k) by lia.
      * intros [|j] Hj; [now rewrite Nat.add_0_r|].
        replace (length log + S j) with (length log + 1 + j) by lia.
        apply Hno. lia.
      * now rewrite <- app_assoc.
Qed.

(** In either case the log is an initial part of the plan. *)
Lemma perform_prefix (plan : list Ev) log log' r :
  perform raises plan log = (log', r) ->
  exists done rest, plan = done ++ rest /\ log' = log ++ done.
Proof.
  destruct r as [r|]; intros Hp.
  - apply perform_returns in Hp. destruct Hp as [-> _].
    exists plan, []. now rewrite app_nil_r.
  - apply perform_raises in Hp. destruct Hp as [k [_ [_ [_ ->]]]].
    exists (firstn (S k) plan), (skipn (S k) plan).
    now rewrite firstn_skipn.
Qed.

Lemma perform_quiet (plan : list Ev) log :
  (forall n, raises n = false) ->
  perform raises plan log = (log ++ plan, Some tt).
Proof.
  intros Hq. revert log. induction plan as [|a plan IH]; intros log.
  - now rewrite app_nil_r.
  - rewrite perform_cons, Hq, IH, <- app_assoc. reflexivity.
Qed.

End ExecFacts.

(** ** update_librenms.py: [main] makes the calls of [calls] *)

Module UpdateFacts.
Import Update.

Section Job.

Context `{Re}.
Variable raises : nat -> bool.
Variable roles intfs : list regex.
Variable persistent : list string.
Variable e : env.

Lemma update_sync_interface_performs api_device li :
  performs raises (sync_interface raises roles intfs api_device li)
           (interface_calls roles intfs api_device li).
Proof.
  unfold sync_interface, interface_calls.
  destruct (negb _); [apply performs_call|apply performs_ret].
Qed.

Lemma update_sync_interfaces_performs name ld api_device :
  performs raises (sync_interfaces raises roles intfs e name ld api_device)
           (interfaces_calls roles intfs e name api_device).
Proof.
  unfold sync_interfaces, interfaces_calls.
  refine (performs_seq (p := [get_device_interfaces name])
            (performs_call _ _) _).
  destruct (device_interfaces e name) as [lis|].
  - apply performs_for_each. intros li _.
    apply update_sync_interface_performs.
  - apply performs_ret.
Qed.

Lemma update_one_performs item :
  performs raises (update_one raises roles intfs e item)
           (update_calls roles intfs e item).
Proof.
  destruct item as [name ld]. unfold update_one, update_calls. simpl.
  destruct (dict_get name (api_devices e)) as [ad|];
    [|apply performs_ret].
  apply performs_seq.
  - unfold device_calls. destruct (device_data ld ad);
      [apply performs_call|apply performs_ret].
  - apply update_sync_interfaces_performs.
Qed.

Lemma update_main_performs :
  performs raises (main raises roles intfs persistent e)
           (calls roles intfs persistent e).
Proof.
  unfold main, calls, setup_calls.
  refine (performs_seq (p := [Librenms_Mgr]) (performs_call _ _) _).
  refine (performs_seq (p := [get_devices]) (performs_call _ _) _).
  refine (performs_seq (p := [Device_Mgr]) (performs_call _ _) _).
  refine (performs_seq (p := [device_get_devices]) (performs_call _ _) _).
  refine (performs_seq (p := [write_etc_hosts_file]) (performs_call _ _) _).
  apply performs_seq; [apply performs_calls|].
  apply performs_seq; [apply performs_calls|].
  apply performs_seq.
  - unfold reload_calls. destruct (_ || _);
      [apply performs_call|apply performs_ret].
  - apply performs_for_each. intros item _. apply update_one_performs.
Qed.

(** A run of [main] that returns has made exactly the calls of [calls]. *)
Lemma update_main_returns log r :
  main raises roles intfs persistent e [] = (log, Some r) ->
  log = calls roles intfs persistent e.
Proof.
  rewrite update_main_performs. intros Hp.
  apply perform_returns in Hp. now destruct Hp as [-> _].
Qed.

(** The log of any run of [main] is an initial part of [calls]. *)
Lemma update_main_prefix log r :
  main raises roles intfs persistent e [] = (log, r) ->
  exists rest, calls roles intfs persistent e = log ++ rest.
Proof.
  rewrite update_main_performs. intros Hp.
  apply perform_prefix in Hp. destruct Hp as [done [rest [-> ->]]].
  now exists rest.
Qed.

End Job.

End UpdateFacts.

(** ** sync_elements_to_librenms.py: [main] makes the calls of [calls] *)

Module SyncElementsFacts.
Import SyncElements.

Section Job.

Context `{Re}.
Variable raises : nat -> bool.
Variable roles intfs : list regex.
Variable persistent : list string.
Variable e : env.

Lemma sync_interface_performs element_intf item :
  performs raises (sync_interface raises roles intfs element_intf item)
           (interface_calls roles intfs element_intf item).
Proof.
  destruct item as [n li]. unfold sync_interface, interface_calls. simpl.
  destruct (negb _); [apply performs_call|apply performs_ret].
Qed.

(** [main] calls [sync_interfaces] for a host of [api_elements] that has
    the key [interfaces], so the [KeyError] cannot happen there. *)
Lemma sync_interfaces_performs hostname api_element element_intf :
  dict_get hostname (api_elements e) = Some api_element ->
  interfaces api_element = Some element_intf ->
  performs raises (sync_interfaces raises roles intfs e hostname)
           (interfaces_calls roles intfs e hostname element_intf).
Proof.
  intros Hg Hi. unfold sync_interfaces, interfaces_calls.
  refine (performs_seq (p := [get_element_interfaces hostname])
            (performs_call _ _) _).
  destruct (element_interfaces e hostname) as [lis|].
  - rewrite Hg, Hi. apply performs_for_each. intros item _.
    apply sync_interface_performs.
  - apply performs_ret.
Qed.

Lemma sync_update_one_performs item :
  performs raises (update_one raises roles intfs e item)
           (update_calls roles intfs e item).
Proof.
  destruct item as [hostname le]. unfold update_one, update_calls. simpl.
  destruct (dict_get hostname (api_elements e)) as [ae|] eqn:Hg;
    [|apply performs_ret].
  apply performs_seq.
  - unfold element_calls. destruct (element_data le ae);
      [apply performs_call|apply performs_ret].
  - destruct (interfaces ae) as [ei|] eqn:Hi.
    + now apply sync_interfaces_performs with (api_element := ae).
    + apply performs_ret.
Qed.

Lemma sync_main_performs :
  performs raises (main raises roles intfs persistent e)
           (calls roles intfs persistent e).
Proof.
  unfold main, calls, setup_calls.
  refine (performs_seq (p := [Librenms_Mgr]) (performs_call _ _) _).
  refine (performs_seq (p := [get_elements]) (performs_call _ _) _).
  refine (performs_seq (p := [Elements_Mgr]) (performs_call _ _) _).
  refine (performs_seq (p := [api_get_elements]) (performs_call _ _) _).
  refine (performs_seq (p := [write_etc_hosts_file]) (performs_call _ _) _).
  apply performs_seq; [apply performs_calls|].
  apply performs_seq; [apply performs_calls|].
  apply performs_for_each. intros item _. apply sync_update_one_performs.
Qed.

Lemma sync_main_returns log r :
  main raises roles intfs persistent e [] = (log, Some r) ->
  log = calls roles intfs persistent e.
Proof.
  rewrite sync_main_performs. intros Hp.
  apply perform_returns in Hp. now destruct Hp as [-> _].
Qed.

Lemma sync_main_prefix log r :
  main raises roles intfs persistent e [] = (log, r) ->
  exists rest, calls roles intfs persistent e = log ++ rest.
Proof.
  rewrite sync_main_performs. intros Hp.
  apply perform_prefix in Hp. destruct Hp as [done [rest [-> ->]]].
  now exists rest.
Qed.

End Job.

End SyncElementsFacts.

(** ** The rule evaluation *)

(** A loop [for x in l: if p(x): v = c] leaves [c] in [v] when some [x]
    passes the test, and leaves [v] alone when none does. *)
Section AssignLoop.

Variables (X : Type) (p : X -> bool) (c : Z).

Lemma assign_loop_fixed l :
  fold_left (fun v x => if p x then c else v) l c = c.
Proof.
  induction l as [|x l IH]; simpl; [reflexivity|].
  destruct (p x); exact IH.
Qed.

Lemma assign_loop_hit l v :
  (exists x, In x l /\ p x = true) ->
  fold_left (fun v x => if p x then c else v) l v = c.
Proof.
  revert v. induction l as [|x l IH]; intros v [y [Hin Hp]].
  - destruct Hin.
  - simpl. destruct Hin as [->|Hin].
    + rewrite Hp. apply assign_loop_fixed.
    + apply IH. now exists y.
Qed.

Lemma assign_loop_miss l v :
  (forall x, In x l -> p x = false) ->
  fold_left (fun v x => if p x then c else v) l v = v.
Proof.
  revert v. induction l as [|x l IH]; intros v Hall; simpl.
  - reflexivity.
  - rewrite (Hall x (or_introl eq_refl)).
    apply IH. intros y Hy. apply Hall. now right.
Qed.

End AssignLoop.

Lemma str_truthy_nonempty s : str_truthy s = true <-> s <> "".
Proof. destruct s; simpl; split; congruence. Qed.

Section Rules.

Context `{Re}.
Variable roles intfs : list regex.

Lemma update_roles_rule_keeps_zero r : Update.roles_rule roles r 0 = 0%Z.
Proof. apply (assign_loop_fixed (fun rx => re_search rx r)). Qed.

Lemma update_roles_rule_match r ign :
  (exists rx, In rx roles /\ re_search rx r = true) ->
  Update.roles_rule roles r ign = 0%Z.
Proof. apply (assign_loop_hit (fun rx => re_search rx r)). Qed.

Lemma update_interfaces_rule_match n ign :
  (exists rx, In rx intfs /\ re_search rx n = true) ->
  Update.interfaces_rule intfs n ign = 1%Z.
Proof. apply (assign_loop_hit (fun rx => re_search rx n)). Qed.

Lemma update_interfaces_rule_miss n ign :
  (forall rx, In rx intfs -> re_search rx n = false) ->
  Update.interfaces_rule intfs n ign = ign.
Proof. apply (assign_loop_miss (fun rx => re_search rx n)). Qed.

Lemma sync_roles_rule_all r ign :
  (forall rx, In rx roles -> re_search rx r = true) ->
  SyncElements.roles_rule roles r ign = ign.
Proof.
  intros Hall.
  apply (assign_loop_miss (fun rx => negb (re_search rx r))).
  intros rx Hin. now rewrite (Hall rx Hin).
Qed.

Lemma sync_roles_rule_miss r ign :
  (exists rx, In rx roles /\ re_search rx r = false) ->
  SyncElements.roles_rule roles r ign = 1%Z.
Proof.
  intros [rx [Hin Hs]].
  apply (assign_loop_hit (fun rx => negb (re_search rx r))).
  exists rx. now rewrite Hs.
Qed.

Lemma sync_interfaces_rule_match n ign :
  (exists rx, In rx intfs /\ re_search rx n = true) ->
  SyncElements.interfaces_rule intfs n ign = 1%Z.
Proof. apply (assign_loop_hit (fun rx => re_search rx n)). Qed.

Lemma sync_interfaces_rule_miss n ign :
  (forall rx, In rx intfs -> re_search rx n = false) ->
  SyncElements.interfaces_rule intfs n ign = ign.
Proof. apply (assign_loop_miss (fun rx => re_search rx n)). Qed.

(** The name the port is known under is a key of the device's
    interfaces. *)
Lemma update_interface_name_key ifs li n :
  Update.librenms_interface_name ifs li = Some n ->
  exists ai, dict_get n ifs = Some ai.
Proof.
  unfold Update.librenms_interface_name, dict_in.
  destruct (dict_get (Update.ifname li) ifs) as [a|] eqn:H1.
  { intros [= <-]. now exists a. }
  destruct (dict_get (Update.ifalias li) ifs) as [a|] eqn:H2.
  { intros [= <-]. now exists a. }
  destruct (dict_get (Update.ifdescr li) ifs) as [a|] eqn:H3.
  { intros [= <-]. now exists a. }
  discriminate.
Qed.

(** The value derived for a port that is found under a non-empty name. *)
Lemma update_derived_ignore_found dev li n ai :
  Update.librenms_interface_name (Update.interfaces dev) li = Some n ->
  n <> "" ->
  dict_get n (Update.interfaces dev) = Some ai ->
  Update.derived_ignore roles intfs dev li =
  Update.apply_rules roles intfs n ai
    (if Update.alarm_interfaces dev then 0%Z else 1%Z).
Proof.
  intros Hn Hne Hg. unfold Update.derived_ignore. rewrite Hn.
  apply str_truthy_nonempty in Hne. now rewrite Hne, Hg.
Qed.

(** In update_librenms.py one matching pattern of [roles_enabled] is
    enough to keep alerting on. *)
Lemma update_role_match_enables dev li n ai r :
  Update.librenms_interface_name (Update.interfaces dev) li = Some n ->
  n <> "" ->
  dict_get n (Update.interfaces dev) = Some ai ->
  Update.role ai = Some r ->
  (exists rx, In rx roles /\ re_search rx r = true) ->
  (forall rx, In rx intfs -> re_search rx n = false) ->
  Update.derived_ignore roles intfs dev li = 0%Z.
Proof.
  intros Hn Hne Hg Hr Hm Hd.
  rewrite (update_derived_ignore_found _ _ Hn Hne Hg).
  unfold Update.apply_rules. rewrite Hr.
  rewrite update_interfaces_rule_miss by exact Hd.
  now apply update_roles_rule_match.
Qed.

(** In sync_elements_to_librenms.py the role has to match every pattern. *)
Lemma sync_role_rule_needs_all element_intf n ei r :
  dict_get n element_intf = Some ei ->
  SyncElements.role ei = Some r ->
  (forall rx, In rx intfs -> re_search rx n = false) ->
  (SyncElements.derived_ignore roles intfs element_intf n = 0%Z <->
   forall rx, In rx roles -> re_search rx r = true).
Proof.
  intros Hg Hr Hd. unfold SyncElements.derived_ignore. rewrite Hg, Hr.
  rewrite sync_interfaces_rule_miss by exact Hd. split.
  - intros H0 rx Hin. destruct (re_search rx r) eqn:Hs; [reflexivity|].
    rewrite sync_roles_rule_miss in H0; [discriminate|now exists rx].
  - intros Hall. now apply sync_roles_rule_all.
Qed.

End Rules.

(** C4 (sync_elements_to_librenms.py, lines 69-73).  With the allow-list
    [uplink, core] and no deny-list, an interface of the element whose role
    is [uplink] matches the first pattern, and the rule evaluation still
    derives [ignore = 1]: the loop sets [ignore = 1] for every pattern the
    role does not match, here [core]. *)
Theorem C4_sync_elements_one_matching_role_pattern_not_enough :
  let element_intf :=
    [("eth0", {| SyncElements.role := Some "uplink" |})] in
  @compile_all LiteralRe.literal_re ["uplink"; "core"]
    = Some ["uplink"; "core"] /\
  dict_in "eth0" element_intf = true /\
  @re_search LiteralRe.literal_re "uplink" "uplink" = true /\
  @SyncElements.derived_ignore LiteralRe.literal_re
     ["uplink"; "core"] [] element_intf "eth0" = 1%Z.
Proof. repeat split. Qed.

(** C5, the claim as stated fails in update_librenms.py for an interface
    whose key in the Device-API is the empty string: the test
    [if librenms_interface_name:] skips the rules, so a deny-list pattern
    that matches the name does not set [ignore = 1]. *)
Lemma C5_counterexample_empty_interface_name :
  let dev := {| Update.enabled := true; Update.monitor_librenms := true;
                Update.alarm_interfaces := true;
                Update.interfaces :=
                  [("", {| Update.tags := []; Update.role := None |})] |} in
  let port := {| Update.ifname := ""; Update.ifalias := "";
                 Update.ifdescr := ""; Update.ignore := 0;
                 Update.port_id := 7 |} in
  dict_in (Update.ifname port) (Update.interfaces dev) = true /\
  @compile_all LiteralRe.literal_re [""] = Some [""] /\
  @re_search LiteralRe.literal_re "" (Update.ifname port) = true /\
  @Update.derived_ignore LiteralRe.literal_re [] [""] dev port = 0%Z.
Proof. repeat split. Qed.

(** C5, amended.  For every interface that is present in the source
    inventory for its device under a non-empty name, and whose name matches
    at least one pattern of the deny-list [interfaces_disabled], the rule
    evaluation derives [ignore = 1], whatever the tags, the role and the
    device default are; in update_librenms.py the name is the one of
    [ifname], [ifalias], [ifdescr] the port was found under. *)
Theorem C5_deny_list_match_disables `{Re} (roles intfs : list regex) :
  (forall dev li name,
      Update.librenms_interface_name (Update.interfaces dev) li = Some name ->
      name <> "" ->
      (exists rx, In rx intfs /\ re_search rx name = true) ->
      Update.derived_ignore roles intfs dev li = 1%Z) /\
  (forall element_intf name,
      dict_in name element_intf = true ->
      (exists rx, In rx intfs /\ re_search rx name = true) ->
      SyncElements.derived_ignore roles intfs element_intf name = 1%Z).
Proof.
  split.
  - intros dev li name Hn Hne Hm.
    destruct (update_interface_name_key _ _ Hn) as [ai Hg].
    rewrite (update_derived_ignore_found roles intfs _ _ Hn Hne Hg).
    unfold Update.apply_rules. now apply update_interfaces_rule_match.
  - intros element_intf name Hin Hm. unfold SyncElements.derived_ignore.
    unfold dict_in in Hin.
    destruct (dict_get name element_intf) as [ei|]; [|discriminate].
    now apply sync_interfaces_rule_match.
Qed.

Lemma C5_deny_list_match_disables_witness :
  @Update.derived_ignore LiteralRe.literal_re ["uplink"] ["Vlan"]
     {| Update.enabled := true; Update.monitor_librenms := true;
        Update.alarm_interfaces := true;
        Update.interfaces :=
          [("Vlan10", {| Update.tags := ["uplink"; "librenms_alarm_enable"];
                         Update.role := Some "uplink" |})] |}
     {| Update.ifname := "Vlan10"; Update.ifalias := ""; Update.ifdescr := "";
        Update.ignore := 0; Update.port_id := 3 |} = 1%Z /\
  @SyncElements.derived_ignore LiteralRe.literal_re ["uplink"] ["Vlan"]
     [("Vlan10", {| SyncElements.role := Some "uplink" |})] "Vlan10" = 1%Z.
Proof.
  destruct (@C5_deny_list_match_disables LiteralRe.literal_re
              ["uplink"] ["Vlan"]) as [HU HS].
  split.
  - apply HU with (name := "Vlan10").
    + reflexivity.
    + discriminate.
    + exists "Vlan". split; [now left|reflexivity].
  - apply HS.
    + reflexivity.
    + exists "Vlan". split; [now left|reflexivity].
Defined.

(** C6, the claim as stated fails for an interface whose key in the
    Device-API is the empty string: the rules are skipped, the enable tag is
    not looked at, and the device default [alarm_interfaces = False] gives
    [ignore = 1]. *)
Lemma C6_counterexample_empty_interface_name :
  let dev := {| Update.enabled := true; Update.monitor_librenms := true;
                Update.alarm_interfaces := false;
                Update.interfaces :=
                  [("", {| Update.tags := ["librenms_alarm_enable"];
                           Update.role := None |})] |} in
  let port := {| Update.ifname := ""; Update.ifalias := "";
                 Update.ifdescr := ""; Update.ignore := 0;
                 Update.port_id := 7 |} in
  dict_get (Update.ifname port) (Update.interfaces dev)
    = Some {| Update.tags := ["librenms_alarm_enable"];
              Update.role := None |} /\
  @Update.derived_ignore LiteralRe.literal_re [] [] dev port = 1%Z.
Proof. repeat split. Qed.

(** C6, amended.  For every interface that is present in the source
    inventory for its device under a non-empty name, bears the tag
    [librenms_alarm_enable], and whose name matches no deny-list pattern, the
    rule evaluation derives [ignore = 0], also when the interface bears the
    tag [librenms_alarm_disable] and when the device default would disable
    alerting. *)
Theorem C6_enable_tag_overrides `{Re} (roles intfs : list regex)
    dev li name ai :
  Update.librenms_interface_name (Update.interfaces dev) li = Some name ->
  name <> "" ->
  dict_get name (Update.interfaces dev) = Some ai ->
  In "librenms_alarm_enable" (Update.tags ai) ->
  (forall rx, In rx intfs -> re_search rx name = false) ->
  Update.derived_ignore roles intfs dev li = 0%Z.
Proof.
  intros Hn Hne Hg Htag Hd.
  rewrite (update_derived_ignore_found roles intfs _ _ Hn Hne Hg).
  unfold Update.apply_rules.
  apply str_in_true in Htag. rewrite Htag.
  rewrite update_interfaces_rule_miss by exact Hd.
  destruct (Update.role ai) as [r|]; [|reflexivity].
  apply update_roles_rule_keeps_zero.
Qed.

Lemma C6_enable_tag_overrides_witness :
  @Update.derived_ignore LiteralRe.literal_re ["uplink"] ["Vlan"]
     {| Update.enabled := true; Update.monitor_librenms := true;
        Update.alarm_interfaces := false;
        Update.interfaces :=
          [("xe-0/0/1",
            {| Update.tags := ["librenms_alarm_disable";
                               "librenms_alarm_enable"];
               Update.role := Some "access" |})] |}
     {| Update.ifname := "xe-0/0/1"; Update.ifalias := "";
        Update.ifdescr := ""; Update.ignore := 1; Update.port_id := 4 |}
  = 0%Z.
Proof.
  apply (@C6_enable_tag_overrides LiteralRe.literal_re ["uplink"] ["Vlan"])
    with (name := "xe-0/0/1")
         (ai := {| Update.tags := ["librenms_alarm_disable";
                                   "librenms_alarm_enable"];
                   Update.role := Some "access" |}).
  - reflexivity.
  - discriminate.
  - reflexivity.
  - simpl. right. now left.
  - intros rx [<-|[]]. reflexivity.
Defined.

(** ** update_librenms.py: the calls of a run *)

Module UpdateCalls.
Import Update UpdateLog.

Section Job.

Context `{Re}.
Variable roles intfs : list regex.
Variable persistent : list string.
Variable e : env.

Lemma update_setup_phase a : In a setup_calls -> phase a = 0.
Proof.
  unfold setup_calls. simpl.
  intros [<-|[<-|[<-|[<-|[<-|[]]]]]]; reflexivity.
Qed.

Lemma update_reload_phase a :
  In a (reload_calls persistent e) -> phase a = 3.
Proof.
  unfold reload_calls. destruct (_ || _); simpl; [|intros []].
  intros [<-|[]]. reflexivity.
Qed.

Lemma update_In_interface_calls ad li a :
  In a (interface_calls roles intfs ad li) ->
  a = update_device_interface (port_id li)
        (derived_ignore roles intfs ad li) /\
  ignore li <> derived_ignore roles intfs ad li.
Proof.
  unfold interface_calls.
  destruct (Z.eqb_spec (ignore li) (derived_ignore roles intfs ad li));
    simpl; [intros []|].
  intros [<-|[]]. now split.
Qed.

Lemma update_In_interfaces_calls name ad a :
  In a (interfaces_calls roles intfs e name ad) ->
  a = get_device_interfaces name \/
  exists lis li,
    device_interfaces e name = Some lis /\
    In li (dict_values lis) /\
    a = update_device_interface (port_id li)
          (derived_ignore roles intfs ad li) /\
    ignore li <> derived_ignore roles intfs ad li.
Proof.
  unfold interfaces_calls. intros [<-|Hin]; [now left|]. right.
  destruct (device_interfaces e name) as [lis|]; [|destruct Hin].
  apply in_flat_map in Hin. destruct Hin as [li [Hli Ha]].
  apply update_In_interface_calls in Ha. destruct Ha as [-> Hne].
  now exists lis, li.
Qed.

Lemma update_In_device_calls name ld ad a :
  In a (device_calls name ld ad) <->
  exists v, device_data ld ad = Some v /\ a = update_device name v.
Proof.
  unfold device_calls. destruct (device_data ld ad) as [v|]; simpl.
  - split.
    + intros [<-|[]]. now exists v.
    + intros [v' [[= <-] ->]]. now left.
  - split; [intros []|]. intros [v [Hv _]]. discriminate.
Qed.

Lemma update_calls_phase item a :
  In a (update_calls roles intfs e item) -> phase a = 4.
Proof.
  unfold update_calls.
  destruct (dict_get (fst item) (api_devices e)) as [ad|];
    [|intros []].
  rewrite in_app_iff. intros [Hin|Hin].
  - apply update_In_device_calls in Hin.
    destruct Hin as [v [_ ->]]. reflexivity.
  - apply update_In_interfaces_calls in Hin.
    destruct Hin as [->|[lis [li [_ [_ [-> _]]]]]]; reflexivity.
Qed.

(** Where a call of [calls] comes from. *)
Lemma update_In_calls a :
  In a (calls roles intfs persistent e) <->
  (In a setup_calls) \/
  (exists n, In n (create_in_librenms e) /\ a = create_device n) \/
  (exists n, In n (delete_in_librenms persistent e)
             /\ a = delete_device n) \/
  (In a (reload_calls persistent e)) \/
  (exists item, In item (dict_items (devices_at_update persistent e)) /\
                In a (update_calls roles intfs e item)).
Proof.
  unfold calls. rewrite !in_app_iff, !in_map_iff, in_flat_map.
  split.
  - intros [Hs|[[n [<- Hn]]|[[n [<- Hn]]|[Hr|Hu]]]]; eauto 6.
  - intros [Hs|[[n [Hn ->]]|[[n [Hn ->]]|[Hr|Hu]]]]; eauto 6.
Qed.

Lemma update_In_create n :
  In (create_device n) (calls roles intfs persistent e) <->
  In n (create_in_librenms e).
Proof.
  rewrite update_In_calls. split.
  - intros [Hs|[[m [Hm [= ->]]]|[[m [_ Hm]]|[Hr|[item [_ Hu]]]]]].
    + apply update_setup_phase in Hs. discriminate.
    + exact Hm.
    + discriminate.
    + apply update_reload_phase in Hr. discriminate.
    + apply update_calls_phase in Hu. discriminate.
  - intros Hn. right. left. now exists n.
Qed.

Lemma update_In_delete n :
  In (delete_device n) (calls roles intfs persistent e) <->
  In n (delete_in_librenms persistent e).
Proof.
  rewrite update_In_calls. split.
  - intros [Hs|[[m [_ Hm]]|[[m [Hm [= ->]]]|[Hr|[item [_ Hu]]]]]].
    + apply update_setup_phase in Hs. discriminate.
    + discriminate.
    + exact Hm.
    + apply update_reload_phase in Hr. discriminate.
    + apply update_calls_phase in Hu. discriminate.
  - intros Hn. right. right. left. now exists n.
Qed.

Lemma update_In_update_device n v :
  In (update_device n v) (calls roles intfs persistent e) <->
  exists ld ad,
    In (n, ld) (dict_items (devices_at_update persistent e)) /\
    dict_get n (api_devices e) = Some ad /\
    device_data ld ad = Some v.
Proof.
  rewrite update_In_calls. split.
  - intros [Hs|[[m [_ Hm]]|[[m [_ Hm]]|[Hr|[[m ld] [Hi Hu]]]]]].
    + apply update_setup_phase in Hs. discriminate.
    + discriminate.
    + discriminate.
    + apply update_reload_phase in Hr. discriminate.
    + unfold update_calls in Hu. simpl in Hu.
      destruct (dict_get m (api_devices e)) as [ad|] eqn:Hg;
        [|destruct Hu].
      apply in_app_iff in Hu. destruct Hu as [Hu|Hu].
      * apply update_In_device_calls in Hu.
        destruct Hu as [v' [Hd [= -> ->]]]. now exists ld, ad.
      * apply update_In_interfaces_calls in Hu.
        destruct Hu as [Hu|[lis [li [_ [_ [Hu _]]]]]]; discriminate.
  - intros [ld [ad [Hi [Hg Hd]]]]. do 4 right. exists (n, ld).
    split; [exact Hi|]. unfold update_calls. simpl. rewrite Hg.
    apply in_app_iff. left. apply update_In_device_calls. now exists v.
Qed.

Lemma update_In_update_device_interface p v :
  In (update_device_interface p v) (calls roles intfs persistent e) ->
  exists n ld ad lis li,
    In (n, ld) (dict_items (devices_at_update persistent e)) /\
    dict_get n (api_devices e) = Some ad /\
    device_interfaces e n = Some lis /\
    In li (dict_values lis) /\
    port_id li = p /\
    derived_ignore roles intfs ad li = v /\
    ignore li <> v.
Proof.
  rewrite update_In_calls.
  intros [Hs|[[m [_ Hm]]|[[m [_ Hm]]|[Hr|[[m ld] [Hi Hu]]]]]].
  - apply update_setup_phase in Hs. discriminate.
  - discriminate.
  - discriminate.
  - apply update_reload_phase in Hr. discriminate.
  - unfold update_calls in Hu. simpl in Hu.
    destruct (dict_get m (api_devices e)) as [ad|] eqn:Hg;
      [|destruct Hu].
    apply in_app_iff in Hu. destruct Hu as [Hu|Hu].
    + apply update_In_device_calls in Hu.
      destruct Hu as [v' [_ Hu]]. discriminate.
    + apply update_In_interfaces_calls in Hu.
      destruct Hu as [Hu|[lis [li [Hl [Hli [[= -> ->] Hne]]]]]];
        [discriminate|].
      exists m, ld, ad, lis, li. repeat split; assumption.
Qed.

End Job.

End UpdateCalls.

(** ** sync_elements_to_librenms.py: the calls of a run *)

Module SyncElementsCalls.
Import SyncElements SyncElementsLog.

Section Job.

Context `{Re}.
Variable roles intfs : list regex.
Variable persistent : list string.
Variable e : env.

Lemma sync_setup_phase a : In a setup_calls -> phase a = 0.
Proof.
  unfold setup_calls. simpl.
  intros [<-|[<-|[<-|[<-|[<-|[]]]]]]; reflexivity.
Qed.

Lemma sync_In_interface_calls ei item a :
  In a (interface_calls roles intfs ei item) ->
  a = update_element_interface (port_id (snd item))
        (derived_ignore roles intfs ei (fst item)) /\
  ignore (snd item) <> derived_ignore roles intfs ei (fst item).
Proof.
  unfold interface_calls.
  destruct (Z.eqb_spec (ignore (snd item))
                       (derived_ignore roles intfs ei (fst item)));
    simpl; [intros []|].
  intros [<-|[]]. now split.
Qed.

Lemma sync_In_interfaces_calls hostname ei a :
  In a (interfaces_calls roles intfs e hostname ei) ->
  a = get_element_interfaces hostname \/
  exists lis n li,
    element_interfaces e hostname = Some lis /\
    In (n, li) (dict_items lis) /\
    a = update_element_interface (port_id li)
          (derived_ignore roles intfs ei n) /\
    ignore li <> derived_ignore roles intfs ei n.
Proof.
  unfold interfaces_calls. intros [<-|Hin]; [now left|]. right.
  destruct (element_interfaces e hostname) as [lis|]; [|destruct Hin].
  apply in_flat_map in Hin. destruct Hin as [[n li] [Hli Ha]].
  apply sync_In_interface_calls in Ha. destruct Ha as [-> Hne].
  now exists lis, n, li.
Qed.

Lemma sync_In_element_calls hostname le ae a :
  In a (element_calls hostname le ae) <->
  exists v, element_data le ae = Some v /\ a = update_element hostname v.
Proof.
  unfold element_calls. destruct (element_data le ae) as [v|]; simpl.
  - split.
    + intros [<-|[]]. now exists v.
    + intros [v' [[= <-] ->]]. now left.
  - split; [intros []|]. intros [v [Hv _]]. discriminate.
Qed.

Lemma sync_update_calls_phase item a :
  In a (update_calls roles intfs e item) -> phase a = 4.
Proof.
  unfold update_calls.
  destruct (dict_get (fst item) (api_elements e)) as [ae|];
    [|intros []].
  rewrite in_app_iff. intros [Hin|Hin].
  - apply sync_In_element_calls in Hin.
    destruct Hin as [v [_ ->]]. reflexivity.
  - destruct (interfaces ae) as [ei|]; [|destruct Hin].
    apply sync_In_interfaces_calls in Hin.
    destruct Hin as [->|[lis [n [li [_ [_ [-> _]]]]]]]; reflexivity.
Qed.

Lemma sync_In_calls a :
  In a (calls roles intfs persistent e) <->
  (In a setup_calls) \/
  (exists n, In n (create_in_librenms e) /\ a = create_element n) \/
  (exists n, In n (delete_in_librenms persistent e)
             /\ a = delete_element n) \/
  (exists item, In item (dict_items (librenms_elements e)) /\
                In a (update_calls roles intfs e item)).
Proof.
  unfold calls. rewrite !in_app_iff, !in_map_iff, in_flat_map.
  split.
  - intros [Hs|[[n [<- Hn]]|[[n [<- Hn]]|Hu]]]; eauto 6.
  - intros [Hs|[[n [Hn ->]]|[[n [Hn ->]]|Hu]]]; eauto 6.
Qed.

Lemma sync_In_create n :
  In (create_element n) (calls roles intfs persistent e) <->
  In n (create_in_librenms e).
Proof.
  rewrite sync_In_calls. split.
  - intros [Hs|[[m [Hm [= ->]]]|[[m [_ Hm]]|[item [_ Hu]]]]].
    + apply sync_setup_phase in Hs. discriminate.
    + exact Hm.
    + discriminate.
    + apply sync_update_calls_phase in Hu. discriminate.
  - intros Hn. right. left. now exists n.
Qed.

Lemma sync_In_delete n :
  In (delete_element n) (calls roles intfs persistent e) <->
  In n (delete_in_librenms persistent e).
Proof.
  rewrite sync_In_calls. split.
  - intros [Hs|[[m [_ Hm]]|[[m [Hm [= ->]]]|[item [_ Hu]]]]].
    + apply sync_setup_phase in Hs. discriminate.
    + discriminate.
    + exact Hm.
    + apply sync_update_calls_phase in Hu. discriminate.
  - intros Hn. right. right. left. now exists n.
Qed.

Lemma sync_In_update_element n v :
  In (update_element n v) (calls roles intfs persistent e) <->
  exists le ae,
    In (n, le) (dict_items (librenms_elements e)) /\
    dict_get n (api_elements e) = Some ae /\
    element_data le ae = Some v.
Proof.
  rewrite sync_In_calls. split.
  - intros [Hs|[[m [_ Hm]]|[[m [_ Hm]]|[[m le] [Hi Hu]]]]].
    + apply sync_setup_phase in Hs. discriminate.
    + discriminate.
    + discriminate.
    + unfold update_calls in Hu. simpl in Hu.
      destruct (dict_get m (api_elements e)) as [ae|] eqn:Hg;
        [|destruct Hu].
      apply in_app_iff in Hu. destruct Hu as [Hu|Hu].
      * apply sync_In_element_calls in Hu.
        destruct Hu as [v' [Hd [= -> ->]]]. now exists le, ae.
      * destruct (interfaces ae) as [ei|]; [|destruct Hu].
        apply sync_In_interfaces_calls in Hu.
        destruct Hu as [Hu|[lis [k [li [_ [_ [Hu _]]]]]]]; discriminate.
  - intros [le [ae [Hi [Hg Hd]]]]. do 3 right. exists (n, le).
    split; [exact Hi|]. unfold update_calls. simpl. rewrite Hg.
    apply in_app_iff. left. apply sync_In_element_calls. now exists v.
Qed.

Lemma sync_In_update_element_interface p v :
  In (update_element_interface p v) (calls roles intfs persistent e) ->
  exists hostname le ae ei lis n li,
    In (hostname, le) (dict_items (librenms_elements e)) /\
    dict_get hostname (api_elements e) = Some ae /\
    interfaces ae = Some ei /\
    element_interfaces e hostname = Some lis /\
    In (n, li) (dict_items lis) /\
    port_id li = p /\
    derived_ignore roles intfs ei n = v /\
    ignore li <> v.
Proof.
  rewrite sync_In_calls.
  intros [Hs|[[m [_ Hm]]|[[m [_ Hm]]|[[m le] [Hi Hu]]]]].
  - apply sync_setup_phase in Hs. discriminate.
  - discriminate.
  - discriminate.
  - unfold update_calls in Hu. simpl in Hu.
    destruct (dict_get m (api_elements e)) as [ae|] eqn:Hg;
      [|destruct Hu].
    apply in_app_iff in Hu. destruct Hu as [Hu|Hu].
    + apply sync_In_element_calls in Hu.
      destruct Hu as [v' [_ Hu]]. discriminate.
    + destruct (interfaces ae) as [ei|] eqn:Hei; [|destruct Hu].
      apply sync_In_interfaces_calls in Hu.
      destruct Hu as [Hu|[lis [k [li [Hl [Hli [[= -> ->] Hne]]]]]]];
        [discriminate|].
      exists m, le, ae, ei, lis, k, li. repeat split; assumption.
Qed.

(** What the two differences of key sets contain. *)
Lemma sync_In_create_list n :
  In n (create_in_librenms e) <->
  In n (dict_keys (api_elements e)) /\
  ~ In n (dict_keys (librenms_elements e)).
Proof.
  unfold create_in_librenms.
  rewrite set_iter_In, set_diff_In, !py_set_In. tauto.
Qed.

Lemma sync_In_delete_list n :
  In n (delete_in_librenms persistent e) <->
  In n (dict_keys (librenms_elements e)) /\
  ~ In n (dict_keys (api_elements e)) /\
  ~ In n persistent.
Proof.
  unfold delete_in_librenms.
  rewrite set_iter_In, !set_diff_In, !py_set_In. tauto.
Qed.

Lemma sync_create_list_NoDup : NoDup (create_in_librenms e).
Proof.
  unfold create_in_librenms.
  apply set_iter_NoDup, set_diff_NoDup, py_set_NoDup.
Qed.

End Job.

End SyncElementsCalls.

(** ** The device-level flag *)

Lemma update_device_data_Some ld ad v :
  Update.device_data ld ad = Some v ->
  v = (if Update.enabled ad then 0 else 1)%Z /\ Update.device_ignore ld <> v.
Proof.
  unfold Update.device_data.
  destruct (Z.eqb_spec (Update.device_ignore ld) 0) as [H0|H0];
    destruct (Update.enabled ad); simpl; try discriminate;
    intros [= <-]; split; try reflexivity; try exact H0.
  rewrite H0. discriminate.
Qed.

Lemma update_device_data_cases ld ad :
  (Update.enabled ad = true -> Update.device_ignore ld <> 0%Z ->
   Update.device_data ld ad = Some 0%Z) /\
  (Update.enabled ad = false -> Update.device_ignore ld = 0%Z ->
   Update.device_data ld ad = Some 1%Z) /\
  (Update.device_ignore ld = (if Update.enabled ad then 0 else 1)%Z ->
   Update.device_data ld ad = None) /\
  (match Update.device_data ld ad with
   | Some v => v
   | None => Update.device_ignore ld
   end = 0%Z <-> Update.enabled ad = true).
Proof.
  unfold Update.device_data.
  destruct (Z.eqb_spec (Update.device_ignore ld) 0) as [H0|H0];
    destruct (Update.enabled ad); simpl; repeat split;
    try congruence; try discriminate; try (intros; lia).
Qed.

Lemma sync_element_data_Some le ae v :
  SyncElements.element_data le ae = Some v ->
  v = (if SyncElements.active ae then 0 else 1)%Z /\
  SyncElements.element_ignore le <> v.
Proof.
  unfold SyncElements.element_data.
  destruct (Z.eqb_spec (SyncElements.element_ignore le) 0) as [H0|H0];
    destruct (SyncElements.active ae); simpl; try discriminate;
    intros [= <-]; split; try reflexivity; try exact H0.
  rewrite H0. discriminate.
Qed.

Lemma sync_element_data_cases le ae :
  (SyncElements.active ae = true -> SyncElements.element_ignore le <> 0%Z ->
   SyncElements.element_data le ae = Some 0%Z) /\
  (SyncElements.active ae = false -> SyncElements.element_ignore le = 0%Z ->
   SyncElements.element_data le ae = Some 1%Z) /\
  (SyncElements.element_ignore le
     = (if SyncElements.active ae then 0 else 1)%Z ->
   SyncElements.element_data le ae = None) /\
  (match SyncElements.element_data le ae with
   | Some v => v
   | None => SyncElements.element_ignore le
   end = 0%Z <-> SyncElements.active ae = true).
Proof.
  unfold SyncElements.element_data.
  destruct (Z.eqb_spec (SyncElements.element_ignore le) 0) as [H0|H0];
    destruct (SyncElements.active ae); simpl; repeat split;
    try congruence; try discriminate; try (intros; lia).
Qed.

(** ** No redundant writes *)

Section NoRedundantWrites.

Context `{Re}.
Variable raises : nat -> bool.
Variable roles intfs : list regex.
Variable persistent : list string.

(** Every update call in the log of a run of update_librenms.py, finished
    or not, writes the derived flag over a stored flag that differs. *)
Lemma update_writes_differ (e : Update.env) log r :
  Update.main raises roles intfs persistent e [] = (log, r) ->
  (forall name v, In (Update.update_device name v) log ->
     exists ld ad,
       In (name, ld)
          (dict_items (Update.devices_at_update persistent e)) /\
       dict_get name (Update.api_devices e) = Some ad /\
       v = (if Update.enabled ad then 0 else 1)%Z /\
       Update.device_ignore ld <> v) /\
  (forall p v, In (Update.update_device_interface p v) log ->
     exists name ad lis li,
       dict_get name (Update.api_devices e) = Some ad /\
       Update.device_interfaces e name = Some lis /\
       In li (dict_values lis) /\
       Update.port_id li = p /\
       v = Update.derived_ignore roles intfs ad li /\
       Update.ignore li <> v).
Proof.
  intros Hrun. apply UpdateFacts.update_main_prefix in Hrun.
  destruct Hrun as [rest Hcalls]. split.
  - intros name v Hin.
    assert (Hc : In (Update.update_device name v)
                    (Update.calls roles intfs persistent e))
      by (rewrite Hcalls; apply in_app_iff; now left).
    apply UpdateCalls.update_In_update_device in Hc.
    destruct Hc as [ld [ad [Hi [Hg Hd]]]].
    apply update_device_data_Some in Hd. destruct Hd as [-> Hne].
    now exists ld, ad.
  - intros p v Hin.
    assert (Hc : In (Update.update_device_interface p v)
                    (Update.calls roles intfs persistent e))
      by (rewrite Hcalls; apply in_app_iff; now left).
    apply UpdateCalls.update_In_update_device_interface in Hc.
    destruct Hc as [n [ld [ad [lis [li [_ [Hg [Hl [Hli [Hp [Hv Hne]]]]]]]]]]].
    exists n, ad, lis, li. repeat split; auto.
Qed.

Lemma sync_writes_differ (e : SyncElements.env) log r :
  SyncElements.main raises roles intfs persistent e [] = (log, r) ->
  (forall hostname v, In (SyncElements.update_element hostname v) log ->
     exists le ae,
       In (hostname, le) (dict_items (SyncElements.librenms_elements e)) /\
       dict_get hostname (SyncElements.api_elements e) = Some ae /\
       v = (if SyncElements.active ae then 0 else 1)%Z /\
       SyncElements.element_ignore le <> v) /\
  (forall p v, In (SyncElements.update_element_interface p v) log ->
     exists hostname ae ei lis n li,
       dict_get hostname (SyncElements.api_elements e) = Some ae /\
       SyncElements.interfaces ae = Some ei /\
       SyncElements.element_interfaces e hostname = Some lis /\
       In (n, li) (dict_items lis) /\
       SyncElements.port_id li = p /\
       v = SyncElements.derived_ignore roles intfs ei n /\
       SyncElements.ignore li <> v).
Proof.
  intros Hrun. apply SyncElementsFacts.sync_main_prefix in Hrun.
  destruct Hrun as [rest Hcalls]. split.
  - intros hostname v Hin.
    assert (Hc : In (SyncElements.update_element hostname v)
                    (SyncElements.calls roles intfs persistent e))
      by (rewrite Hcalls; apply in_app_iff; now left).
    apply SyncElementsCalls.sync_In_update_element in Hc.
    destruct Hc as [le [ae [Hi [Hg Hd]]]].
    apply sync_element_data_Some in Hd. destruct Hd as [-> Hne].
    now exists le, ae.
  - intros p v Hin.
    assert (Hc : In (SyncElements.update_element_interface p v)
                    (SyncElements.calls roles intfs persistent e))
      by (rewrite Hcalls; apply in_app_iff; now left).
    apply SyncElementsCalls.sync_In_update_element_interface in Hc.
    destruct Hc
      as [h [le [ae [ei [lis [n [li
            [_ [Hg [Hei [Hl [Hli [Hp [Hv Hne]]]]]]]]]]]]]].
    exists h, ae, ei, lis, n, li. repeat split; auto.
Qed.

(** The step of the loop over the ports makes no call when the stored
    flag is the derived one. *)
Lemma update_sync_interface_silent ad li log :
  Update.ignore li = Update.derived_ignore roles intfs ad li ->
  Update.sync_interface raises roles intfs ad li log = (log, Some tt).
Proof.
  intros Heq. unfold Update.sync_interface.
  rewrite Heq, Z.eqb_refl. reflexivity.
Qed.

Lemma sync_sync_interface_silent ei n li log :
  SyncElements.ignore li = SyncElements.derived_ignore roles intfs ei n ->
  SyncElements.sync_interface raises roles intfs ei (n, li) log
  = (log, Some tt).
Proof.
  intros Heq. unfold SyncElements.sync_interface.
  rewrite Heq, Z.eqb_refl. reflexivity.
Qed.

End NoRedundantWrites.

(** C10.  In both jobs, and in every run whether it finishes or is cut
    short by an exception: a device-level update call is issued only for a
    device whose stored [ignore] differs from the value derived from the
    source inventory, and it writes the derived value; an interface-level
    update call is issued only for a port whose stored [ignore] differs from
    the value derived by the rules, and it writes that value.  Where the
    stored flag already equals the derived one, [data] stays empty and the
    step for the port makes no call. *)
Theorem C10_no_redundant_writes `{Re} (raises : nat -> bool)
    (roles intfs : list regex) (persistent : list string) :
  (forall (e : Update.env) log r,
     Update.main raises roles intfs persistent e [] = (log, r) ->
     (forall name v, In (Update.update_device name v) log ->
        exists ld ad,
          In (name, ld)
             (dict_items (Update.devices_at_update persistent e)) /\
          dict_get name (Update.api_devices e) = Some ad /\
          v = (if Update.enabled ad then 0 else 1)%Z /\
          Update.device_ignore ld <> v) /\
     (forall p v, In (Update.update_device_interface p v) log ->
        exists name ad lis li,
          dict_get name (Update.api_devices e) = Some ad /\
          Update.device_interfaces e name = Some lis /\
          In li (dict_values lis) /\
          Update.port_id li = p /\
          v = Update.derived_ignore roles intfs ad li /\
          Update.ignore li <> v)) /\
  (forall ld ad,
     Update.device_ignore ld = (if Update.enabled ad then 0 else 1)%Z ->
     Update.device_data ld ad = None) /\
  (forall ad li log,
     Update.ignore li = Update.derived_ignore roles intfs ad li ->
     Update.sync_interface raises roles intfs ad li log = (log, Some tt)) /\
  (forall (e : SyncElements.env) log r,
     SyncElements.main raises roles intfs persistent e [] = (log, r) ->
     (forall hostname v, In (SyncElements.update_element hostname v) log ->
        exists le ae,
          In (hostname, le) (dict_items (SyncElements.librenms_elements e)) /\
          dict_get hostname (SyncElements.api_elements e) = Some ae /\
          v = (if SyncElements.active ae then 0 else 1)%Z /\
          SyncElements.element_ignore le <> v) /\
     (forall p v, In (SyncElements.update_element_interface p v) log ->
        exists hostname ae ei lis n li,
          dict_get hostname (SyncElements.api_elements e) = Some ae /\
          SyncElements.interfaces ae = Some ei /\
          SyncElements.element_interfaces e hostname = Some lis /\
          In (n, li) (dict_items lis) /\
          SyncElements.port_id li = p /\
          v = SyncElements.derived_ignore roles intfs ei n /\
          SyncElements.ignore li <> v)) /\
  (forall le ae,
     SyncElements.element_ignore le
       = (if SyncElements.active ae then 0 else 1)%Z ->
     SyncElements.element_data le ae = None) /\
  (forall ei n li log,
     SyncElements.ignore li = SyncElements.derived_ignore roles intfs ei n ->
     SyncElements.sync_interface raises roles intfs ei (n, li) log
     = (log, Some tt)).
Proof.
  repeat apply conj.
  - intros e log r. apply update_writes_differ.
  - intros ld ad. apply update_device_data_cases.
  - intros ad li log. apply update_sync_interface_silent.
  - intros e log r. apply sync_writes_differ.
  - intros le ae. apply sync_element_data_cases.
  - intros ei n li log. apply sync_sync_interface_silent.
Qed.

Lemma C10_no_redundant_writes_witness :
  exists ld ad,
    In ("sw1", ld)
       (dict_items (Update.devices_at_update ["core1"] Examples.update_env)) /\
    dict_get "sw1" (Update.api_devices Examples.update_env) = Some ad /\
    0%Z = (if Update.enabled ad then 0 else 1)%Z /\
    Update.device_ignore ld <> 0%Z.
Proof.
  destruct (@C10_no_redundant_writes LiteralRe.literal_re quiet
              ["uplink"] ["Vlan"] ["core1"]) as [HU _].
  destruct (HU Examples.update_env _ _ eq_refl) as [Hdev _].
  apply (Hdev "sw1" 0%Z). vm_compute.
  do 9 right. left. reflexivity.
Defined.

(** ** Creating and deleting *)

Lemma NoDup_map_injective A B (f : A -> B) (l : list A) :
  (forall x y, f x = f y -> x = y) -> NoDup l -> NoDup (map f l).
Proof.
  intros Hinj. induction 1 as [|x l Hx Hnd IH]; simpl; constructor.
  - intros Hin. apply in_map_iff in Hin. destruct Hin as [y [Hy Hin]].
    apply Hinj in Hy. now subst.
  - exact IH.
Qed.

Section CreateDelete.

Context `{Re}.
Variable roles intfs : list regex.
Variable persistent : list string.

Lemma update_In_create_list (e : Update.env) n :
  In n (Update.create_in_librenms e) <->
  exists ad, In (n, ad) (dict_items (Update.api_devices e)) /\
             Update.enabled ad = true /\
             Update.monitor_librenms ad = true /\
             dict_in n (Update.librenms_devices e) = false.
Proof.
  unfold Update.create_in_librenms. rewrite in_flat_map. split.
  - intros [[m ad] [Hi Hn]].
    destruct (Update.enabled ad) eqn:He; simpl in Hn; [|destruct Hn].
    destruct (Update.monitor_librenms ad) eqn:Hm; simpl in Hn;
      [|destruct Hn].
    destruct (dict_in m (Update.librenms_devices e)) eqn:Hl; simpl in Hn;
      [destruct Hn|].
    destruct Hn as [<-|[]]. now exists ad.
  - intros [ad [Hi [He [Hm Hl]]]]. exists (n, ad). split; [exact Hi|].
    rewrite He, Hm, Hl. now left.
Qed.

Lemma update_create_list_NoDup (e : Update.env) :
  dict_wf (Update.api_devices e) -> NoDup (Update.create_in_librenms e).
Proof.
  unfold dict_wf, Update.create_in_librenms, dict_items.
  induction (Update.api_devices e) as [|[m ad] d IH]; simpl.
  - constructor.
  - intros Hnd. inversion Hnd as [|? ? Hm Hnd']; subst.
    specialize (IH Hnd').
    destruct (Update.enabled ad); simpl; [|exact IH].
    destruct (Update.monitor_librenms ad); simpl; [|exact IH].
    destruct (dict_in m (Update.librenms_devices e)); simpl; [exact IH|].
    constructor; [|exact IH].
    intros Hin. apply Hm. apply in_flat_map in Hin.
    destruct Hin as [[m' ad'] [Hi Hin]].
    assert (m' = m) as ->.
    { destruct (Update.enabled ad'); simpl in Hin; [|destruct Hin].
      destruct (Update.monitor_librenms ad'); simpl in Hin; [|destruct Hin].
      destruct (dict_in m' (Update.librenms_devices e)); simpl in Hin;
        [destruct Hin|].
      now destruct Hin as [->|[]]. }
    apply (in_map fst) in Hi. exact Hi.
Qed.

Lemma update_In_delete_list (e : Update.env) n :
  In n (Update.delete_in_librenms persistent e) <->
  exists ld, In (n, ld) (dict_items (Update.librenms_devices e)) /\
             str_in n persistent = false /\
             match dict_get n (Update.api_devices e) with
             | None => True
             | Some ad => Update.enabled ad = false
             end.
Proof.
  unfold Update.delete_in_librenms. rewrite in_flat_map. split.
  - intros [[m ld] [Hi Hn]].
    destruct (str_in m persistent) eqn:Hp; [destruct Hn|].
    destruct (dict_get m (Update.api_devices e)) as [ad|] eqn:Hg.
    + destruct (Update.enabled ad) eqn:He; simpl in Hn; [destruct Hn|].
      destruct Hn as [<-|[]]. exists ld. now rewrite Hg.
    + destruct Hn as [<-|[]]. exists ld. now rewrite Hg.
  - intros [ld [Hi [Hp Hg]]]. exists (n, ld). split; [exact Hi|].
    rewrite Hp. destruct (dict_get n (Update.api_devices e)) as [ad|].
    + rewrite Hg. now left.
    + now left.
Qed.

(** Occurrences of a create call in the calls of a run. *)
Lemma update_count_create (e : Update.env) n :
  NoDup (Update.create_in_librenms e) ->
  In n (Update.create_in_librenms e) ->
  count_occ Update.action_eq_dec (Update.calls roles intfs persistent e)
            (Update.create_device n) = 1.
Proof.
  intros Hnd Hin. unfold Update.calls. rewrite !count_occ_app.
  assert (H0 : count_occ Update.action_eq_dec Update.setup_calls
                         (Update.create_device n) = 0).
  { apply count_occ_not_In. intros Hs.
    apply UpdateCalls.update_setup_phase in Hs. discriminate. }
  assert (H1 : count_occ Update.action_eq_dec
                 (map Update.create_device (Update.create_in_librenms e))
                 (Update.create_device n) = 1).
  { apply NoDup_count_occ'.
    - apply NoDup_map_injective; [|exact Hnd]. now intros x y [= ->].
    - now apply in_map. }
  assert (H2 : count_occ Update.action_eq_dec
                 (map Update.delete_device
                      (Update.delete_in_librenms persistent e))
                 (Update.create_device n) = 0).
  { apply count_occ_not_In. intros Hs. apply in_map_iff in Hs.
    destruct Hs as [m [Hm _]]. discriminate. }
  assert (H3 : count_occ Update.action_eq_dec
                 (Update.reload_calls persistent e)
                 (Update.create_device n) = 0).
  { apply count_occ_not_In. intros Hs.
    apply UpdateCalls.update_reload_phase in Hs. discriminate. }
  assert (H4 : count_occ Update.action_eq_dec
                 (flat_map (Update.update_calls roles intfs e)
                    (dict_items (Update.devices_at_update persistent e)))
                 (Update.create_device n) = 0).
  { apply count_occ_not_In. intros Hs. apply in_flat_map in Hs.
    destruct Hs as [item [_ Hs]].
    apply UpdateCalls.update_calls_phase in Hs. discriminate. }
  rewrite H0, H1, H2, H3, H4. reflexivity.
Qed.

Lemma sync_count_create (e : SyncElements.env) n :
  In n (SyncElements.create_in_librenms e) ->
  count_occ SyncElements.action_eq_dec
            (SyncElements.calls roles intfs persistent e)
            (SyncElements.create_element n) = 1.
Proof.
  intros Hin. unfold SyncElements.calls. rewrite !count_occ_app.
  assert (H0 : count_occ SyncElements.action_eq_dec
                         SyncElements.setup_calls
                         (SyncElements.create_element n) = 0).
  { apply count_occ_not_In. intros Hs.
    apply SyncElementsCalls.sync_setup_phase in Hs. discriminate. }
  assert (H1 : count_occ SyncElements.action_eq_dec
                 (map SyncElements.create_element
                      (SyncElements.create_in_librenms e))
                 (SyncElements.create_element n) = 1).
  { apply NoDup_count_occ'.
    - apply NoDup_map_injective; [now intros x y [= ->]|].
      apply SyncElementsCalls.sync_create_list_NoDup.
    - now apply in_map. }
  assert (H2 : count_occ SyncElements.action_eq_dec
                 (map SyncElements.delete_element
                      (SyncElements.delete_in_librenms persistent e))
                 (SyncElements.create_element n) = 0).
  { apply count_occ_not_In. intros Hs. apply in_map_iff in Hs.
    destruct Hs as [m [Hm _]]. discriminate. }
  assert (H4 : count_occ SyncElements.action_eq_dec
                 (flat_map (SyncElements.update_calls roles intfs e)
                    (dict_items (SyncElements.librenms_elements e)))
                 (SyncElements.create_element n) = 0).
  { apply count_occ_not_In. intros Hs. apply in_flat_map in Hs.
    destruct Hs as [item [_ Hs]].
    apply SyncElementsCalls.sync_update_calls_phase in Hs. discriminate. }
  rewrite H0, H1, H2, H4. reflexivity.
Qed.

End CreateDelete.

(** C2, the claim as stated fails in update_librenms.py: [sw3] is in the
    Device-API and not in LibreNMS, but it is not enabled there, and the run
    makes no create call for it. *)
Lemma C2_counterexample_disabled_device_not_created :
  dict_in "sw3" (Update.api_devices Examples.update_env) = true /\
  dict_in "sw3" (Update.librenms_devices Examples.update_env) = false /\
  exists log,
    @Update.main LiteralRe.literal_re quiet ["uplink"] ["Vlan"] ["core1"]
       Examples.update_env [] = (log, Some tt) /\
    count_occ Update.action_eq_dec log (Update.create_device "sw3") = 0.
Proof.
  split; [reflexivity|]. split; [reflexivity|].
  eexists. split; [vm_compute; reflexivity|]. vm_compute. reflexivity.
Qed.

(** C2, amended.  In a run that finishes, exactly one create call is issued
    for every device that appears in the source inventory, does not appear
    in the LibreNMS inventory and, in update_librenms.py, is marked both
    [enabled] and [monitor_librenms] in the source inventory.  In
    sync_elements_to_librenms.py the source inventory is [api_elements],
    from which the elements with [monitor_librenms == False] have been
    left out. *)
Theorem C2_one_create_call `{Re} (raises : nat -> bool)
    (roles intfs : list regex) (persistent : list string) :
  (forall (e : Update.env) log r name ad,
     Update.main raises roles intfs persistent e [] = (log, Some r) ->
     dict_wf (Update.api_devices e) ->
     dict_get name (Update.api_devices e) = Some ad ->
     Update.enabled ad = true ->
     Update.monitor_librenms ad = true ->
     dict_in name (Update.librenms_devices e) = false ->
     count_occ Update.action_eq_dec log (Update.create_device name) = 1) /\
  (forall (e : SyncElements.env) log r hostname,
     SyncElements.main raises roles intfs persistent e [] = (log, Some r) ->
     dict_in hostname (SyncElements.api_elements e) = true ->
     dict_in hostname (SyncElements.librenms_elements e) = false ->
     count_occ SyncElements.action_eq_dec log
               (SyncElements.create_element hostname) = 1).
Proof.
  split.
  - intros e log r name ad Hrun Hwf Hg He Hm Hl.
    apply UpdateFacts.update_main_returns in Hrun. subst log.
    apply update_count_create.
    + now apply update_create_list_NoDup.
    + apply update_In_create_list. exists ad.
      apply dict_get_In in Hg. auto.
  - intros e log r hostname Hrun Ha Hl.
    apply SyncElementsFacts.sync_main_returns in Hrun. subst log.
    apply sync_count_create.
    apply SyncElementsCalls.sync_In_create_list. split.
    + now apply dict_in_true.
    + intros Hin. apply dict_in_true in Hin. congruence.
Qed.

Lemma C2_one_create_call_witness :
  count_occ Update.action_eq_dec
    (fst (@Update.main LiteralRe.literal_re quiet ["uplink"] ["Vlan"]
            ["core1"] Examples.update_env []))
    (Update.create_device "sw2") = 1 /\
  count_occ SyncElements.action_eq_dec
    (fst (@SyncElements.main LiteralRe.literal_re quiet ["uplink"] ["Vlan"]
            ["keep"] Examples.sync_env []))
    (SyncElements.create_element "r4") = 1.
Proof.
  destruct (@C2_one_create_call LiteralRe.literal_re quiet
              ["uplink"] ["Vlan"] ["core1"]) as [HU _].
  destruct (@C2_one_create_call LiteralRe.literal_re quiet
              ["uplink"] ["Vlan"] ["keep"]) as [_ HS].
  split.
  - eapply (HU Examples.update_env _ tt "sw2").
    + vm_compute. reflexivity.
    + unfold dict_wf. vm_compute.
      repeat constructor; simpl; intuition discriminate.
    + reflexivity.
    + reflexivity.
    + reflexivity.
    + reflexivity.
  - eapply (HS Examples.sync_env _ tt "r4").
    + vm_compute. reflexivity.
    + reflexivity.
    + reflexivity.
Defined.

(** C3, the claim as stated fails: [core1] is in LibreNMS and not in the
    Device-API, but it is listed in [persistent_devices], and the run makes
    no delete call for it. *)
Lemma C3_counterexample_persistent_device_kept :
  dict_in "core1" (Update.librenms_devices Examples.update_env) = true /\
  dict_in "core1" (Update.api_devices Examples.update_env) = false /\
  exists log,
    @Update.main LiteralRe.literal_re quiet ["uplink"] ["Vlan"]
       (Update.persistent_devices Examples.update_cfg)
       Examples.update_env [] = (log, Some tt) /\
    ~ In (Update.delete_device "core1") log.
Proof.
  split; [reflexivity|]. split; [reflexivity|].
  eexists. split; [vm_compute; reflexivity|].
  simpl. intuition discriminate.
Qed.

(** C3, amended.  In a run that finishes, a delete call is issued for every
    device that appears in the LibreNMS inventory, is not present in the
    source inventory, and is not listed among the persistent devices
    ([persistent_devices], [persistent_elements]) of the configuration. *)
Theorem C3_delete_call `{Re} (raises : nat -> bool)
    (roles intfs : list regex) (persistent : list string) :
  (forall (e : Update.env) log r name,
     Update.main raises roles intfs persistent e [] = (log, Some r) ->
     dict_in name (Update.librenms_devices e) = true ->
     dict_in name (Update.api_devices e) = false ->
     ~ In name persistent ->
     In (Update.delete_device name) log) /\
  (forall (e : SyncElements.env) log r hostname,
     SyncElements.main raises roles intfs persistent e [] = (log, Some r) ->
     dict_in hostname (SyncElements.librenms_elements e) = true ->
     dict_in hostname (SyncElements.api_elements e) = false ->
     ~ In hostname persistent ->
     In (SyncElements.delete_element hostname) log).
Proof.
  split.
  - intros e log r name Hrun Hl Ha Hp.
    apply UpdateFacts.update_main_returns in Hrun. subst log.
    apply UpdateCalls.update_In_delete. apply update_In_delete_list.
    unfold dict_in in Hl.
    destruct (dict_get name (Update.librenms_devices e)) as [ld|] eqn:Hg;
      [|discriminate].
    exists ld. split; [now apply dict_get_In|].
    split; [now apply str_in_false|].
    apply dict_in_false in Ha. now rewrite Ha.
  - intros e log r hostname Hrun Hl Ha Hp.
    apply SyncElementsFacts.sync_main_returns in Hrun. subst log.
    apply SyncElementsCalls.sync_In_delete.
    apply SyncElementsCalls.sync_In_delete_list. repeat split.
    + now apply dict_in_true.
    + intros Hin. apply dict_in_true in Hin. congruence.
    + exact Hp.
Qed.

Lemma C3_delete_call_witness :
  In (Update.delete_device "old1")
     (fst (@Update.main LiteralRe.literal_re quiet ["uplink"] ["Vlan"]
             ["core1"] Examples.update_env [])) /\
  In (SyncElements.delete_element "gone")
     (fst (@SyncElements.main LiteralRe.literal_re quiet ["uplink"] ["Vlan"]
             ["keep"] Examples.sync_env [])).
Proof.
  destruct (@C3_delete_call LiteralRe.literal_re quiet
              ["uplink"] ["Vlan"] ["core1"]) as [HU _].
  destruct (@C3_delete_call LiteralRe.literal_re quiet
              ["uplink"] ["Vlan"] ["keep"]) as [_ HS].
  split.
  - eapply (HU Examples.update_env _ tt "old1").
    + vm_compute. reflexivity.
    + reflexivity.
    + reflexivity.
    + simpl. intuition discriminate.
  - eapply (HS Examples.sync_env _ tt "gone").
    + vm_compute. reflexivity.
    + reflexivity.
    + reflexivity.
    + simpl. intuition discriminate.
Defined.

(** ** One kind of action per device *)

(** C7 (update_librenms.py, lines 166-168 and 205-223).  [sw4] is in
    LibreNMS with [ignore = 0] and is not enabled in the Device-API: the run
    issues a delete call for it and then a device-level update call for the
    same device. *)
Theorem C7_update_librenms_deletes_and_updates_one_device :
  dict_get "sw4" (Update.api_devices Examples.update_env)
    = Some {| Update.enabled := false; Update.monitor_librenms := true;
              Update.alarm_interfaces := true; Update.interfaces := [] |} /\
  dict_get "sw4" (Update.librenms_devices Examples.update_env)
    = Some {| Update.device_ignore := 0 |} /\
  exists log,
    @Update.main LiteralRe.literal_re quiet ["uplink"] ["Vlan"] ["core1"]
       Examples.update_env [] = (log, Some tt) /\
    In (Update.delete_device "sw4") log /\
    In (Update.update_device "sw4" 1) log.
Proof.
  split; [reflexivity|]. split; [reflexivity|].
  eexists. split; [vm_compute; reflexivity|]. split.
  - do 6 right. left. reflexivity.
  - do 13 right. left. reflexivity.
Qed.

(** In sync_elements_to_librenms.py the three sets are pairwise disjoint,
    in every run. *)
Lemma sync_elements_actions_disjoint `{Re} (raises : nat -> bool)
    (roles intfs : list regex) (persistent : list string)
    (e : SyncElements.env) log r hostname :
  SyncElements.main raises roles intfs persistent e [] = (log, r) ->
  ~ (In (SyncElements.create_element hostname) log /\
     In (SyncElements.delete_element hostname) log) /\
  (forall v, ~ (In (SyncElements.create_element hostname) log /\
                In (SyncElements.update_element hostname v) log)) /\
  (forall v, ~ (In (SyncElements.delete_element hostname) log /\
                In (SyncElements.update_element hostname v) log)).
Proof.
  intros Hrun. apply SyncElementsFacts.sync_main_prefix in Hrun.
  destruct Hrun as [rest Hcalls].
  assert (Hsub : forall a, In a log ->
            In a (SyncElements.calls roles intfs persistent e))
    by (intros a Ha; rewrite Hcalls; apply in_app_iff; now left).
  repeat split.
  - intros [Hc Hd]. apply Hsub in Hc, Hd.
    apply SyncElementsCalls.sync_In_create,
          SyncElementsCalls.sync_In_create_list in Hc.
    apply SyncElementsCalls.sync_In_delete,
          SyncElementsCalls.sync_In_delete_list in Hd.
    tauto.
  - intros v [Hc Hu]. apply Hsub in Hc, Hu.
    apply SyncElementsCalls.sync_In_create,
          SyncElementsCalls.sync_In_create_list in Hc.
    apply SyncElementsCalls.sync_In_update_element in Hu.
    destruct Hu as [le [ae [Hi _]]]. destruct Hc as [_ Hc]. apply Hc.
    apply (in_map fst) in Hi. exact Hi.
  - intros v [Hd Hu]. apply Hsub in Hd, Hu.
    apply SyncElementsCalls.sync_In_delete,
          SyncElementsCalls.sync_In_delete_list in Hd.
    apply SyncElementsCalls.sync_In_update_element in Hu.
    destruct Hu as [le [ae [_ [Hg _]]]]. destruct Hd as [_ [Hd _]].
    apply Hd. apply dict_in_true. unfold dict_in. now rewrite Hg.
Qed.

(** ** The order of the calls *)

Section Phases.

Variables (Ev : Type) (phase : Ev -> nat).

Lemma phase_segment_sorted k l1 l2 :
  (forall a, In a l1 -> phase a = k) ->
  StronglySorted (fun a b => phase a <= phase b) l2 ->
  (forall b, In b l2 -> k <= phase b) ->
  StronglySorted (fun a b => phase a <= phase b) (l1 ++ l2).
Proof.
  intros H1 H2 Hlow. induction l1 as [|a l1 IH]; simpl; [exact H2|].
  constructor.
  - apply IH. intros b Hb. apply H1. now right.
  - apply Forall_forall. intros b Hb.
    rewrite (H1 a (or_introl eq_refl)).
    apply in_app_iff in Hb. destruct Hb as [Hb|Hb].
    + rewrite (H1 b (or_intror Hb)). lia.
    + now apply Hlow.
Qed.

Lemma phase_sorted_prefix l rest :
  StronglySorted (fun a b => phase a <= phase b) (l ++ rest) -> StronglySorted (fun a b => phase a <= phase b) l.
Proof.
  induction l as [|a l IH]; simpl; intros Hs; [constructor|].
  inversion Hs as [|? ? Hs' Hall]; subst. constructor.
  - now apply IH.
  - apply Forall_app in Hall. tauto.
Qed.

Lemma phase_sorted_later pre x post y :
  StronglySorted (fun a b => phase a <= phase b) (pre ++ x :: post) ->
  In y post -> phase x <= phase y.
Proof.
  induction pre as [|a pre IH]; simpl; intros Hs Hy.
  - inversion Hs as [|? ? _ Hall]; subst.
    rewrite Forall_forall in Hall. now apply Hall.
  - inversion Hs; subst. now apply IH.
Qed.

End Phases.

Section Order.

Context `{Re}.
Variable raises : nat -> bool.
Variable roles intfs : list regex.
Variable persistent : list string.

Lemma update_calls_sorted (e : Update.env) :
  StronglySorted (fun a b => UpdateLog.phase a <= UpdateLog.phase b)
                 (Update.calls roles intfs persistent e).
Proof.
  assert (H4 : forall a,
             In a (flat_map (Update.update_calls roles intfs e)
                     (dict_items (Update.devices_at_update persistent e)))
             -> UpdateLog.phase a = 4).
  { intros a Ha. apply in_flat_map in Ha. destruct Ha as [item [_ Ha]].
    now apply UpdateCalls.update_calls_phase in Ha. }
  assert (H2 : forall a,
             In a (map Update.delete_device
                     (Update.delete_in_librenms persistent e))
             -> UpdateLog.phase a = 2).
  { intros a Ha. apply in_map_iff in Ha. now destruct Ha as [n [<- _]]. }
  assert (H1 : forall a,
             In a (map Update.create_device (Update.create_in_librenms e))
             -> UpdateLog.phase a = 1).
  { intros a Ha. apply in_map_iff in Ha. now destruct Ha as [n [<- _]]. }
  pose proof (@UpdateCalls.update_reload_phase persistent e) as H3.
  pose proof UpdateCalls.update_setup_phase as H0.
  unfold Update.calls.
  apply phase_segment_sorted with (k := 0); [exact H0| |intros; lia].
  apply phase_segment_sorted with (k := 1); [exact H1| |].
  2:{ intros b. rewrite !in_app_iff. intros [Hb|[Hb|Hb]];
      [apply H2 in Hb|apply H3 in Hb|apply H4 in Hb]; lia. }
  apply phase_segment_sorted with (k := 2); [exact H2| |].
  2:{ intros b. rewrite !in_app_iff. intros [Hb|Hb];
      [apply H3 in Hb|apply H4 in Hb]; lia. }
  apply phase_segment_sorted with (k := 3); [exact H3| |].
  2:{ intros b Hb. apply H4 in Hb. lia. }
  rewrite <- (app_nil_r (flat_map _ _)).
  apply phase_segment_sorted with (k := 4);
    [exact H4|constructor|intros b []].
Qed.

Lemma sync_calls_sorted (e : SyncElements.env) :
  StronglySorted
    (fun a b => SyncElementsLog.phase a <= SyncElementsLog.phase b)
    (SyncElements.calls roles intfs persistent e).
Proof.
  assert (H4 : forall a,
             In a (flat_map (SyncElements.update_calls roles intfs e)
                     (dict_items (SyncElements.librenms_elements e)))
             -> SyncElementsLog.phase a = 4).
  { intros a Ha. apply in_flat_map in Ha. destruct Ha as [item [_ Ha]].
    now apply SyncElementsCalls.sync_update_calls_phase in Ha. }
  assert (H2 : forall a,
             In a (map SyncElements.delete_element
                     (SyncElements.delete_in_librenms persistent e))
             -> SyncElementsLog.phase a = 2).
  { intros a Ha. apply in_map_iff in Ha. now destruct Ha as [n [<- _]]. }
  assert (H1 : forall a,
             In a (map SyncElements.create_element
                     (SyncElements.create_in_librenms e))
             -> SyncElementsLog.phase a = 1).
  { intros a Ha. apply in_map_iff in Ha. now destruct Ha as [n [<- _]]. }
  pose proof SyncElementsCalls.sync_setup_phase as H0.
  unfold SyncElements.calls.
  apply phase_segment_sorted with (k := 0); [exact H0| |intros; lia].
  apply phase_segment_sorted with (k := 1); [exact H1| |].
  2:{ intros b. rewrite !in_app_iff. intros [Hb|Hb];
      [apply H2 in Hb|apply H4 in Hb]; lia. }
  apply phase_segment_sorted with (k := 2); [exact H2| |].
  2:{ intros b Hb. apply H4 in Hb. lia. }
  rewrite <- (app_nil_r (flat_map _ _)).
  apply phase_segment_sorted with (k := 4);
    [exact H4|constructor|intros b []].
Qed.

End Order.

(** C8.  In every run of either job, finished or cut short by an exception,
    the calls are issued in the order create, delete, update: after a delete
    call no create call follows, and after a device-level or interface-level
    update call neither a create call nor a delete call follows. *)
Theorem C8_create_then_delete_then_update `{Re} (raises : nat -> bool)
    (roles intfs : list regex) (persistent : list string) :
  (forall (e : Update.env) log r pre x post y,
     Update.main raises roles intfs persistent e [] = (log, r) ->
     log = pre ++ x :: post ->
     In y post ->
     (UpdateLog.is_delete x = true -> UpdateLog.is_create y = false) /\
     (UpdateLog.is_update x = true ->
      UpdateLog.is_create y = false /\ UpdateLog.is_delete y = false)) /\
  (forall (e : SyncElements.env) log r pre x post y,
     SyncElements.main raises roles intfs persistent e [] = (log, r) ->
     log = pre ++ x :: post ->
     In y post ->
     (SyncElementsLog.is_delete x = true ->
      SyncElementsLog.is_create y = false) /\
     (SyncElementsLog.is_update x = true ->
      SyncElementsLog.is_create y = false /\
      SyncElementsLog.is_delete y = false)).
Proof.
  split.
  - intros e log r pre x post y Hrun -> Hy.
    apply UpdateFacts.update_main_prefix in Hrun.
    destruct Hrun as [rest Hcalls].
    pose proof (update_calls_sorted roles intfs persistent e) as Hs.
    rewrite Hcalls in Hs. apply phase_sorted_prefix in Hs.
    pose proof (@phase_sorted_later _ UpdateLog.phase pre x post y Hs Hy)
      as Hle.
    destruct x; destruct y; simpl in *; repeat split;
      intros; try reflexivity; try discriminate; lia.
  - intros e log r pre x post y Hrun -> Hy.
    apply SyncElementsFacts.sync_main_prefix in Hrun.
    destruct Hrun as [rest Hcalls].
    pose proof (sync_calls_sorted roles intfs persistent e) as Hs.
    rewrite Hcalls in Hs. apply phase_sorted_prefix in Hs.
    pose proof (@phase_sorted_later _ SyncElementsLog.phase pre x post y
                  Hs Hy) as Hle.
    destruct x; destruct y; simpl in *; repeat split;
      intros; try reflexivity; try discriminate; lia.
Qed.

Lemma C8_create_then_delete_then_update_witness :
  (UpdateLog.is_delete (Update.delete_device "sw4") = true ->
   UpdateLog.is_create (Update.update_device "sw1" 0) = false) /\
  (UpdateLog.is_update (Update.delete_device "sw4") = true ->
   UpdateLog.is_create (Update.update_device "sw1" 0) = false /\
   UpdateLog.is_delete (Update.update_device "sw1" 0) = false).
Proof.
  destruct (@C8_create_then_delete_then_update LiteralRe.literal_re quiet
              ["uplink"] ["Vlan"] ["core1"]) as [HU _].
  pose (log := fst (@Update.main LiteralRe.literal_re quiet ["uplink"]
                      ["Vlan"] ["core1"] Examples.update_env [])).
  apply (HU Examples.update_env log (Some tt) (firstn 6 log)
            (Update.delete_device "sw4") (skipn 7 log)
            (Update.update_device "sw1" 0)).
  - vm_compute. reflexivity.
  - vm_compute. reflexivity.
  - vm_compute. do 2 right. left. reflexivity.
Defined.

(** ** Exceptions *)

(** C9, the claim as stated fails: the patterns of the configuration are
    compiled when the module is loaded, before the [try] is entered.  With
    the pattern ["("] in [roles_enabled], [re.compile] raises, no handler is
    in place, and the exception leaves the script. *)
Lemma C9_counterexample_exception_before_main :
  @Update.script LiteralRe.literal_re quiet
     {| Update.roles_enabled := ["("];
        Update.interfaces_disabled := ["Vlan"];
        Update.persistent_devices := ["core1"] |}
     Examples.update_env
  = ([], Propagated).
Proof. reflexivity. Qed.

Section Handler.

Variable raises : nat -> bool.

(** How a run of [main] ends, read off the list of its calls. *)
Lemma run_of_plan Ev (m : M Ev unit) (plan : list Ev) log r :
  performs raises m plan ->
  m [] = (log, r) ->
  (r = Some tt /\ log = plan /\
   forall j, j < length plan -> raises j = false) \/
  (r = None /\
   exists k, k < length plan /\ raises k = true /\
     (forall j, j < k -> raises j = false) /\
     log = firstn (S k) plan).
Proof.
  intros Hm Hrun. rewrite Hm in Hrun. destruct r as [[]|].
  - left. apply perform_returns in Hrun. destruct Hrun as [-> Hno].
    now repeat split.
  - right. split; [reflexivity|]. apply perform_raises in Hrun.
    destruct Hrun as [k [Hk [Hr [Hno ->]]]]. now exists k.
Qed.

End Handler.

(** C9, amended.  Once the configuration is loaded and its patterns are
    compiled, every exception raised while [main] runs is caught by the one
    top-level handler and reported with [utils.send_traceback]: the script
    does not end by propagating it.  Nothing is retried and nothing is
    rolled back: the calls made are exactly those of the run up to and
    including the first call that raised, each once, and none after it.
    (An exception raised before [main] is entered, while the module loads
    its configuration and compiles the patterns, is not caught.) *)
Theorem C9_exceptions_in_main_are_reported `{Re} (raises : nat -> bool) :
  (forall (cfg : Update.config) (e : Update.env) roles intfs log o,
     compile_all (Update.roles_enabled cfg) = Some roles ->
     compile_all (Update.interfaces_disabled cfg) = Some intfs ->
     Update.script raises cfg e = (log, o) ->
     let plan := Update.calls roles intfs (Update.persistent_devices cfg) e in
     (o = Finished /\ log = plan /\
      forall j, j < length plan -> raises j = false) \/
     (o = Traceback_sent /\
      exists k, k < length plan /\ raises k = true /\
        (forall j, j < k -> raises j = false) /\
        log = firstn (S k) plan)) /\
  (forall (cfg : SyncElements.config) (e : SyncElements.env)
          roles intfs log o,
     compile_all (SyncElements.roles_enabled cfg) = Some roles ->
     compile_all (SyncElements.interfaces_disabled cfg) = Some intfs ->
     SyncElements.script raises cfg e = (log, o) ->
     let plan :=
       SyncElements.calls roles intfs (SyncElements.persistent_elements cfg) e
     in
     (o = Finished /\ log = plan /\
      forall j, j < length plan -> raises j = false) \/
     (o = Traceback_sent /\
      exists k, k < length plan /\ raises k = true /\
        (forall j, j < k -> raises j = false) /\
        log = firstn (S k) plan)).
Proof.
  split.
  - intros cfg e roles intfs log o Hr Hi. unfold Update.script.
    rewrite Hr, Hi.
    destruct (Update.main raises roles intfs (Update.persistent_devices cfg)
                e []) as [log' r] eqn:Hrun.
    apply (@run_of_plan raises _ _ _ log' r
             (@UpdateFacts.update_main_performs _ raises roles intfs
                (Update.persistent_devices cfg) e)) in Hrun.
    destruct Hrun as [[-> Hfin]|[-> Hexn]]; intros [= <- <-]; simpl; tauto.
  - intros cfg e roles intfs log o Hr Hi. unfold SyncElements.script.
    rewrite Hr, Hi.
    destruct (SyncElements.main raises roles intfs
                (SyncElements.persistent_elements cfg) e [])
      as [log' r] eqn:Hrun.
    apply (@run_of_plan raises _ _ _ log' r
             (@SyncElementsFacts.sync_main_performs _ raises roles intfs
                (SyncElements.persistent_elements cfg) e)) in Hrun.
    destruct Hrun as [[-> Hfin]|[-> Hexn]]; intros [= <- <-]; simpl; tauto.
Qed.

Lemma C9_exceptions_in_main_are_reported_witness :
  @Update.script LiteralRe.literal_re (fun n => Nat.eqb n 6)
     Examples.update_cfg Examples.update_env
  = ([Update.Librenms_Mgr; Update.get_devices; Update.Device_Mgr;
      Update.device_get_devices; Update.write_etc_hosts_file;
      Update.create_device "sw2"; Update.delete_device "sw4"],
     Traceback_sent).
Proof.
  destruct (@C9_exceptions_in_main_are_reported LiteralRe.literal_re
              (fun n => Nat.eqb n 6)) as [HU _].
  destruct (HU Examples.update_cfg Examples.update_env ["uplink"] ["Vlan"]
              (fst (@Update.script LiteralRe.literal_re
                      (fun n => Nat.eqb n 6)
                      Examples.update_cfg Examples.update_env))
              (snd (@Update.script LiteralRe.literal_re
                      (fun n => Nat.eqb n 6)
                      Examples.update_cfg Examples.update_env)))
    as [[Ho _]|[Ho _]].
  - reflexivity.
  - reflexivity.
  - vm_compute. reflexivity.
  - vm_compute in Ho. discriminate Ho.
  - vm_compute. reflexivity.
Defined.

(** * Further properties of the two jobs *)

(** ** The rules as a list of priorities *)

Lemma assign_loop_existsb X (p : X -> bool) (c : Z) l v :
  fold_left (fun v x => if p x then c else v) l v
  = if existsb p l then c else v.
Proof.
revert v. induction l as [|x l IH]; intros v; simpl; [reflexivity|].
destruct (p x); simpl; [apply assign_loop_fixed|apply IH].
Qed.

Section RulePriorities.

Context `{Re}.
Variable roles intfs : list regex.

Lemma update_roles_rule_existsb r ign :
  Update.roles_rule roles r ign
  = if existsb (fun rx => re_search rx r) roles then 0%Z else ign.
Proof. apply (assign_loop_existsb (fun rx => re_search rx r)). Qed.

Lemma update_interfaces_rule_existsb n ign :
  Update.interfaces_rule intfs n ign
  = if existsb (fun rx => re_search rx n) intfs then 1%Z else ign.
Proof. apply (assign_loop_existsb (fun rx => re_search rx n)). Qed.

Lemma sync_roles_rule_existsb r ign :
  SyncElements.roles_rule roles r ign
  = if existsb (fun rx => negb (re_search rx r)) roles then 1%Z else ign.
Proof. apply (assign_loop_existsb (fun rx => negb (re_search rx r))). Qed.

Lemma sync_interfaces_rule_existsb n ign :
  SyncElements.interfaces_rule intfs n ign
  = if existsb (fun rx => re_search rx n) intfs then 1%Z else ign.
Proof. apply (assign_loop_existsb (fun rx => re_search rx n)). Qed.

Lemma update_apply_rules_priority n ai ign :
  Update.apply_rules roles intfs n ai ign
  = if existsb (fun rx => re_search rx n) intfs then 1%Z
    else if match Update.role ai with
            | Some r => existsb (fun rx => re_search rx r) roles
            | None => false
            end then 0%Z
    else if str_in "librenms_alarm_enable" (Update.tags ai) then 0%Z
    else if str_in "librenms_alarm_disable" (Update.tags ai) then 1%Z
    else if str_in "uplink" (Update.tags ai) then 0%Z
    else ign.
Proof.
unfold Update.apply_rules. rewrite update_interfaces_rule_existsb.
destruct (existsb _ intfs); [reflexivity|].
destruct (Update.role ai) as [r|].
- rewrite update_roles_rule_existsb. destruct (existsb _ roles); reflexivity.
- reflexivity.
Qed.

Lemma update_derived_ignore_bit ad li :
  Update.derived_ignore roles intfs ad li = 0%Z \/
  Update.derived_ignore roles intfs ad li = 1%Z.
Proof.
unfold Update.derived_ignore.
assert (Hd : (if Update.alarm_interfaces ad then 0%Z else 1%Z) = 0%Z \/
             (if Update.alarm_interfaces ad then 0%Z else 1%Z) = 1%Z)
  by (destruct (Update.alarm_interfaces ad); auto).
destruct (Update.librenms_interface_name _ li) as [n|]; [|exact Hd].
destruct (str_truthy n); [|exact Hd].
destruct (dict_get n (Update.interfaces ad)) as [ai|]; [|exact Hd].
rewrite update_apply_rules_priority.
repeat match goal with
       | |- context [if ?b then _ else _] => destruct b; auto
       end.
Qed.

Lemma sync_derived_ignore_bit ei n :
  SyncElements.derived_ignore roles intfs ei n = 0%Z \/
  SyncElements.derived_ignore roles intfs ei n = 1%Z.
Proof.
unfold SyncElements.derived_ignore.
destruct (dict_get n ei) as [x|]; [|now left].
rewrite sync_interfaces_rule_existsb. destruct (existsb _ intfs); [now right|].
destruct (SyncElements.role x) as [r|]; [|now left].
rewrite sync_roles_rule_existsb. destruct (existsb _ roles); auto.
Qed.

End RulePriorities.

(** X1 (update_librenms.py, lines 64-71 and 81).  The name a port is looked
    up under is one of its [ifname], [ifalias], [ifdescr] and is a key of the
    device's interfaces, so the lookup of line 81 cannot raise [KeyError];
    [ifname] is taken whenever it is a key; and no name is found exactly
    when none of the three is a key. *)
Theorem X1_interface_name_resolution
    (ifs : dict Update.api_interface) (li : Update.librenms_interface) :
  (forall n, Update.librenms_interface_name ifs li = Some n ->
     (exists ai, dict_get n ifs = Some ai) /\
     (n = Update.ifname li \/ n = Update.ifalias li \/
      n = Update.ifdescr li)) /\
  (dict_in (Update.ifname li) ifs = true ->
   Update.librenms_interface_name ifs li = Some (Update.ifname li)) /\
  (Update.librenms_interface_name ifs li = None <->
   dict_in (Update.ifname li) ifs = false /\
   dict_in (Update.ifalias li) ifs = false /\
   dict_in (Update.ifdescr li) ifs = false).
Proof.
split; [|split].
- intros n Hn. split.
  + now apply update_interface_name_key with (li := li).
  + unfold Update.librenms_interface_name in Hn.
    destruct (dict_in (Update.ifname li) ifs);
      [injection Hn as <-; now left|].
    destruct (dict_in (Update.ifalias li) ifs);
      [injection Hn as <-; right; now left|].
    destruct (dict_in (Update.ifdescr li) ifs);
      [injection Hn as <-; right; now right|discriminate].
- intros H1. unfold Update.librenms_interface_name. now rewrite H1.
- unfold Update.librenms_interface_name.
  destruct (dict_in (Update.ifname li) ifs);
    destruct (dict_in (Update.ifalias li) ifs);
    destruct (dict_in (Update.ifdescr li) ifs);
    split; try discriminate; try tauto;
    intros [H1 [H2 H3]]; discriminate.
Qed.

Lemma X1_interface_name_resolution_witness :
  Update.librenms_interface_name Examples.sw1_interfaces
    {| Update.ifname := "Vlan10"; Update.ifalias := "eth0";
       Update.ifdescr := ""; Update.ignore := 0; Update.port_id := 12 |}
  = Some "Vlan10".
Proof.
destruct (X1_interface_name_resolution Examples.sw1_interfaces
            {| Update.ifname := "Vlan10"; Update.ifalias := "eth0";
               Update.ifdescr := ""; Update.ignore := 0;
               Update.port_id := 12 |}) as [_ [Hfirst _]].
apply Hfirst. reflexivity.
Defined.

(** X2 (update_librenms.py, lines 74-101).  For a port found in the
    Device-API under a non-empty name, the successive assignments to
    [ignore] amount to a list of priorities: a deny-list match gives 1;
    otherwise a role matching some allow-list pattern gives 0; otherwise the
    tag [librenms_alarm_enable] gives 0; otherwise the tag
    [librenms_alarm_disable] gives 1; otherwise the tag [uplink] gives 0;
    otherwise the device default ([alarm_interfaces]) decides. *)
Theorem X2_update_rule_priorities `{Re} (roles intfs : list regex)
    ad li n ai :
  Update.librenms_interface_name (Update.interfaces ad) li = Some n ->
  n <> "" ->
  dict_get n (Update.interfaces ad) = Some ai ->
  Update.derived_ignore roles intfs ad li
  = if existsb (fun rx => re_search rx n) intfs then 1%Z
    else if match Update.role ai with
            | Some r => existsb (fun rx => re_search rx r) roles
            | None => false
            end then 0%Z
    else if str_in "librenms_alarm_enable" (Update.tags ai) then 0%Z
    else if str_in "librenms_alarm_disable" (Update.tags ai) then 1%Z
    else if str_in "uplink" (Update.tags ai) then 0%Z
    else if Update.alarm_interfaces ad then 0%Z else 1%Z.
Proof.
intros Hn Hne Hg.
rewrite (update_derived_ignore_found roles intfs _ _ Hn Hne Hg).
apply update_apply_rules_priority.
Qed.

Lemma X2_update_rule_priorities_witness :
  @Update.derived_ignore LiteralRe.literal_re ["core"] ["Vlan"]
    {| Update.enabled := true; Update.monitor_librenms := true;
       Update.alarm_interfaces := true;
       Update.interfaces :=
         [("ge-0/0/0", {| Update.tags := ["uplink"; "librenms_alarm_disable"];
                          Update.role := Some "access" |})] |}
    {| Update.ifname := "ge-0/0/0"; Update.ifalias := ""; Update.ifdescr := "";
       Update.ignore := 0; Update.port_id := 5 |}
  = 1%Z.
Proof.
rewrite (@X2_update_rule_priorities LiteralRe.literal_re ["core"] ["Vlan"]
           _ _ "ge-0/0/0"
           {| Update.tags := ["uplink"; "librenms_alarm_disable"];
              Update.role := Some "access" |}).
- reflexivity.
- reflexivity.
- discriminate.
- reflexivity.
Defined.

(** X3 (sync_elements_to_librenms.py, lines 65-77).  The derived [ignore]
    is 0 or 1, and it is 1 exactly when the port is an interface of the
    element in the Elements API and either its name matches a deny-list
    pattern or it has a role that some allow-list pattern does not match. *)
Theorem X3_sync_elements_rule `{Re} (roles intfs : list regex)
    (element_intf : dict SyncElements.element_interface) (name : string) :
  (SyncElements.derived_ignore roles intfs element_intf name = 0%Z \/
   SyncElements.derived_ignore roles intfs element_intf name = 1%Z) /\
  (SyncElements.derived_ignore roles intfs element_intf name = 1%Z <->
   exists ei, dict_get name element_intf = Some ei /\
     ((exists rx, In rx intfs /\ re_search rx name = true) \/
      (exists r rx, SyncElements.role ei = Some r /\ In rx roles /\
                    re_search rx r = false))).
Proof.
split; [apply sync_derived_ignore_bit|].
unfold SyncElements.derived_ignore.
destruct (dict_get name element_intf) as [x|].
2:{ split; [discriminate|]. intros [ei [Hg _]]. discriminate. }
rewrite sync_interfaces_rule_existsb.
destruct (existsb (fun rx => re_search rx name) intfs) eqn:Hd.
- split; [|reflexivity]. intros _. exists x. split; [reflexivity|].
  left. apply existsb_exists in Hd. exact Hd.
- assert (Hnd : ~ exists rx, In rx intfs /\ re_search rx name = true).
  { intros Hex. apply existsb_exists in Hex. congruence. }
  destruct (SyncElements.role x) as [r|] eqn:Hr.
  + rewrite sync_roles_rule_existsb.
    destruct (existsb (fun rx => negb (re_search rx r)) roles) eqn:Hm.
    * split; [|reflexivity]. intros _. exists x. split; [reflexivity|].
      right. apply existsb_exists in Hm. destruct Hm as [rx [Hin Hs]].
      exists r, rx. repeat split; auto. now apply negb_true_iff in Hs.
    * split; [discriminate|].
      intros [ei [[= <-] [Hex|[r' [rx [Hr' [Hin Hs]]]]]]]; [now elim Hnd|].
      rewrite Hr in Hr'. injection Hr' as <-.
      assert (existsb (fun rx => negb (re_search rx r)) roles = true).
      { apply existsb_exists. exists rx. now rewrite Hs. }
      congruence.
  + split; [discriminate|].
    intros [ei [[= <-] [Hex|[r' [rx [Hr' _]]]]]]; [now elim Hnd|].
    congruence.
Qed.

(** X5 (update_librenms.py, lines 70-80; sync_elements_to_librenms.py,
    lines 65-67).  A port of LibreNMS that the source inventory does not
    know is not put through the rules: in update_librenms.py it gets the
    device default, 0 when [alarm_interfaces] is true and 1 otherwise; in
    sync_elements_to_librenms.py it gets 0. *)
Theorem X5_unknown_port_default `{Re} (roles intfs : list regex) :
  (forall ad li,
     dict_in (Update.ifname li) (Update.interfaces ad) = false ->
     dict_in (Update.ifalias li) (Update.interfaces ad) = false ->
     dict_in (Update.ifdescr li) (Update.interfaces ad) = false ->
     Update.derived_ignore roles intfs ad li
     = if Update.alarm_interfaces ad then 0%Z else 1%Z) /\
  (forall element_intf name,
     dict_in name element_intf = false ->
     SyncElements.derived_ignore roles intfs element_intf name = 0%Z).
Proof.
split.
- intros ad li H1 H2 H3.
  unfold Update.derived_ignore, Update.librenms_interface_name.
  now rewrite H1, H2, H3.
- intros element_intf name Hn. unfold SyncElements.derived_ignore.
  apply dict_in_false in Hn. now rewrite Hn.
Qed.

Lemma X5_unknown_port_default_witness :
  @Update.derived_ignore LiteralRe.literal_re ["uplink"] ["lo"]
    {| Update.enabled := true; Update.monitor_librenms := true;
       Update.alarm_interfaces := false;
       Update.interfaces := Examples.sw1_interfaces |}
    {| Update.ifname := "lo0"; Update.ifalias := ""; Update.ifdescr := "lo0";
       Update.ignore := 0; Update.port_id := 9 |} = 1%Z /\
  @SyncElements.derived_ignore LiteralRe.literal_re ["uplink"] ["lo"]
    [("eth0", {| SyncElements.role := Some "access" |})] "lo0" = 0%Z.
Proof.
destruct (@X5_unknown_port_default LiteralRe.literal_re ["uplink"] ["lo"])
  as [HU HS].
split.
- apply (HU {| Update.enabled := true; Update.monitor_librenms := true;
               Update.alarm_interfaces := false;
               Update.interfaces := Examples.sw1_interfaces |});
    reflexivity.
- apply HS. reflexivity.
Defined.

(** X4 (update_librenms.py, lines 74-109 and 211-223;
    sync_elements_to_librenms.py, lines 65-83 and 171-183).  In every run of
    either job, every device-level and every interface-level update call
    writes [ignore = 0] or [ignore = 1], whatever values LibreNMS
    reported. *)
Theorem X4_updates_write_a_bit `{Re} (raises : nat -> bool)
    (roles intfs : list regex) (persistent : list string) :
  (forall (e : Update.env) log r,
     Update.main raises roles intfs persistent e [] = (log, r) ->
     (forall name v, In (Update.update_device name v) log ->
                     v = 0%Z \/ v = 1%Z) /\
     (forall p v, In (Update.update_device_interface p v) log ->
                  v = 0%Z \/ v = 1%Z)) /\
  (forall (e : SyncElements.env) log r,
     SyncElements.main raises roles intfs persistent e [] = (log, r) ->
     (forall hostname v, In (SyncElements.update_element hostname v) log ->
                         v = 0%Z \/ v = 1%Z) /\
     (forall p v, In (SyncElements.update_element_interface p v) log ->
                  v = 0%Z \/ v = 1%Z)).
Proof.
split.
- intros e log r Hrun.
  destruct (update_writes_differ raises roles intfs persistent e Hrun)
    as [Hdev Hport].
  split.
  + intros name v Hin. destruct (Hdev name v Hin) as [ld [ad [_ [_ [-> _]]]]].
    destruct (Update.enabled ad); auto.
  + intros p v Hin.
    destruct (Hport p v Hin) as [n [ad [lis [li [_ [_ [_ [_ [-> _]]]]]]]]].
    apply update_derived_ignore_bit.
- intros e log r Hrun.
  destruct (sync_writes_differ raises roles intfs persistent e Hrun)
    as [Hdev Hport].
  split.
  + intros h v Hin. destruct (Hdev h v Hin) as [le [ae [_ [_ [-> _]]]]].
    destruct (SyncElements.active ae); auto.
  + intros p v Hin.
    destruct (Hport p v Hin)
      as [h [ae [ei [lis [n [li [_ [_ [_ [_ [_ [-> _]]]]]]]]]]]].
    apply sync_derived_ignore_bit.
Qed.

Lemma X4_updates_write_a_bit_witness :
  In (Update.update_device_interface 12 1)
     (fst (@Update.main LiteralRe.literal_re quiet ["uplink"] ["Vlan"]
             ["core1"] Examples.update_env [])) /\
  (1 = 0 \/ 1 = 1)%Z.
Proof.
destruct (@X4_updates_write_a_bit LiteralRe.literal_re quiet
            ["uplink"] ["Vlan"] ["core1"]) as [HU _].
destruct (HU Examples.update_env
            (fst (@Update.main LiteralRe.literal_re quiet ["uplink"] ["Vlan"]
                    ["core1"] Examples.update_env [])) (Some tt))
  as [_ Hport].
- vm_compute. reflexivity.
- assert (Hin : In (Update.update_device_interface 12 1)
                   (fst (@Update.main LiteralRe.literal_re quiet ["uplink"]
                           ["Vlan"] ["core1"] Examples.update_env [])))
    by (vm_compute; do 12 right; left; reflexivity).
  split; [exact Hin|exact (Hport 12%Z 1%Z Hin)].
Defined.

(** ** What is created, deleted and reloaded *)

Section Reconciliation.

Context `{Re}.
Variable raises : nat -> bool.
Variable roles intfs : list regex.
Variable persistent : list string.

(** The calls of a run, finished or not, are calls of [calls]. *)
Lemma update_log_incl (e : Update.env) log r a :
  Update.main raises roles intfs persistent e [] = (log, r) ->
  In a log -> In a (Update.calls roles intfs persistent e).
Proof.
intros Hrun Ha. apply UpdateFacts.update_main_prefix in Hrun.
destruct Hrun as [rest ->]. apply in_app_iff. now left.
Qed.

Lemma sync_log_incl (e : SyncElements.env) log r a :
  SyncElements.main raises roles intfs persistent e [] = (log, r) ->
  In a log -> In a (SyncElements.calls roles intfs persistent e).
Proof.
intros Hrun Ha. apply SyncElementsFacts.sync_main_prefix in Hrun.
destruct Hrun as [rest ->]. apply in_app_iff. now left.
Qed.

Lemma sync_api_elements_In (e : SyncElements.env) hostname el :
  In (hostname, el) (SyncElements.api_elements e) <->
  In (hostname, el) (SyncElements.tmp_api_elements e) /\
  SyncElements.monitor_librenms el <> Some false.
Proof.
unfold SyncElements.api_elements, dict_items. rewrite filter_In.
destruct (SyncElements.monitor_librenms el) as [[|]|];
  split; intros [Hi Hm]; split; auto; congruence.
Qed.

Lemma update_In_load_devices (e : Update.env) :
  In Update.load_devices (Update.calls roles intfs persistent e) <->
  Update.create_in_librenms e <> [] \/
  Update.delete_in_librenms persistent e <> [].
Proof.
rewrite UpdateCalls.update_In_calls. split.
- intros [Hs|[[m [_ Hm]]|[[m [_ Hm]]|[Hr|[item [_ Hu]]]]]].
  + apply UpdateCalls.update_setup_phase in Hs. discriminate.
  + discriminate.
  + discriminate.
  + unfold Update.reload_calls in Hr.
    destruct (Update.create_in_librenms e);
      destruct (Update.delete_in_librenms persistent e);
      simpl in Hr; [destruct Hr|right|left|left]; discriminate.
  + apply UpdateCalls.update_calls_phase in Hu. discriminate.
- intros Hne. do 3 right. left. unfold Update.reload_calls.
  destruct (Update.create_in_librenms e);
    destruct (Update.delete_in_librenms persistent e);
    simpl; [destruct Hne as [Hne|Hne]; now elim Hne| | |]; now left.
Qed.

Lemma update_In_get_device_interfaces (e : Update.env) n :
  In (Update.get_device_interfaces n) (Update.calls roles intfs persistent e)
  <->
  exists ld ad,
    In (n, ld) (dict_items (Update.devices_at_update persistent e)) /\
    dict_get n (Update.api_devices e) = Some ad.
Proof.
rewrite UpdateCalls.update_In_calls. split.
- intros [Hs|[[m [_ Hm]]|[[m [_ Hm]]|[Hr|[[m ld] [Hi Hu]]]]]].
  + unfold Update.setup_calls in Hs. simpl in Hs.
    decompose [or] Hs; try discriminate; contradiction.
  + discriminate.
  + discriminate.
  + apply UpdateCalls.update_reload_phase in Hr. discriminate.
  + unfold Update.update_calls in Hu. simpl in Hu.
    destruct (dict_get m (Update.api_devices e)) as [ad|] eqn:Hg;
      [|destruct Hu].
    apply in_app_iff in Hu. destruct Hu as [Hu|Hu].
    * apply UpdateCalls.update_In_device_calls in Hu.
      destruct Hu as [v [_ Hu]]. discriminate.
    * apply UpdateCalls.update_In_interfaces_calls in Hu.
      destruct Hu as [[= ->]|[lis [li [_ [_ [Hu _]]]]]]; [|discriminate].
      now exists ld, ad.
- intros [ld [ad [Hi Hg]]]. do 4 right. exists (n, ld).
  split; [exact Hi|]. unfold Update.update_calls. simpl. rewrite Hg.
  apply in_app_iff. right. unfold Update.interfaces_calls. now left.
Qed.

Lemma sync_In_get_element_interfaces (e : SyncElements.env) n :
  In (SyncElements.get_element_interfaces n)
     (SyncElements.calls roles intfs persistent e)
  <->
  exists le ae ei,
    In (n, le) (dict_items (SyncElements.librenms_elements e)) /\
    dict_get n (SyncElements.api_elements e) = Some ae /\
    SyncElements.interfaces ae = Some ei.
Proof.
rewrite SyncElementsCalls.sync_In_calls. split.
- intros [Hs|[[m [_ Hm]]|[[m [_ Hm]]|[[m le] [Hi Hu]]]]].
  + unfold SyncElements.setup_calls in Hs. simpl in Hs.
    decompose [or] Hs; try discriminate; contradiction.
  + discriminate.
  + discriminate.
  + unfold SyncElements.update_calls in Hu. simpl in Hu.
    destruct (dict_get m (SyncElements.api_elements e)) as [ae|] eqn:Hg;
      [|destruct Hu].
    apply in_app_iff in Hu. destruct Hu as [Hu|Hu].
    * apply SyncElementsCalls.sync_In_element_calls in Hu.
      destruct Hu as [v [_ Hu]]. discriminate.
    * destruct (SyncElements.interfaces ae) as [ei|] eqn:Hei;
        [|destruct Hu].
      apply SyncElementsCalls.sync_In_interfaces_calls in Hu.
      destruct Hu as [[= ->]|[lis [k [li [_ [_ [Hu _]]]]]]]; [|discriminate].
      now exists le, ae, ei.
- intros [le [ae [ei [Hi [Hg Hei]]]]]. do 3 right. exists (n, le).
  split; [exact Hi|]. unfold SyncElements.update_calls. simpl.
  rewrite Hg, Hei. apply in_app_iff. right.
  unfold SyncElements.interfaces_calls. now left.
Qed.

End Reconciliation.

Lemma dict_in_keys_pair V (k : string) (d : dict V) :
  dict_in k d = true <-> exists v, In (k, v) d.
Proof.
rewrite dict_in_true. unfold dict_keys. rewrite in_map_iff. split.
- intros [[k' v] [Hk Hin]]. simpl in Hk. subst k'. now exists v.
- intros [v Hin]. now exists (k, v).
Qed.

(** X6 (update_librenms.py, lines 145-153 and 182-185;
    sync_elements_to_librenms.py, lines 95-100, 122-127 and 149-152).  In no
    run is a create call issued for a device that LibreNMS already has.  In
    update_librenms.py a created device is one the Device-API marks both
    [enabled] and [monitor_librenms]; in sync_elements_to_librenms.py it is
    an element of the Elements API that is not flagged
    [monitor_librenms == False]. *)
Theorem X6_create_only_missing_devices `{Re} (raises : nat -> bool)
    (roles intfs : list regex) (persistent : list string) :
  (forall (e : Update.env) log r name,
     Update.main raises roles intfs persistent e [] = (log, r) ->
     In (Update.create_device name) log ->
     dict_in name (Update.librenms_devices e) = false /\
     exists ad, In (name, ad) (dict_items (Update.api_devices e)) /\
                Update.enabled ad = true /\
                Update.monitor_librenms ad = true) /\
  (forall (e : SyncElements.env) log r hostname,
     SyncElements.main raises roles intfs persistent e [] = (log, r) ->
     In (SyncElements.create_element hostname) log ->
     dict_in hostname (SyncElements.librenms_elements e) = false /\
     exists el, In (hostname, el)
                   (dict_items (SyncElements.tmp_api_elements e)) /\
                SyncElements.monitor_librenms el <> Some false).
Proof.
split.
- intros e log r name Hrun Hin.
  eapply update_log_incl in Hin; [|exact Hrun].
  apply UpdateCalls.update_In_create, update_In_create_list in Hin.
  destruct Hin as [ad [Hi [He [Hm Hl]]]]. split; [exact Hl|now exists ad].
- intros e log r hostname Hrun Hin.
  eapply sync_log_incl in Hin; [|exact Hrun].
  apply SyncElementsCalls.sync_In_create,
        SyncElementsCalls.sync_In_create_list in Hin.
  destruct Hin as [Ha Hl]. split.
  + destruct (dict_in hostname (SyncElements.librenms_elements e)) eqn:Hd;
      [|reflexivity].
    apply dict_in_true in Hd. now elim Hl.
  + apply dict_in_true, dict_in_keys_pair in Ha. destruct Ha as [el Hel].
    apply sync_api_elements_In in Hel. now exists el.
Qed.

Lemma X6_create_only_missing_devices_witness :
  dict_in "sw2" (Update.librenms_devices Examples.update_env) = false /\
  exists ad, In ("sw2", ad)
                (dict_items (Update.api_devices Examples.update_env)) /\
             Update.enabled ad = true /\ Update.monitor_librenms ad = true.
Proof.
destruct (@X6_create_only_missing_devices LiteralRe.literal_re quiet
            ["uplink"] ["Vlan"] ["core1"]) as [HU _].
apply (HU Examples.update_env
          (fst (@Update.main LiteralRe.literal_re quiet ["uplink"] ["Vlan"]
                  ["core1"] Examples.update_env [])) (Some tt)).
- vm_compute. reflexivity.
- vm_compute. do 5 right. left. reflexivity.
Defined.

(** X7 (update_librenms.py, lines 157-169 and 190-193;
    sync_elements_to_librenms.py, lines 131-138 and 157-160).  In no run is
    a delete call issued for a persistent device, nor for a device that
    LibreNMS did not report.  update_librenms.py never deletes a device the
    Device-API has and marks enabled; sync_elements_to_librenms.py never
    deletes an element of [api_elements]. *)
Theorem X7_delete_spares_persistent_and_present `{Re} (raises : nat -> bool)
    (roles intfs : list regex) (persistent : list string) :
  (forall (e : Update.env) log r name,
     Update.main raises roles intfs persistent e [] = (log, r) ->
     In (Update.delete_device name) log ->
     ~ In name persistent /\
     dict_in name (Update.librenms_devices e) = true /\
     forall ad, dict_get name (Update.api_devices e) = Some ad ->
                Update.enabled ad = false) /\
  (forall (e : SyncElements.env) log r hostname,
     SyncElements.main raises roles intfs persistent e [] = (log, r) ->
     In (SyncElements.delete_element hostname) log ->
     ~ In hostname persistent /\
     dict_in hostname (SyncElements.librenms_elements e) = true /\
     dict_in hostname (SyncElements.api_elements e) = false).
Proof.
split.
- intros e log r name Hrun Hin.
  eapply update_log_incl in Hin; [|exact Hrun].
  apply UpdateCalls.update_In_delete, update_In_delete_list in Hin.
  destruct Hin as [ld [Hi [Hp Hg]]]. repeat split.
  + now apply str_in_false.
  + apply dict_in_keys_pair. now exists ld.
  + intros ad Had. now rewrite Had in Hg.
- intros e log r hostname Hrun Hin.
  eapply sync_log_incl in Hin; [|exact Hrun].
  apply SyncElementsCalls.sync_In_delete,
        SyncElementsCalls.sync_In_delete_list in Hin.
  destruct Hin as [Hl [Ha Hp]]. repeat split.
  + exact Hp.
  + now apply dict_in_true.
  + destruct (dict_in hostname (SyncElements.api_elements e)) eqn:Hd;
      [|reflexivity].
    apply dict_in_true in Hd. now elim Ha.
Qed.

Lemma X7_delete_spares_persistent_and_present_witness :
  ~ In "gone" ["keep"] /\
  dict_in "gone" (SyncElements.librenms_elements Examples.sync_env) = true /\
  dict_in "gone" (SyncElements.api_elements Examples.sync_env) = false.
Proof.
destruct (@X7_delete_spares_persistent_and_present LiteralRe.literal_re quiet
            ["uplink"] ["Vlan"] ["keep"]) as [_ HS].
apply (HS Examples.sync_env
          (fst (@SyncElements.main LiteralRe.literal_re quiet ["uplink"]
                  ["Vlan"] ["keep"] Examples.sync_env [])) (Some tt)).
- vm_compute. reflexivity.
- vm_compute. do 7 right. left. reflexivity.
Defined.

(** X8 (update_librenms.py, lines 166-169 and 190-193).  A device that
    LibreNMS has, that the Device-API has but does not mark enabled, and that
    is not persistent, is deleted from LibreNMS in a run that finishes. *)
Theorem X8_disabled_device_is_deleted `{Re} (raises : nat -> bool)
    (roles intfs : list regex) (persistent : list string)
    (e : Update.env) log r name ad :
  Update.main raises roles intfs persistent e [] = (log, Some r) ->
  dict_in name (Update.librenms_devices e) = true ->
  dict_get name (Update.api_devices e) = Some ad ->
  Update.enabled ad = false ->
  ~ In name persistent ->
  In (Update.delete_device name) log.
Proof.
intros Hrun Hl Hg He Hp.
apply UpdateFacts.update_main_returns in Hrun. subst log.
apply UpdateCalls.update_In_delete, update_In_delete_list.
apply dict_in_keys_pair in Hl. destruct Hl as [ld Hl].
exists ld. split; [exact Hl|]. split; [now apply str_in_false|].
now rewrite Hg.
Qed.

Lemma X8_disabled_device_is_deleted_witness :
  In (Update.delete_device "sw4")
     (fst (@Update.main LiteralRe.literal_re quiet ["uplink"] ["Vlan"]
             ["core1"] Examples.update_env [])).
Proof.
apply (@X8_disabled_device_is_deleted LiteralRe.literal_re quiet
         ["uplink"] ["Vlan"] ["core1"] Examples.update_env _ tt "sw4"
         {| Update.enabled := false; Update.monitor_librenms := true;
            Update.alarm_interfaces := true; Update.interfaces := [] |}).
- vm_compute. reflexivity.
- reflexivity.
- reflexivity.
- reflexivity.
- simpl. intuition discriminate.
Defined.

(** X9 (update_librenms.py, lines 201-203).  In a run that finishes,
    [load_devices] is called exactly when the run created or deleted some
    device. *)
Theorem X9_reload_after_changes `{Re} (raises : nat -> bool)
    (roles intfs : list regex) (persistent : list string)
    (e : Update.env) log r :
  Update.main raises roles intfs persistent e [] = (log, Some r) ->
  (In Update.load_devices log <->
   (exists name, In (Update.create_device name) log) \/
   (exists name, In (Update.delete_device name) log)).
Proof.
intros Hrun. apply UpdateFacts.update_main_returns in Hrun. subst log.
rewrite update_In_load_devices. split.
- intros [Hc|Hd].
  + left. destruct (Update.create_in_librenms e) as [|n l] eqn:Hl;
      [now elim Hc|].
    exists n. apply UpdateCalls.update_In_create. rewrite Hl. now left.
  + right. destruct (Update.delete_in_librenms persistent e) as [|n l] eqn:Hl;
      [now elim Hd|].
    exists n. apply UpdateCalls.update_In_delete. rewrite Hl. now left.
- intros [[n Hc]|[n Hd]].
  + left. apply UpdateCalls.update_In_create in Hc.
    intros Hl. rewrite Hl in Hc. destruct Hc.
  + right. apply UpdateCalls.update_In_delete in Hd.
    intros Hl. rewrite Hl in Hd. destruct Hd.
Qed.

Lemma X9_reload_after_changes_witness :
  In Update.load_devices
     (fst (@Update.main LiteralRe.literal_re quiet ["uplink"] ["Vlan"]
             ["core1"] Examples.update_env [])) /\
  ~ In Update.load_devices
       (fst (@Update.main LiteralRe.literal_re quiet ["uplink"] ["Vlan"]
               ["core1"] Examples.steady_update_env [])).
Proof.
split.
- apply (@X9_reload_after_changes LiteralRe.literal_re quiet
           ["uplink"] ["Vlan"] ["core1"] Examples.update_env _ tt).
  + vm_compute. reflexivity.
  + left. exists "sw2". vm_compute. do 5 right. left. reflexivity.
- intros Hin.
  apply (@X9_reload_after_changes LiteralRe.literal_re quiet
           ["uplink"] ["Vlan"] ["core1"] Examples.steady_update_env _ tt)
    in Hin.
  + vm_compute in Hin.
    destruct Hin as [[n Hn]|[n Hn]]; intuition discriminate.
  + vm_compute. reflexivity.
Defined.

(** X10 (update_librenms.py, lines 205-225; sync_elements_to_librenms.py,
    lines 165-185).  In a run that finishes, the ports of a device are
    fetched exactly for the devices that are both in the dictionary of
    LibreNMS devices the update loop goes through and in the source
    inventory, whether enabled or not; a device LibreNMS has and the source
    inventory lacks is skipped.  sync_elements_to_librenms.py further
    requires the element to have the key [interfaces]. *)
Theorem X10_ports_fetched_for_devices_in_both `{Re} (raises : nat -> bool)
    (roles intfs : list regex) (persistent : list string) :
  (forall (e : Update.env) log r name,
     Update.main raises roles intfs persistent e [] = (log, Some r) ->
     (In (Update.get_device_interfaces name) log <->
      dict_in name (Update.devices_at_update persistent e) = true /\
      dict_in name (Update.api_devices e) = true)) /\
  (forall (e : SyncElements.env) log r hostname,
     SyncElements.main raises roles intfs persistent e [] = (log, Some r) ->
     (In (SyncElements.get_element_interfaces hostname) log <->
      dict_in hostname (SyncElements.librenms_elements e) = true /\
      exists ae ei,
        dict_get hostname (SyncElements.api_elements e) = Some ae /\
        SyncElements.interfaces ae = Some ei)).
Proof.
split.
- intros e log r name Hrun.
  apply UpdateFacts.update_main_returns in Hrun. subst log.
  rewrite update_In_get_device_interfaces, dict_in_keys_pair.
  unfold dict_in at 1. split.
  + intros [ld [ad [Hi Hg]]]. split; [now exists ld|now rewrite Hg].
  + intros [[ld Hi] Hg].
    destruct (dict_get name (Update.api_devices e)) as [ad|];
      [|discriminate].
    now exists ld, ad.
- intros e log r hostname Hrun.
  apply SyncElementsFacts.sync_main_returns in Hrun. subst log.
  rewrite sync_In_get_element_interfaces, dict_in_keys_pair. split.
  + intros [le [ae [ei [Hi [Hg Hei]]]]]. split; [now exists le|].
    now exists ae, ei.
  + intros [[le Hi] [ae [ei [Hg Hei]]]]. now exists le, ae, ei.
Qed.

Lemma X10_ports_fetched_for_devices_in_both_witness :
  In (Update.get_device_interfaces "sw4")
     (fst (@Update.main LiteralRe.literal_re quiet ["uplink"] ["Vlan"]
             ["core1"] Examples.update_env [])) /\
  ~ In (Update.get_device_interfaces "old1")
       (fst (@Update.main LiteralRe.literal_re quiet ["uplink"] ["Vlan"]
               ["core1"] Examples.update_env [])).
Proof.
destruct (@X10_ports_fetched_for_devices_in_both LiteralRe.literal_re quiet
            ["uplink"] ["Vlan"] ["core1"]) as [HU _].
split.
- apply (HU Examples.update_env _ tt "sw4").
  + vm_compute. reflexivity.
  + split; reflexivity.
- intros Hin. apply (HU Examples.update_env _ tt "old1") in Hin.
  + destruct Hin as [_ Hin]. discriminate Hin.
  + vm_compute. reflexivity.
Defined.

(** ** Inventories that are in step *)

Lemma no_member_nil A (l : list A) : (forall x, ~ In x l) -> l = [].
Proof.
destruct l as [|a l]; [reflexivity|]. intros Hno. elim (Hno a). now left.
Qed.

(** X11 (update_librenms.py, lines 145-225; sync_elements_to_librenms.py,
    lines 122-185).  When LibreNMS is in step with the source inventory
    (nothing to create, nothing to delete, every stored device flag and
    port flag equal to the derived one) a run changes nothing: its only
    calls are the set-up calls and the reads of the ports; it makes no
    create, delete, reload or update call. *)
Theorem X11_in_step_changes_nothing `{Re} (raises : nat -> bool)
    (roles intfs : list regex) (persistent : list string) :
  (forall (e : Update.env) log r a,
     (forall n ad, In (n, ad) (dict_items (Update.api_devices e)) ->
        Update.enabled ad = true -> Update.monitor_librenms ad = true ->
        dict_in n (Update.librenms_devices e) = true) ->
     (forall n, dict_in n (Update.librenms_devices e) = true ->
        In n persistent \/
        exists ad, dict_get n (Update.api_devices e) = Some ad /\
                   Update.enabled ad = true) ->
     (forall n ld ad,
        In (n, ld) (dict_items (Update.librenms_devices e)) ->
        dict_get n (Update.api_devices e) = Some ad ->
        Update.device_ignore ld = (if Update.enabled ad then 0 else 1)%Z) ->
     (forall n ld ad lis li,
        In (n, ld) (dict_items (Update.librenms_devices e)) ->
        dict_get n (Update.api_devices e) = Some ad ->
        Update.device_interfaces e n = Some lis ->
        In li (dict_values lis) ->
        Update.ignore li = Update.derived_ignore roles intfs ad li) ->
     Update.main raises roles intfs persistent e [] = (log, r) ->
     In a log ->
     UpdateLog.phase a = 0 \/ exists n, a = Update.get_device_interfaces n) /\
  (forall (e : SyncElements.env) log r a,
     (forall h, dict_in h (SyncElements.api_elements e) = true ->
        dict_in h (SyncElements.librenms_elements e) = true) ->
     (forall h, dict_in h (SyncElements.librenms_elements e) = true ->
        In h persistent \/ dict_in h (SyncElements.api_elements e) = true) ->
     (forall h le ae,
        In (h, le) (dict_items (SyncElements.librenms_elements e)) ->
        dict_get h (SyncElements.api_elements e) = Some ae ->
        SyncElements.element_ignore le
        = (if SyncElements.active ae then 0 else 1)%Z) ->
     (forall h le ae ei lis n li,
        In (h, le) (dict_items (SyncElements.librenms_elements e)) ->
        dict_get h (SyncElements.api_elements e) = Some ae ->
        SyncElements.interfaces ae = Some ei ->
        SyncElements.element_interfaces e h = Some lis ->
        In (n, li) (dict_items lis) ->
        SyncElements.ignore li
        = SyncElements.derived_ignore roles intfs ei n) ->
     SyncElements.main raises roles intfs persistent e [] = (log, r) ->
     In a log ->
     SyncElementsLog.phase a = 0 \/
     exists h, a = SyncElements.get_element_interfaces h).
Proof.
split.
- intros e log r a H1 H2 H3 H4 Hrun Ha.
  eapply update_log_incl in Ha; [|exact Hrun].
  assert (Hc : Update.create_in_librenms e = []).
  { apply no_member_nil. intros n Hn. apply update_In_create_list in Hn.
    destruct Hn as [ad [Hi [He [Hm Hl]]]].
    rewrite (H1 n ad Hi He Hm) in Hl. discriminate. }
  assert (Hd : Update.delete_in_librenms persistent e = []).
  { apply no_member_nil. intros n Hn. apply update_In_delete_list in Hn.
    destruct Hn as [ld [Hi [Hp Hg]]].
    destruct (H2 n) as [Hper|[ad [Hga He]]].
    - apply dict_in_keys_pair. now exists ld.
    - apply str_in_true in Hper. congruence.
    - rewrite Hga in Hg. congruence. }
  apply UpdateCalls.update_In_calls in Ha.
  destruct Ha as [Hs|[[n [Hn _]]|[[n [Hn _]]|[Hr|[[n ld] [Hi Hu]]]]]].
  + left. now apply UpdateCalls.update_setup_phase.
  + rewrite Hc in Hn. destruct Hn.
  + rewrite Hd in Hn. destruct Hn.
  + unfold Update.reload_calls in Hr. rewrite Hc, Hd in Hr. destruct Hr.
  + unfold Update.devices_at_update in Hi. rewrite Hc, Hd in Hi.
    simpl in Hi. unfold Update.update_calls in Hu. simpl in Hu.
    destruct (dict_get n (Update.api_devices e)) as [ad|] eqn:Hg;
      [|destruct Hu].
    apply in_app_iff in Hu. destruct Hu as [Hu|Hu].
    * apply UpdateCalls.update_In_device_calls in Hu.
      destruct Hu as [v [Hv _]]. apply update_device_data_Some in Hv.
      destruct Hv as [-> Hne]. elim Hne. now apply (H3 n).
    * apply UpdateCalls.update_In_interfaces_calls in Hu.
      destruct Hu as [->|[lis [li [Hl [Hli [_ Hne]]]]]];
        [right; now exists n|].
      elim Hne. now apply (H4 n ld ad lis).
- intros e log r a H1 H2 H3 H4 Hrun Ha.
  eapply sync_log_incl in Ha; [|exact Hrun].
  apply SyncElementsCalls.sync_In_calls in Ha.
  destruct Ha as [Hs|[[n [Hn _]]|[[n [Hn _]]|[[n le] [Hi Hu]]]]].
  + left. now apply SyncElementsCalls.sync_setup_phase.
  + apply SyncElementsCalls.sync_In_create_list in Hn.
    destruct Hn as [Hin Hout]. elim Hout.
    apply dict_in_true, H1, dict_in_true. exact Hin.
  + apply SyncElementsCalls.sync_In_delete_list in Hn.
    destruct Hn as [Hl [Ha Hp]]. apply dict_in_true in Hl.
    destruct (H2 n Hl) as [Hper|Hapi]; [now elim Hp|].
    apply dict_in_true in Hapi. now elim Ha.
  + unfold SyncElements.update_calls in Hu. simpl in Hu.
    destruct (dict_get n (SyncElements.api_elements e)) as [ae|] eqn:Hg;
      [|destruct Hu].
    apply in_app_iff in Hu. destruct Hu as [Hu|Hu].
    * apply SyncElementsCalls.sync_In_element_calls in Hu.
      destruct Hu as [v [Hv _]]. apply sync_element_data_Some in Hv.
      destruct Hv as [-> Hne]. elim Hne. now apply (H3 n).
    * destruct (SyncElements.interfaces ae) as [ei|] eqn:Hei;
        [|destruct Hu].
      apply SyncElementsCalls.sync_In_interfaces_calls in Hu.
      destruct Hu as [->|[lis [k [li [Hl [Hli [_ Hne]]]]]]];
        [right; now exists n|].
      elim Hne. now apply (H4 n le ae ei lis k li).
Qed.

Lemma X11_in_step_changes_nothing_witness :
  In (Update.get_device_interfaces "sw1")
     (fst (@Update.main LiteralRe.literal_re quiet ["uplink"] ["Vlan"]
             ["core1"] Examples.steady_update_env [])) /\
  (UpdateLog.phase (Update.get_device_interfaces "sw1") = 0 \/
   exists n, Update.get_device_interfaces "sw1"
             = Update.get_device_interfaces n).
Proof.
destruct (@X11_in_step_changes_nothing LiteralRe.literal_re quiet
            ["uplink"] ["Vlan"] ["core1"]) as [HU _].
assert (Hin : In (Update.get_device_interfaces "sw1")
                 (fst (@Update.main LiteralRe.literal_re quiet ["uplink"]
                         ["Vlan"] ["core1"] Examples.steady_update_env [])))
  by (vm_compute; do 5 right; left; reflexivity).
split; [exact Hin|].
apply (HU Examples.steady_update_env
          (fst (@Update.main LiteralRe.literal_re quiet ["uplink"] ["Vlan"]
                  ["core1"] Examples.steady_update_env [])) (Some tt)).
- intros n ad Hi He Hm. simpl in Hi.
  destruct Hi as [[= <- <-]|[[= <- <-]|[]]]; [reflexivity|discriminate].
- intros n Hn. apply dict_in_keys_pair in Hn. destruct Hn as [ld Hi].
  simpl in Hi. destruct Hi as [[= <- <-]|[[= <- <-]|[]]].
  + right. eexists. split; reflexivity.
  + left. now left.
- intros n ld ad Hi Hg. simpl in Hi.
  destruct Hi as [[= <- <-]|[[= <- <-]|[]]].
  + injection Hg as <-. reflexivity.
  + discriminate.
- intros n ld ad lis li Hi Hg Hl Hli. simpl in Hi.
  destruct Hi as [[= <- <-]|[[= <- <-]|[]]].
  + injection Hg as <-. injection Hl as <-. simpl in Hli.
    destruct Hli as [<-|[<-|[]]]; reflexivity.
  + discriminate.
- vm_compute. reflexivity.
- exact Hin.
Defined.

(** ** Compiling the configured patterns *)

Lemma compile_all_None `{Re} (ps : list string) :
  compile_all ps = None <-> exists p, In p ps /\ re_compile p = None.
Proof.
induction ps as [|p ps IH]; simpl.
- split; [discriminate|]. intros [p [[] _]].
- destruct (re_compile p) as [r|] eqn:Hp.
  + destruct (compile_all ps) as [rs|].
    * split; [discriminate|]. intros [q [[<-|Hin] Hq]]; [congruence|].
      assert (Hex : exists p0, In p0 ps /\ re_compile p0 = None)
        by now exists q.
      apply IH in Hex. discriminate.
    * split; [|reflexivity]. intros _.
      destruct (proj1 IH eq_refl) as [q [Hin Hq]]. exists q. auto.
  + split; [|reflexivity]. intros _. exists p. auto.
Qed.

(** X12 (both files, the module-level loops of lines 34-41).  Once the
    configuration is loaded, if one of the configured patterns of
    [roles_enabled] or [interfaces_disabled] does not compile, the script
    ends by propagating the exception and has made no call at all: no
    manager was created and nothing was reported. *)
Theorem X12_bad_pattern_propagates_before_any_call `{Re}
    (raises : nat -> bool) :
  (forall (cfg : Update.config) (e : Update.env) p,
     In p (Update.roles_enabled cfg ++ Update.interfaces_disabled cfg) ->
     re_compile p = None ->
     Update.script raises cfg e = ([], Propagated)) /\
  (forall (cfg : SyncElements.config) (e : SyncElements.env) p,
     In p (SyncElements.roles_enabled cfg
           ++ SyncElements.interfaces_disabled cfg) ->
     re_compile p = None ->
     SyncElements.script raises cfg e = ([], Propagated)).
Proof.
split.
- intros cfg e p Hin Hp. unfold Update.script.
  destruct (compile_all (Update.roles_enabled cfg)) as [rs|] eqn:Hr;
    [|reflexivity].
  destruct (compile_all (Update.interfaces_disabled cfg)) as [ds|] eqn:Hi;
    [|reflexivity].
  exfalso. apply in_app_iff in Hin. destruct Hin as [Hin|Hin].
  + assert (Hex : exists q, In q (Update.roles_enabled cfg) /\
                            re_compile q = None) by now exists p.
    apply compile_all_None in Hex. congruence.
  + assert (Hex : exists q, In q (Update.interfaces_disabled cfg) /\
                            re_compile q = None) by now exists p.
    apply compile_all_None in Hex. congruence.
- intros cfg e p Hin Hp. unfold SyncElements.script.
  destruct (compile_all (SyncElements.roles_enabled cfg)) as [rs|] eqn:Hr;
    [|reflexivity].
  destruct (compile_all (SyncElements.interfaces_disabled cfg))
    as [ds|] eqn:Hi; [|reflexivity].
  exfalso. apply in_app_iff in Hin. destruct Hin as [Hin|Hin].
  + assert (Hex : exists q, In q (SyncElements.roles_enabled cfg) /\
                            re_compile q = None) by now exists p.
    apply compile_all_None in Hex. congruence.
  + assert (Hex : exists q, In q (SyncElements.interfaces_disabled cfg) /\
                            re_compile q = None) by now exists p.
    apply compile_all_None in Hex. congruence.
Qed.

Lemma X12_bad_pattern_propagates_before_any_call_witness :
  @SyncElements.script LiteralRe.literal_re quiet
     {| SyncElements.roles_enabled := ["uplink"];
        SyncElements.interfaces_disabled := ["Vlan"; "(lo"];
        SyncElements.persistent_elements := ["keep"] |}
     Examples.sync_env
  = ([], Propagated).
Proof.
destruct (@X12_bad_pattern_propagates_before_any_call LiteralRe.literal_re
            quiet) as [_ HS].
apply (HS _ Examples.sync_env "(lo").
- simpl. right. right. now left.
- reflexivity.
Defined.

(** X13 (both files, lines 34-41).  When the loops over the configured
    patterns finish, the compiled list holds one compiled pattern for each
    configured pattern, in the order of the configuration. *)
Theorem X13_compiled_patterns_line_up `{Re} (ps : list string)
    (rs : list regex) :
  compile_all ps = Some rs <->
  Forall2 (fun p r => re_compile p = Some r) ps rs.
Proof.
revert rs. induction ps as [|p ps IH]; intros rs; simpl.
- split.
  + intros [= <-]. constructor.
  + intros HF. inversion HF. reflexivity.
- destruct (re_compile p) as [r|] eqn:Hp.
  + destruct (compile_all ps) as [rs'|].
    * split.
      -- intros [= <-]. constructor; [exact Hp|]. now apply IH.
      -- intros HF. inversion HF as [|? r0 ? rs0 Hr0 HF']; subst.
         apply IH in HF'. congruence.
    * split; [discriminate|]. intros HF.
      inversion HF as [|? r0 ? rs0 Hr0 HF']; subst.
      apply IH in HF'. discriminate.
  + split; [discriminate|]. intros HF.
    inversion HF as [|? r0 ? rs0 Hr0 HF']; subst. congruence.
Qed.

(** ** The elements to monitor *)

Lemma sync_api_elements_wf (e : SyncElements.env) :
  dict_wf (SyncElements.tmp_api_elements e) ->
  dict_wf (SyncElements.api_elements e).
Proof.
unfold dict_wf, SyncElements.api_elements, dict_items, dict_keys.
induction (SyncElements.tmp_api_elements e) as [|[h el] d IH]; simpl.
- constructor.
- intros Hnd. inversion Hnd as [|? ? Hh Hnd']; subst.
  destruct (match SyncElements.monitor_librenms el with
            | Some false => false
            | _ => true
            end); simpl; [|now apply IH].
  constructor; [|now apply IH].
  intros Hin. apply Hh. apply in_map_iff in Hin.
  destruct Hin as [[h' el'] [Hk Hin]]. simpl in Hk. subst h'.
  apply filter_In in Hin. destruct Hin as [Hin _].
  apply (in_map fst) in Hin. exact Hin.
Qed.

Lemma sync_api_elements_get (e : SyncElements.env) hostname el :
  dict_wf (SyncElements.tmp_api_elements e) ->
  (dict_get hostname (SyncElements.api_elements e) = Some el <->
   dict_get hostname (SyncElements.tmp_api_elements e) = Some el /\
   SyncElements.monitor_librenms el <> Some false).
Proof.
intros Hwf. split.
- intros Hg. apply dict_get_In, sync_api_elements_In in Hg.
  destruct Hg as [Hin Hm]. split; [now apply dict_get_wf|exact Hm].
- intros [Hg Hm]. apply dict_get_wf; [now apply sync_api_elements_wf|].
  apply sync_api_elements_In. split; [now apply dict_get_In|exact Hm].
Qed.

(** X14 (sync_elements_to_librenms.py, lines 95-100).  [api_elements] is
    the Elements API's dictionary without the elements that carry
    [monitor_librenms == False]: looking a host up in it gives the element
    the Elements API has under that name, provided the element is not
    flagged; an element without the key [monitor_librenms], or with the key
    set to true, is kept.  It is again a dictionary with no key twice. *)
Theorem X14_monitored_elements (e : SyncElements.env) :
  dict_wf (SyncElements.tmp_api_elements e) ->
  dict_wf (SyncElements.api_elements e) /\
  forall hostname el,
    dict_get hostname (SyncElements.api_elements e) = Some el <->
    dict_get hostname (SyncElements.tmp_api_elements e) = Some el /\
    SyncElements.monitor_librenms el <> Some false.
Proof.
intros Hwf. split; [now apply sync_api_elements_wf|].
intros hostname el. now apply sync_api_elements_get.
Qed.

Lemma X14_monitored_elements_witness :
  dict_get "r2" (SyncElements.api_elements Examples.sync_env) = None /\
  dict_get "r3" (SyncElements.api_elements Examples.sync_env)
  = Some {| SyncElements.monitor_librenms := Some true;
            SyncElements.active := false;
            SyncElements.interfaces := None |}.
Proof.
assert (Hwf : dict_wf (SyncElements.tmp_api_elements Examples.sync_env)).
{ unfold dict_wf. vm_compute.
  repeat constructor; simpl; intuition discriminate. }
destruct (X14_monitored_elements Examples.sync_env Hwf) as [_ Hget].
split.
- destruct (dict_get "r2" (SyncElements.api_elements Examples.sync_env))
    as [el|] eqn:Hg; [|reflexivity].
  apply Hget in Hg. destruct Hg as [Hg Hm]. vm_compute in Hg.
  injection Hg as <-. now elim Hm.
- apply Hget. split; [reflexivity|discriminate].
Defined.

(** X15 (sync_elements_to_librenms.py, lines 95-100 and 131-138).  An
    element that the Elements API flags [monitor_librenms == False] counts
    as absent: if LibreNMS has it and it is not persistent, a run that
    finishes deletes it from LibreNMS. *)
Theorem X15_unmonitored_element_is_deleted `{Re} (raises : nat -> bool)
    (roles intfs : list regex) (persistent : list string)
    (e : SyncElements.env) log r hostname el :
  SyncElements.main raises roles intfs persistent e [] = (log, Some r) ->
  dict_wf (SyncElements.tmp_api_elements e) ->
  dict_get hostname (SyncElements.tmp_api_elements e) = Some el ->
  SyncElements.monitor_librenms el = Some false ->
  dict_in hostname (SyncElements.librenms_elements e) = true ->
  ~ In hostname persistent ->
  In (SyncElements.delete_element hostname) log.
Proof.
intros Hrun Hwf Hg Hm Hl Hp.
apply SyncElementsFacts.sync_main_returns in Hrun. subst log.
apply SyncElementsCalls.sync_In_delete,
      SyncElementsCalls.sync_In_delete_list.
repeat split.
- now apply dict_in_true.
- intros Hin. apply dict_in_true in Hin. unfold dict_in in Hin.
  destruct (dict_get hostname (SyncElements.api_elements e)) as [el'|] eqn:Ha;
    [|discriminate].
  apply (sync_api_elements_get e hostname el' Hwf) in Ha.
  destruct Ha as [Ha Hm']. congruence.
- exact Hp.
Qed.

Lemma X15_unmonitored_element_is_deleted_witness :
  In (SyncElements.delete_element "r2")
     (fst (@SyncElements.main LiteralRe.literal_re quiet ["uplink"] ["Vlan"]
             ["keep"] Examples.sync_env [])).
Proof.
apply (@X15_unmonitored_element_is_deleted LiteralRe.literal_re quiet
         ["uplink"] ["Vlan"] ["keep"] Examples.sync_env _ tt "r2"
         {| SyncElements.monitor_librenms := Some false;
            SyncElements.active := true;
            SyncElements.interfaces := None |}).
- vm_compute. reflexivity.
- unfold dict_wf. vm_compute.
  repeat constructor; simpl; intuition discriminate.
- reflexivity.
- reflexivity.
- reflexivity.
- simpl. intuition discriminate.
Defined.

(** ** The [KeyError] of [sync_interfaces] *)

(** X16 (sync_elements_to_librenms.py, lines 45-54 and 184-185).  Called
    for a host of [api_elements] whose element has no key [interfaces],
    [sync_interfaces] fetches the ports and then raises ([KeyError]) without
    another call.  [main] only calls it for elements that have the key, so
    when no external call raises, [main] runs to its end. *)
Theorem X16_sync_interfaces_key_error `{Re} (raises : nat -> bool)
    (roles intfs : list regex) (persistent : list string)
    (e : SyncElements.env) :
  (forall n, raises n = false) ->
  (forall hostname ae lis log,
     SyncElements.element_interfaces e hostname = Some lis ->
     dict_get hostname (SyncElements.api_elements e) = Some ae ->
     SyncElements.interfaces ae = None ->
     SyncElements.sync_interfaces raises roles intfs e hostname log
     = (log ++ [SyncElements.get_element_interfaces hostname], None)) /\
  snd (SyncElements.main raises roles intfs persistent e []) = Some tt.
Proof.
intros Hq. split.
- intros hostname ae lis log Hl Hg Hi.
  unfold SyncElements.sync_interfaces, bind, call.
  rewrite Hq, Hl, Hg, Hi. reflexivity.
- rewrite SyncElementsFacts.sync_main_performs.
  now rewrite perform_quiet.
Qed.

Lemma X16_sync_interfaces_key_error_witness :
  @SyncElements.sync_interfaces LiteralRe.literal_re quiet
     ["uplink"] ["Vlan"]
     {| SyncElements.librenms_elements :=
          Examples.sample_librenms_elements;
        SyncElements.tmp_api_elements := Examples.sample_api_elements;
        SyncElements.element_interfaces := fun _ => Some Examples.r1_ports;
        SyncElements.order := insertion_order |}
     "r4" []
  = ([SyncElements.get_element_interfaces "r4"], None) /\
  snd (@SyncElements.main LiteralRe.literal_re quiet ["uplink"] ["Vlan"]
         ["keep"]
         {| SyncElements.librenms_elements :=
              Examples.sample_librenms_elements;
            SyncElements.tmp_api_elements := Examples.sample_api_elements;
            SyncElements.element_interfaces := fun _ => Some Examples.r1_ports;
            SyncElements.order := insertion_order |} [])
  = Some tt.
Proof.
destruct (@X16_sync_interfaces_key_error LiteralRe.literal_re quiet
            ["uplink"] ["Vlan"] ["keep"]
            {| SyncElements.librenms_elements :=
                 Examples.sample_librenms_elements;
               SyncElements.tmp_api_elements := Examples.sample_api_elements;
               SyncElements.element_interfaces :=
                 fun _ => Some Examples.r1_ports;
               SyncElements.order := insertion_order |})
  as [Hkey Hmain].
- intros n. reflexivity.
- split; [|exact Hmain].
  apply (Hkey "r4"
           {| SyncElements.monitor_librenms := None;
              SyncElements.active := true;
              SyncElements.interfaces := None |}
           Examples.r1_ports []); reflexivity.
Defined.

(** ** One device-level update per device *)

(** X17 (update_librenms.py, lines 205-223; sync_elements_to_librenms.py,
    lines 165-183).  In no run does a device get two device-level update
    calls with different values: the dictionary of LibreNMS devices has
    every name once, and the loop issues at most one update for it. *)
Theorem X17_one_flag_per_device `{Re} (raises : nat -> bool)
    (roles intfs : list regex) (persistent : list string) :
  (forall (e : Update.env) log r name v v',
     Update.main raises roles intfs persistent e [] = (log, r) ->
     dict_wf (Update.devices_at_update persistent e) ->
     In (Update.update_device name v) log ->
     In (Update.update_device name v') log ->
     v = v') /\
  (forall (e : SyncElements.env) log r hostname v v',
     SyncElements.main raises roles intfs persistent e [] = (log, r) ->
     dict_wf (SyncElements.librenms_elements e) ->
     In (SyncElements.update_element hostname v) log ->
     In (SyncElements.update_element hostname v') log ->
     v = v').
Proof.
split.
- intros e log r name v v' Hrun Hwf Hv Hv'.
  eapply update_log_incl in Hv; [|exact Hrun].
  eapply update_log_incl in Hv'; [|exact Hrun].
  apply UpdateCalls.update_In_update_device in Hv, Hv'.
  destruct Hv as [ld [ad [Hi [Hg Hd]]]].
  destruct Hv' as [ld' [ad' [Hi' [Hg' Hd']]]].
  apply (dict_get_wf _ _ Hwf) in Hi, Hi'. congruence.
- intros e log r hostname v v' Hrun Hwf Hv Hv'.
  eapply sync_log_incl in Hv; [|exact Hrun].
  eapply sync_log_incl in Hv'; [|exact Hrun].
  apply SyncElementsCalls.sync_In_update_element in Hv, Hv'.
  destruct Hv as [le [ae [Hi [Hg Hd]]]].
  destruct Hv' as [le' [ae' [Hi' [Hg' Hd']]]].
  apply (dict_get_wf _ _ Hwf) in Hi, Hi'. congruence.
Qed.

Lemma X17_one_flag_per_device_witness :
  In (Update.update_device "sw4" 1)
     (fst (@Update.main LiteralRe.literal_re quiet ["uplink"] ["Vlan"]
             ["core1"] Examples.update_env [])) /\
  1%Z = 1%Z.
Proof.
destruct (@X17_one_flag_per_device LiteralRe.literal_re quiet
            ["uplink"] ["Vlan"] ["core1"]) as [HU _].
assert (Hin : In (Update.update_device "sw4" 1)
                 (fst (@Update.main LiteralRe.literal_re quiet ["uplink"]
                         ["Vlan"] ["core1"] Examples.update_env [])))
  by (vm_compute; do 13 right; left; reflexivity).
split; [exact Hin|].
apply (HU Examples.update_env
          (fst (@Update.main LiteralRe.literal_re quiet ["uplink"] ["Vlan"]
                  ["core1"] Examples.update_env [])) (Some tt) "sw4").
- vm_compute. reflexivity.
- unfold dict_wf. vm_compute.
  repeat constructor; simpl; intuition discriminate.
- exact Hin.
- exact Hin.
Defined.

(** ** The device flag after a run *)

Section FlagAfterUpdate.
Import Update UpdateLog.

Context `{Re}.
Variable roles intfs : list regex.
Variable persistent : list string.
Variable e : env.

Lemma update_ignore_after_app name s l1 l2 :
  ignore_after name s (l1 ++ l2)
  = ignore_after name (ignore_after name s l1) l2.
Proof.
revert s. induction l1 as [|a l1 IH]; intros s; simpl; [reflexivity|].
destruct a; apply IH.
Qed.

Lemma update_ignore_after_skip name s l :
  (forall v, ~ In (update_device name v) l) ->
  ~ In (delete_device name) l ->
  ignore_after name s l = s.
Proof.
induction l as [|a l IH]; intros Hno Hnd; simpl; [reflexivity|].
assert (Hl : forall v, ~ In (update_device name v) l)
  by (intros v Hv; apply (Hno v); now right).
assert (Hd : ~ In (delete_device name) l)
  by (intros Hv; apply Hnd; now right).
destruct a; try (now apply IH).
- destruct (String.eqb_spec name0 name) as [->|_]; [|now apply IH].
  exfalso. apply Hnd. now left.
- destruct (String.eqb_spec name0 name) as [->|_]; [|now apply IH].
  exfalso. apply (Hno ignore0). now left.
Qed.

Lemma update_calls_update_device item name v :
  In (update_device name v) (update_calls roles intfs e item) ->
  fst item = name.
Proof.
unfold update_calls.
destruct (dict_get (fst item) (api_devices e)) as [ad|]; [|intros []].
rewrite in_app_iff. intros [Hin|Hin].
- apply UpdateCalls.update_In_device_calls in Hin.
  now destruct Hin as [v' [_ [= -> _]]].
- apply UpdateCalls.update_In_interfaces_calls in Hin.
  destruct Hin as [Hin|[lis [li [_ [_ [Hin _]]]]]]; discriminate.
Qed.

Lemma update_ignore_after_others name s (d : dict librenms_device) :
  ~ In name (dict_keys d) ->
  ignore_after name s (flat_map (update_calls roles intfs e) d) = s.
Proof.
intros Hname. apply update_ignore_after_skip.
- intros v Hin. apply in_flat_map in Hin. destruct Hin as [item [Hi Hin]].
  apply update_calls_update_device in Hin. subst name.
  apply Hname. now apply in_map.
- intros Hin. apply in_flat_map in Hin. destruct Hin as [item [_ Hin]].
  apply UpdateCalls.update_calls_phase in Hin. discriminate.
Qed.

Lemma update_ignore_after_one name s ld ad :
  dict_get name (api_devices e) = Some ad ->
  ignore_after name (Some s) (update_calls roles intfs e (name, ld))
  = Some match device_data ld ad with Some v => v | None => s end.
Proof.
intros Hg. unfold update_calls. simpl. rewrite Hg.
rewrite update_ignore_after_app.
rewrite (@update_ignore_after_skip name _
           (interfaces_calls roles intfs e name ad)).
- unfold device_calls. destruct (device_data ld ad) as [v|]; simpl;
    [now rewrite String.eqb_refl|reflexivity].
- intros v Hin. apply UpdateCalls.update_In_interfaces_calls in Hin.
  destruct Hin as [Hin|[lis [li [_ [_ [Hin _]]]]]]; discriminate.
- intros Hin. apply UpdateCalls.update_In_interfaces_calls in Hin.
  destruct Hin as [Hin|[lis [li [_ [_ [Hin _]]]]]]; discriminate.
Qed.

Lemma update_ignore_after_loop name s ld ad (d : dict librenms_device) :
  dict_wf d -> In (name, ld) d ->
  dict_get name (api_devices e) = Some ad ->
  ignore_after name (Some s) (flat_map (update_calls roles intfs e) d)
  = Some match device_data ld ad with Some v => v | None => s end.
Proof.
unfold dict_wf. intros Hwf Hin Hg.
apply in_split in Hin. destruct Hin as [d1 [d2 ->]].
unfold dict_keys in Hwf. rewrite map_app in Hwf. simpl in Hwf.
pose proof (NoDup_remove_2 _ _ _ Hwf) as Hout.
rewrite flat_map_app. simpl.
rewrite !update_ignore_after_app.
rewrite (@update_ignore_after_others name (Some s) d1)
  by (intros Hk; apply Hout, in_app_iff; now left).
rewrite (@update_ignore_after_one name s ld ad Hg).
apply update_ignore_after_others.
intros Hk. apply Hout, in_app_iff. now right.
Qed.

(** The flag of a device that the run keeps. *)
Lemma update_ignore_after_calls name ld ad :
  dict_wf (devices_at_update persistent e) ->
  In (name, ld) (dict_items (devices_at_update persistent e)) ->
  dict_get name (api_devices e) = Some ad ->
  ~ In name (delete_in_librenms persistent e) ->
  ignore_after name (Some (device_ignore ld))
               (calls roles intfs persistent e)
  = Some match device_data ld ad with
         | Some v => v
         | None => device_ignore ld
         end.
Proof.
intros Hwf Hin Hg Hkeep. unfold calls.
rewrite !app_assoc. rewrite update_ignore_after_app.
match goal with
| |- ignore_after _ (ignore_after _ _ ?pre) _ = _ =>
    rewrite (@update_ignore_after_skip name (Some (device_ignore ld)) pre)
end.
- now apply update_ignore_after_loop.
- intros v. rewrite !in_app_iff, !in_map_iff.
  intros [[[Hs|[m [Hm _]]]|[m [Hm _]]]|Hr].
  + apply UpdateCalls.update_setup_phase in Hs. discriminate.
  + discriminate.
  + discriminate.
  + apply UpdateCalls.update_reload_phase in Hr. discriminate.
- rewrite !in_app_iff, !in_map_iff.
  intros [[[Hs|[m [Hm _]]]|[m [Hm Hd]]]|Hr].
  + apply UpdateCalls.update_setup_phase in Hs. discriminate.
  + discriminate.
  + injection Hm as ->. now apply Hkeep.
  + apply UpdateCalls.update_reload_phase in Hr. discriminate.
Qed.

End FlagAfterUpdate.

Section FlagAfterSync.
Import SyncElements SyncElementsLog.

Context `{Re}.
Variable roles intfs : list regex.
Variable persistent : list string.
Variable e : env.

Lemma sync_ignore_after_app hostname s l1 l2 :
  ignore_after hostname s (l1 ++ l2)
  = ignore_after hostname (ignore_after hostname s l1) l2.
Proof.
revert s. induction l1 as [|a l1 IH]; intros s; simpl; [reflexivity|].
destruct a; apply IH.
Qed.

Lemma sync_ignore_after_skip hostname s l :
  (forall v, ~ In (update_element hostname v) l) ->
  ~ In (delete_element hostname) l ->
  ignore_after hostname s l = s.
Proof.
induction l as [|a l IH]; intros Hno Hnd; simpl; [reflexivity|].
assert (Hl : forall v, ~ In (update_element hostname v) l)
  by (intros v Hv; apply (Hno v); now right).
assert (Hd : ~ In (delete_element hostname) l)
  by (intros Hv; apply Hnd; now right).
destruct a; try (now apply IH).
- destruct (String.eqb_spec hostname0 hostname) as [->|_]; [|now apply IH].
  exfalso. apply Hnd. now left.
- destruct (String.eqb_spec hostname0 hostname) as [->|_]; [|now apply IH].
  exfalso. apply (Hno ignore0). now left.
Qed.

Lemma sync_interfaces_part_no_update hostname host ae v :
  ~ In (update_element hostname v)
       match interfaces ae with
       | Some ei => interfaces_calls roles intfs e host ei
       | None => []
       end.
Proof.
destruct (interfaces ae) as [ei|]; [|intros []].
intros Hin. apply SyncElementsCalls.sync_In_interfaces_calls in Hin.
destruct Hin as [Hin|[lis [n [li [_ [_ [Hin _]]]]]]]; discriminate.
Qed.

Lemma sync_calls_update_element item hostname v :
  In (update_element hostname v) (update_calls roles intfs e item) ->
  fst item = hostname.
Proof.
unfold update_calls.
destruct (dict_get (fst item) (api_elements e)) as [ae|]; [|intros []].
rewrite in_app_iff. intros [Hin|Hin].
- apply SyncElementsCalls.sync_In_element_calls in Hin.
  now destruct Hin as [v' [_ [= -> _]]].
- now apply sync_interfaces_part_no_update in Hin.
Qed.

Lemma sync_ignore_after_others hostname s (d : dict librenms_element) :
  ~ In hostname (dict_keys d) ->
  ignore_after hostname s (flat_map (update_calls roles intfs e) d) = s.
Proof.
intros Hname. apply sync_ignore_after_skip.
- intros v Hin. apply in_flat_map in Hin. destruct Hin as [item [Hi Hin]].
  apply sync_calls_update_element in Hin. subst hostname.
  apply Hname. now apply in_map.
- intros Hin. apply in_flat_map in Hin. destruct Hin as [item [_ Hin]].
  apply SyncElementsCalls.sync_update_calls_phase in Hin. discriminate.
Qed.

Lemma sync_ignore_after_one hostname s le ae :
  dict_get hostname (api_elements e) = Some ae ->
  ignore_after hostname (Some s)
               (update_calls roles intfs e (hostname, le))
  = Some match element_data le ae with Some v => v | None => s end.
Proof.
intros Hg.
assert (Hph : forall a, In a (update_calls roles intfs e (hostname, le)) ->
                        phase a = 4)
  by (intros a; apply SyncElementsCalls.sync_update_calls_phase).
unfold update_calls in *. simpl in *. rewrite Hg in *.
rewrite sync_ignore_after_app.
rewrite (@sync_ignore_after_skip hostname _
           match interfaces ae with
           | Some ei => interfaces_calls roles intfs e hostname ei
           | None => []
           end).
- unfold element_calls. destruct (element_data le ae) as [v|]; simpl;
    [now rewrite String.eqb_refl|reflexivity].
- intros v. apply sync_interfaces_part_no_update.
- intros Hin. specialize (Hph (delete_element hostname)).
  rewrite in_app_iff in Hph. specialize (Hph (or_intror Hin)).
  discriminate.
Qed.

(** The flag of an element that the run keeps. *)
Lemma sync_ignore_after_calls hostname le ae :
  dict_wf (librenms_elements e) ->
  In (hostname, le) (dict_items (librenms_elements e)) ->
  dict_get hostname (api_elements e) = Some ae ->
  ~ In hostname (delete_in_librenms persistent e) ->
  ignore_after hostname (Some (element_ignore le))
               (calls roles intfs persistent e)
  = Some match element_data le ae with
         | Some v => v
         | None => element_ignore le
         end.
Proof.
intros Hwf Hin Hg Hkeep. unfold calls.
rewrite !app_assoc. rewrite sync_ignore_after_app.
match goal with
| |- ignore_after _ (ignore_after _ _ ?pre) _ = _ =>
    rewrite (@sync_ignore_after_skip hostname
               (Some (element_ignore le)) pre)
end.
- unfold dict_wf, dict_items in *.
  apply in_split in Hin. destruct Hin as [d1 [d2 Hd]].
  rewrite Hd in *. clear Hd.
  unfold dict_keys in Hwf. rewrite map_app in Hwf. simpl in Hwf.
  pose proof (NoDup_remove_2 _ _ _ Hwf) as Hout.
  rewrite flat_map_app. simpl.
  rewrite !sync_ignore_after_app.
  rewrite (@sync_ignore_after_others hostname
             (Some (element_ignore le)) d1)
    by (intros Hk; apply Hout, in_app_iff; now left).
  rewrite (@sync_ignore_after_one hostname (element_ignore le) le ae Hg).
  apply sync_ignore_after_others.
  intros Hk. apply Hout, in_app_iff. now right.
- intros v. rewrite !in_app_iff, !in_map_iff.
  intros [[Hs|[m [Hm _]]]|[m [Hm _]]].
  + apply SyncElementsCalls.sync_setup_phase in Hs. discriminate.
  + discriminate.
  + discriminate.
- rewrite !in_app_iff, !in_map_iff.
  intros [[Hs|[m [Hm _]]]|[m [Hm Hd]]].
  + apply SyncElementsCalls.sync_setup_phase in Hs. discriminate.
  + discriminate.
  + injection Hm as ->. now apply Hkeep.
Qed.

End FlagAfterSync.

(** C1, the claim as stated fails for devices the job does not keep in
    step.  In sync_elements_to_librenms.py the element [r5] is in the
    Elements API, marked inactive, and in LibreNMS with [ignore = 0]; it is
    flagged [monitor_librenms == False], so the job treats it as absent: it
    issues no update for it, and as [r5] is persistent it stays in LibreNMS
    with [ignore = 0].  In update_librenms.py the device [sw4] is in the
    Device-API, not enabled, and in LibreNMS with [ignore = 0]: the job
    deletes it, and when [load_devices] refreshes the device list no update
    is issued for it. *)
Lemma C1_counterexample_device_in_both_not_synchronised :
  (dict_get "r5" (SyncElements.tmp_api_elements Examples.unmonitored_sync_env)
   = Some {| SyncElements.monitor_librenms := Some false;
             SyncElements.active := false;
             SyncElements.interfaces := None |} /\
   dict_get "r5" (SyncElements.librenms_elements Examples.unmonitored_sync_env)
   = Some {| SyncElements.element_ignore := 0 |} /\
   exists log,
     @SyncElements.main LiteralRe.literal_re quiet ["uplink"] ["Vlan"] ["r5"]
        Examples.unmonitored_sync_env [] = (log, Some tt) /\
     (forall v, ~ In (SyncElements.update_element "r5" v) log) /\
     SyncElementsLog.ignore_after "r5" (Some 0%Z) log = Some 0%Z) /\
  (dict_get "sw4" (Update.api_devices Examples.refreshed_update_env)
   = Some {| Update.enabled := false; Update.monitor_librenms := true;
             Update.alarm_interfaces := true; Update.interfaces := [] |} /\
   dict_get "sw4" (Update.librenms_devices Examples.refreshed_update_env)
   = Some {| Update.device_ignore := 0 |} /\
   exists log,
     @Update.main LiteralRe.literal_re quiet ["uplink"] ["Vlan"] ["core1"]
        Examples.refreshed_update_env [] = (log, Some tt) /\
     In (Update.delete_device "sw4") log /\
     (forall v, ~ In (Update.update_device "sw4" v) log)).
Proof.
split.
- split; [reflexivity|]. split; [reflexivity|].
  eexists. split; [vm_compute; reflexivity|]. split.
  + intros v Hin. simpl in Hin. intuition discriminate.
  + reflexivity.
- split; [reflexivity|]. split; [reflexivity|].
  eexists. split; [vm_compute; reflexivity|]. split.
  + do 6 right. left. reflexivity.
  + intros v Hin. simpl in Hin. intuition discriminate.
Qed.

(** C1, amended.  For every device that appears in both the source
    inventory and the LibreNMS inventory and that the job keeps (in
    update_librenms.py a device the Device-API marks enabled, or a
    persistent one; in sync_elements_to_librenms.py an element that is not
    flagged [monitor_librenms == False]), a run that finishes issues no
    delete call for the device and synchronises its device-level flag: it
    issues an update setting [ignore] to 0 when the source marks the device
    enabled (active) and LibreNMS has [ignore != 0], and an update setting
    [ignore] to 1 when the source marks it disabled (inactive) and LibreNMS
    has [ignore == 0], so that afterwards the device is in LibreNMS with
    [ignore == 0] exactly when the source marks it enabled (active).  In
    update_librenms.py the device list after [load_devices] is taken to
    hold the device as LibreNMS first reported it. *)
Theorem C1_kept_device_flag_synchronised `{Re} (raises : nat -> bool)
    (roles intfs : list regex) (persistent : list string) :
  (forall (e : Update.env) log r name ad ld,
     Update.main raises roles intfs persistent e [] = (log, Some r) ->
     dict_wf (Update.librenms_devices e) ->
     dict_wf (Update.librenms_devices_after_load e) ->
     dict_get name (Update.api_devices e) = Some ad ->
     dict_get name (Update.librenms_devices e) = Some ld ->
     dict_get name (Update.librenms_devices_after_load e) = Some ld ->
     Update.enabled ad = true \/ In name persistent ->
     ~ In (Update.delete_device name) log /\
     (Update.enabled ad = true -> Update.device_ignore ld <> 0%Z ->
      In (Update.update_device name 0) log) /\
     (Update.enabled ad = false -> Update.device_ignore ld = 0%Z ->
      In (Update.update_device name 1) log) /\
     (UpdateLog.ignore_after name (Some (Update.device_ignore ld)) log
      = Some 0%Z <->
      Update.enabled ad = true)) /\
  (forall (e : SyncElements.env) log r hostname ae le,
     SyncElements.main raises roles intfs persistent e [] = (log, Some r) ->
     dict_wf (SyncElements.tmp_api_elements e) ->
     dict_wf (SyncElements.librenms_elements e) ->
     dict_get hostname (SyncElements.tmp_api_elements e) = Some ae ->
     SyncElements.monitor_librenms ae <> Some false ->
     dict_get hostname (SyncElements.librenms_elements e) = Some le ->
     ~ In (SyncElements.delete_element hostname) log /\
     (SyncElements.active ae = true ->
      SyncElements.element_ignore le <> 0%Z ->
      In (SyncElements.update_element hostname 0) log) /\
     (SyncElements.active ae = false ->
      SyncElements.element_ignore le = 0%Z ->
      In (SyncElements.update_element hostname 1) log) /\
     (SyncElementsLog.ignore_after hostname
        (Some (SyncElements.element_ignore le)) log = Some 0%Z <->
      SyncElements.active ae = true)).
Proof.
split.
- intros e log r name ad ld Hrun Hwf Hwf' Ha Hl Hl' Hkeep.
  apply UpdateFacts.update_main_returns in Hrun. subst log.
  assert (Hview : dict_wf (Update.devices_at_update persistent e) /\
                  dict_get name (Update.devices_at_update persistent e)
                  = Some ld)
    by (unfold Update.devices_at_update; destruct (_ || _); now split).
  destruct Hview as [Hwfv Hv]. apply dict_get_In in Hv.
  assert (Hnd : ~ In name (Update.delete_in_librenms persistent e)).
  { intros Hin. apply update_In_delete_list in Hin.
    destruct Hin as [ld' [_ [Hp Hg]]]. rewrite Ha in Hg.
    destruct Hkeep as [He|Hper]; [congruence|].
    apply str_in_true in Hper. congruence. }
  destruct (update_device_data_cases ld ad) as [H0 [H1 [_ Hflag]]].
  assert (Hafter := @update_ignore_after_calls _ roles intfs persistent e
                      name ld ad Hwfv Hv Ha Hnd).
  repeat split.
  + intros Hin. now apply UpdateCalls.update_In_delete in Hin.
  + intros He Hi. apply UpdateCalls.update_In_update_device.
    exists ld, ad. auto.
  + intros He Hi. apply UpdateCalls.update_In_update_device.
    exists ld, ad. auto.
  + rewrite Hafter. intros [= Hz]. now apply Hflag.
  + rewrite Hafter. intros He. f_equal. now apply Hflag.
- intros e log r hostname ae le Hrun Hwf Hwfl Ht Hm Hl.
  apply SyncElementsFacts.sync_main_returns in Hrun. subst log.
  assert (Ha : dict_get hostname (SyncElements.api_elements e) = Some ae)
    by (apply sync_api_elements_get; auto).
  apply dict_get_In in Hl.
  assert (Hnd : ~ In hostname (SyncElements.delete_in_librenms persistent e)).
  { intros Hin. apply SyncElementsCalls.sync_In_delete_list in Hin.
    destruct Hin as [_ [Hout _]]. apply Hout.
    apply dict_in_true. unfold dict_in. now rewrite Ha. }
  destruct (sync_element_data_cases le ae) as [H0 [H1 [_ Hflag]]].
  assert (Hafter := @sync_ignore_after_calls _ roles intfs persistent e
                      hostname le ae Hwfl Hl Ha Hnd).
  repeat split.
  + intros Hin. now apply SyncElementsCalls.sync_In_delete in Hin.
  + intros He Hi. apply SyncElementsCalls.sync_In_update_element.
    exists le, ae. auto.
  + intros He Hi. apply SyncElementsCalls.sync_In_update_element.
    exists le, ae. auto.
  + rewrite Hafter. intros [= Hz]. now apply Hflag.
  + rewrite Hafter. intros He. f_equal. now apply Hflag.
Qed.

Lemma C1_kept_device_flag_synchronised_witness :
  (~ In (Update.delete_device "sw1")
        (fst (@Update.main LiteralRe.literal_re quiet ["uplink"] ["Vlan"]
                ["core1"] Examples.refreshed_update_env [])) /\
   In (Update.update_device "sw1" 0)
      (fst (@Update.main LiteralRe.literal_re quiet ["uplink"] ["Vlan"]
              ["core1"] Examples.refreshed_update_env [])) /\
   UpdateLog.ignore_after "sw1" (Some 1%Z)
      (fst (@Update.main LiteralRe.literal_re quiet ["uplink"] ["Vlan"]
              ["core1"] Examples.refreshed_update_env [])) = Some 0%Z) /\
  (~ In (SyncElements.delete_element "r3")
        (fst (@SyncElements.main LiteralRe.literal_re quiet ["uplink"]
                ["Vlan"] ["keep"] Examples.sync_env [])) /\
   In (SyncElements.update_element "r3" 1)
      (fst (@SyncElements.main LiteralRe.literal_re quiet ["uplink"] ["Vlan"]
              ["keep"] Examples.sync_env [])) /\
   SyncElementsLog.ignore_after "r3" (Some 0%Z)
      (fst (@SyncElements.main LiteralRe.literal_re quiet ["uplink"] ["Vlan"]
              ["keep"] Examples.sync_env [])) <> Some 0%Z).
Proof.
destruct (@C1_kept_device_flag_synchronised LiteralRe.literal_re quiet
            ["uplink"] ["Vlan"] ["core1"]) as [HU _].
destruct (@C1_kept_device_flag_synchronised LiteralRe.literal_re quiet
            ["uplink"] ["Vlan"] ["keep"]) as [_ HS].
split.
- destruct (HU Examples.refreshed_update_env
              (fst (@Update.main LiteralRe.literal_re quiet ["uplink"]
                      ["Vlan"] ["core1"] Examples.refreshed_update_env []))
              tt "sw1"
              {| Update.enabled := true; Update.monitor_librenms := true;
                 Update.alarm_interfaces := true;
                 Update.interfaces := Examples.sw1_interfaces |}
              {| Update.device_ignore := 1 |})
    as [Hkept [Hon [_ Hflag]]].
  + vm_compute. reflexivity.
  + unfold dict_wf. vm_compute.
    repeat constructor; simpl; intuition discriminate.
  + unfold dict_wf. vm_compute.
    repeat constructor; simpl; intuition discriminate.
  + reflexivity.
  + reflexivity.
  + reflexivity.
  + left. reflexivity.
  + split; [exact Hkept|]. split.
    * apply Hon; [reflexivity|discriminate].
    * apply Hflag. reflexivity.
- destruct (HS Examples.sync_env
              (fst (@SyncElements.main LiteralRe.literal_re quiet
                      ["uplink"] ["Vlan"] ["keep"] Examples.sync_env []))
              tt "r3"
              {| SyncElements.monitor_librenms := Some true;
                 SyncElements.active := false;
                 SyncElements.interfaces := None |}
              {| SyncElements.element_ignore := 0 |})
    as [Hkept [_ [Hoff Hflag]]].
  + vm_compute. reflexivity.
  + unfold dict_wf. vm_compute.
    repeat constructor; simpl; intuition discriminate.
  + unfold dict_wf. vm_compute.
    repeat constructor; simpl; intuition discriminate.
  + reflexivity.
  + discriminate.
  + reflexivity.
  + split; [exact Hkept|]. split.
    * apply Hoff; reflexivity.
    * intros H0. apply Hflag in H0. discriminate.
Defined.
